(** * zpay: payment order issuance and reconciliation

    A shallow embedding of the three route handlers of the repository

      - [POST /api/checkout/providers/zpay/url]     (order issuer),
      - [POST /api/checkout/providers/zpay/repay]   (redirect regenerator),
      - [GET  /api/checkout/providers/zpay/webhook] (webhook reconciler),

    together with the signing function [getVerifyParams] they share, the
    [zpay_transactions] table they read and write, and the parts of the
    JavaScript runtime they call (MD5, [parseFloat], [Date] arithmetic,
    [String.prototype.localeCompare], [URLSearchParams]). *)

From Stdlib Require Import ZArith List Bool Ascii String Lia Permutation Sorted.
From Stdlib Require Import DecimalString.
From Stdlib Require DecimalFacts DecimalPos.
From Stdlib Require Import Floats.SpecFloat.
Import ListNotations.

Local Open Scope string_scope.
Local Open Scope list_scope.
Local Open Scope Z_scope.

(** ** Strings as byte sequences

    A JavaScript string is modelled by the sequence of its UTF-8 bytes, which
    is what [crypto]'s [update] hashes and what goes on the wire. *)

Definition bytesOf (s : string) : list Z :=
  map (fun c => Z.of_N (N_of_ascii c)) (list_ascii_of_string s).

Definition hexDigit (n : Z) : ascii :=
  ascii_of_N (Z.to_N (if n <? 10 then 48 + n else 87 + n)).

Definition hexByte (b : Z) : string :=
  String (hexDigit (Z.shiftr b 4)) (String (hexDigit (Z.land b 15)) EmptyString).

(** ** MD5 (RFC 1321), on 32-bit words held in [Z] *)

Module MD5.

Definition mask32 : Z := 0xffffffff.
Definition add32 (x y : Z) : Z := Z.land (x + y) mask32.
Definition not32 (x : Z) : Z := Z.lxor x mask32.
Definition rotl32 (x n : Z) : Z :=
  Z.lor (Z.land (Z.shiftl x n) mask32) (Z.shiftr x (32 - n)).

Definition K : list Z :=
  [ 0xd76aa478; 0xe8c7b756; 0x242070db; 0xc1bdceee; 0xf57c0faf; 0x4787c62a; 0xa8304613; 0xfd469501;
    0x698098d8; 0x8b44f7af; 0xffff5bb1; 0x895cd7be; 0x6b901122; 0xfd987193; 0xa679438e; 0x49b40821;
    0xf61e2562; 0xc040b340; 0x265e5a51; 0xe9b6c7aa; 0xd62f105d; 0x02441453; 0xd8a1e681; 0xe7d3fbc8;
    0x21e1cde6; 0xc33707d6; 0xf4d50d87; 0x455a14ed; 0xa9e3e905; 0xfcefa3f8; 0x676f02d9; 0x8d2a4c8a;
    0xfffa3942; 0x8771f681; 0x6d9d6122; 0xfde5380c; 0xa4beea44; 0x4bdecfa9; 0xf6bb4b60; 0xbebfbc70;
    0x289b7ec6; 0xeaa127fa; 0xd4ef3085; 0x04881d05; 0xd9d4d039; 0xe6db99e5; 0x1fa27cf8; 0xc4ac5665;
    0xf4292244; 0x432aff97; 0xab9423a7; 0xfc93a039; 0x655b59c3; 0x8f0ccc92; 0xffeff47d; 0x85845dd1;
    0x6fa87e4f; 0xfe2ce6e0; 0xa3014314; 0x4e0811a1; 0xf7537e82; 0xbd3af235; 0x2ad7d2bb; 0xeb86d391 ].

Definition S : list Z :=
  [ 7; 12; 17; 22; 7; 12; 17; 22; 7; 12; 17; 22; 7; 12; 17; 22;
    5;  9; 14; 20; 5;  9; 14; 20; 5;  9; 14; 20; 5;  9; 14; 20;
    4; 11; 16; 23; 4; 11; 16; 23; 4; 11; 16; 23; 4; 11; 16; 23;
    6; 10; 15; 21; 6; 10; 15; 21; 6; 10; 15; 21; 6; 10; 15; 21 ].

(** Padding: a single 1 bit, zeros up to 56 mod 64, then the bit length as
    a 64-bit little-endian integer. *)
Definition leBytes (n : nat) (x : Z) : list Z :=
  map (fun i => Z.land (Z.shiftr x (8 * Z.of_nat i)) 255) (seq 0 n).

Definition pad (msg : list Z) : list Z :=
  let len := Z.of_nat (List.length msg) in
  let zeros := Z.to_nat ((55 - len) mod 64) in
  msg ++ [128] ++ repeat 0 zeros ++ leBytes 8 (Z.land (8 * len) 0xffffffffffffffff).

Fixpoint leWord (bs : list Z) : Z :=
  match bs with
  | [] => 0
  | b :: bs' => Z.lor b (Z.shiftl (leWord bs') 8)
  end.

(** The sixteen little-endian words of a 64-byte block. *)
Fixpoint words (n : nat) (bs : list Z) : list Z :=
  match n with
  | O => []
  | Datatypes.S n' => leWord (firstn 4 bs) :: words n' (skipn 4 bs)
  end.

Record state := mkState { sA : Z; sB : Z; sC : Z; sD : Z }.

Definition init : state :=
  mkState 0x67452301 0xefcdab89 0x98badcfe 0x10325476.

Definition round (M : list Z) (st : state) (i : nat) : state :=
  let '(mkState A B C D) := st in
  let iz := Z.of_nat i in
  let '(F, g) :=
    if iz <? 16 then (Z.lor (Z.land B C) (Z.land (not32 B) D), iz)
    else if iz <? 32 then (Z.lor (Z.land D B) (Z.land (not32 D) C), (5 * iz + 1) mod 16)
    else if iz <? 48 then (Z.lxor (Z.lxor B C) D, (3 * iz + 5) mod 16)
    else (Z.lxor C (Z.lor B (not32 D)), (7 * iz) mod 16) in
  let F' := add32 (add32 (add32 F A) (nth i K 0)) (nth (Z.to_nat g) M 0) in
  mkState D (add32 B (rotl32 F' (nth i S 0))) B C.

Definition block (st : state) (bs : list Z) : state :=
  let M := words 16 bs in
  let '(mkState A B C D) := fold_left (round M) (seq 0 64) st in
  mkState (add32 (sA st) A) (add32 (sB st) B) (add32 (sC st) C) (add32 (sD st) D).

Fixpoint blocks (n : nat) (st : state) (bs : list Z) : state :=
  match n with
  | O => st
  | Datatypes.S n' => blocks n' (block st (firstn 64 bs)) (skipn 64 bs)
  end.

Definition digest (msg : list Z) : list Z :=
  let p := pad msg in
  let '(mkState A B C D) := blocks (List.length p / 64) init p in
  leBytes 4 A ++ leBytes 4 B ++ leBytes 4 C ++ leBytes 4 D.

End MD5.

(** [crypto.createHash("md5").update(s).digest("hex")] *)
Definition md5hex (s : string) : string :=
  String.concat "" (map hexByte (MD5.digest (bytesOf s))).

(** ** The JavaScript runtime

    [localeCompare] is [String.prototype.localeCompare] with no locale
    argument: its result is decided by the host's collation tables, not by
    the repository, so the handlers are written against a [Runtime] that
    supplies it.  [LocalTZA] is the offset of the server's local time zone
    from UTC in milliseconds, taken to be constant. *)

Record Runtime := mkRuntime {
  localeCompare : string -> string -> comparison;
  LocalTZA : Z
}.

(** [Record<string, string>]: the own enumerable properties in the order
    [for (const key in params)] and [Object.entries] visit them; for keys
    that are not array indices this is insertion order.  Keys are distinct. *)
Definition JSRecord := list (string * string).

(** [Array.prototype.sort(compareFn)]: a stable sort; an element moves in
    front of another only when [compareFn] says it is smaller. *)
Section Sort.
Context {A : Type} (compareFn : A -> A -> comparison).

Fixpoint insertSorted (x : A) (l : list A) : list A :=
  match l with
  | [] => [x]
  | y :: l' =>
      match compareFn x y with
      | Gt => y :: insertSorted x l'
      | _ => x :: l
      end
  end.

Fixpoint sort (l : list A) : list A :=
  match l with
  | [] => []
  | x :: l' => insertSorted x (sort l')
  end.
End Sort.

(** ** The signing function (all three route files carry the same copy) *)

Definition isEmpty (s : string) : bool :=
  match s with EmptyString => true | _ => false end.

(** [!params[key] || key === "sign" || key === "sign_type"] *)
Definition skipped (kv : string * string) : bool :=
  isEmpty (snd kv) || String.eqb (fst kv) "sign" || String.eqb (fst kv) "sign_type".

Definition getVerifyParams (rt : Runtime) (params : JSRecord) : string :=
  let sPara := filter (fun kv => negb (skipped kv)) params in
  let sorted := sort (fun a b => localeCompare rt (fst a) (fst b)) sPara in
  String.concat "&" (map (fun kv => (fst kv ++ "=" ++ snd kv)%string) sorted).

(** [crypto.createHash("md5").update(str + key).digest("hex")] *)
Definition sign (rt : Runtime) (params : JSRecord) (key : string) : string :=
  md5hex (getVerifyParams rt params ++ key)%string.

(** *** The recipe in the words of the specification

    Same filter, join and digest, with the keys in byte-wise ascending
    order. *)
Fixpoint byteCompare (a b : string) : comparison :=
  match a, b with
  | EmptyString, EmptyString => Eq
  | EmptyString, String _ _ => Lt
  | String _ _, EmptyString => Gt
  | String x a', String y b' =>
      match N.compare (N_of_ascii x) (N_of_ascii y) with
      | Eq => byteCompare a' b'
      | c => c
      end
  end.

Definition specSigningString (params : JSRecord) : string :=
  let kept := filter (fun kv => negb (skipped kv)) params in
  let sorted := sort (fun a b => byteCompare (fst a) (fst b)) kept in
  String.concat "&" (map (fun kv => (fst kv ++ "=" ++ snd kv)%string) sorted).

Definition specSign (params : JSRecord) (key : string) : string :=
  md5hex (specSigningString params ++ key)%string.

(** *** A host collation for running the code on ASCII keys

    The comparison ICU performs for the root locale (the one Node.js uses
    for [localeCompare] on unaccented Latin text), restricted to ASCII:
    strings are compared first by the primary weights of their characters,
    skipping the completely ignorable control characters, and only when
    these agree by case, lower case first.  Primary order: white space,
    then [_ - , ; : ! ? . ' quote ( ) [ ] { } @ * / \ & # % ` ^ + < = > | ~ $],
    then digits, then letters.  Bytes above 127 lie outside this table (they
    are placed after the letters) and nothing below evaluates it on them. *)
Module RootCollation.

Definition punct : list Z :=
  [ 95; 45; 44; 59; 58; 33; 63; 46; 39; 34; 40; 41; 91; 93; 123; 125;
    64; 42; 47; 92; 38; 35; 37; 96; 94; 43; 60; 61; 62; 124; 126; 36 ].

Fixpoint indexOf (x : Z) (l : list Z) (i : Z) : option Z :=
  match l with
  | [] => None
  | y :: l' => if x =? y then Some i else indexOf x l' (i + 1)
  end.

(** 0 means completely ignorable. *)
Definition primary (c : Z) : Z :=
  if (9 <=? c) && (c <=? 13) then c - 8
  else if c <? 32 then 0
  else if c =? 32 then 6
  else if c =? 127 then 0
  else if (48 <=? c) && (c <=? 57) then 39 + (c - 48)
  else if (65 <=? c) && (c <=? 90) then 49 + (c - 65)
  else if (97 <=? c) && (c <=? 122) then 49 + (c - 97)
  else match indexOf c punct 7 with
       | Some w => w
       | None => 75 + c
       end.

Definition tertiary (c : Z) : Z :=
  if (65 <=? c) && (c <=? 90) then 1 else 0.

Definition elements (s : string) : list Z :=
  filter (fun c => negb (primary c =? 0)) (bytesOf s).

Fixpoint lexCompare (a b : list Z) : comparison :=
  match a, b with
  | [], [] => Eq
  | [], _ :: _ => Lt
  | _ :: _, [] => Gt
  | x :: a', y :: b' =>
      match Z.compare x y with
      | Eq => lexCompare a' b'
      | c => c
      end
  end.

Definition compare (a b : string) : comparison :=
  match lexCompare (map primary (elements a)) (map primary (elements b)) with
  | Eq => lexCompare (map tertiary (elements a)) (map tertiary (elements b))
  | c => c
  end.

End RootCollation.

(** A Node.js server running in UTC. *)
Definition nodeUTC : Runtime := mkRuntime RootCollation.compare 0.

(** ** Numbers: IEEE 754 binary64

    A JavaScript Number is a [spec_float] of precision 53 and maximal
    exponent 1024; subtraction, absolute value and comparison are the
    correctly rounded operations of that format. *)

Definition Number := spec_float.

Definition prec64 : Z := 53.
Definition emax64 : Z := 1024.

Definition isNaN (x : Number) : bool :=
  match x with S754_nan => true | _ => false end.

Definition numSub (x y : Number) : Number := SFsub prec64 emax64 x y.
Definition MathAbs (x : Number) : Number := SFabs x.
Definition numGt (x y : Number) : bool := SFltb y x.

(** The Number nearest to [(-1)^neg * m * 10^e10] (ties to even): what
    reading a decimal literal yields. *)
Definition numberOfDecimal (neg : bool) (m : Z) (e10 : Z) : Number :=
  match m with
  | Zpos p =>
      if 0 <=? e10
      then binary_normalize prec64 emax64 ((if neg then -1 else 1) * (m * 10 ^ e10)) 0 false
      else SFdiv prec64 emax64 (S754_finite neg p 0)
                               (S754_finite false (Z.to_pos (10 ^ (- e10))) 0)
  | _ => S754_zero neg
  end.

(** *** [parseFloat]

    Leading white space is dropped, then the longest prefix that is a
    [StrDecimalLiteral] is read; there is none exactly when the result is
    [NaN]. *)

Definition isDigit (c : ascii) : bool :=
  let n := N_of_ascii c in (48 <=? n)%N && (n <=? 57)%N.

Definition digitVal (c : ascii) : Z := Z.of_N (N_of_ascii c) - 48.

(** The bytes of one white-space or line-terminator character at the head
    of the string, if any: TAB, LF, VT, FF, CR, SP, U+00A0, U+1680,
    U+2000..U+200A, U+2028, U+2029, U+202F, U+205F, U+3000, U+FEFF. *)
Definition whiteSpaceAt (s : string) : option string :=
  match s with
  | String c rest =>
      let n := Z.of_N (N_of_ascii c) in
      if ((9 <=? n) && (n <=? 13)) || (n =? 32) then Some rest
      else match rest with
      | String c1 rest1 =>
          let n1 := Z.of_N (N_of_ascii c1) in
          if (n =? 0xC2) && (n1 =? 0xA0) then Some rest1
          else match rest1 with
          | String c2 rest2 =>
              let n2 := Z.of_N (N_of_ascii c2) in
              if (n =? 0xE1) && (n1 =? 0x9A) && (n2 =? 0x80) then Some rest2
              else if (n =? 0xE2) && (n1 =? 0x80)
                      && (((0x80 <=? n2) && (n2 <=? 0x8A)) || (n2 =? 0xA8) || (n2 =? 0xA9) || (n2 =? 0xAF))
                   then Some rest2
              else if (n =? 0xE2) && (n1 =? 0x81) && (n2 =? 0x9F) then Some rest2
              else if (n =? 0xE3) && (n1 =? 0x80) && (n2 =? 0x80) then Some rest2
              else if (n =? 0xEF) && (n1 =? 0xBB) && (n2 =? 0xBF) then Some rest2
              else None
          | _ => None
          end
      | _ => None
      end
  | _ => None
  end.

Fixpoint trimStart (fuel : nat) (s : string) : string :=
  match fuel with
  | O => s
  | S fuel' =>
      match whiteSpaceAt s with
      | Some rest => trimStart fuel' rest
      | None => s
      end
  end.

(** The maximal run of decimal digits at the head: its value, its length,
    and what follows. *)
Fixpoint takeDigits (s : string) (acc : Z) (n : Z) : Z * Z * string :=
  match s with
  | String c rest =>
      if isDigit c then takeDigits rest (10 * acc + digitVal c) (n + 1)
      else (acc, n, s)
  | EmptyString => (acc, n, s)
  end.

Definition takeSign (s : string) : bool * string :=
  match s with
  | String "-" rest => (true, rest)
  | String "+" rest => (false, rest)
  | _ => (false, s)
  end.

(** [ExponentPart]: [e] or [E], an optional sign and at least one digit;
    anything less is not part of the literal. *)
Definition takeExponent (s : string) : Z :=
  match s with
  | String c rest =>
      if (Ascii.eqb c "e" || Ascii.eqb c "E")%bool then
        let '(neg, rest') := takeSign rest in
        let '(v, n, _) := takeDigits rest' 0 0 in
        if n =? 0 then 0 else if neg then - v else v
      else 0
  | EmptyString => 0
  end.

Inductive Literal :=
| LitNaN
| LitInfinity (neg : bool)
| LitDecimal (neg : bool) (mantissa : Z) (exp10 : Z).

Definition startsWith (p s : string) : bool := String.prefix p s.

Definition readLiteral (input : string) : Literal :=
  let s := trimStart (String.length input) input in
  let '(neg, s1) := takeSign s in
  if startsWith "Infinity" s1 then LitInfinity neg
  else
    let '(ip, ni, s2) := takeDigits s1 0 0 in
    match s2 with
    | String "." s3 =>
        let '(fp, nf, s4) := takeDigits s3 0 0 in
        if (ni =? 0) && (nf =? 0) then LitNaN
        else LitDecimal neg (ip * 10 ^ nf + fp) (takeExponent s4 - nf)
    | _ =>
        if ni =? 0 then LitNaN
        else LitDecimal neg ip (takeExponent s2)
    end.

Definition parseFloat (input : string) : Number :=
  match readLiteral input with
  | LitNaN => S754_nan
  | LitInfinity neg => S754_infinity neg
  | LitDecimal neg m e => numberOfDecimal neg m e
  end.

(** *** The [money DECIMAL(10, 2)] column

    A stored amount is an exact number of hundredths.  What the client
    library hands to JavaScript is the Number nearest to it, and
    [parseFloat] of that Number (through its shortest decimal rendering)
    is the same Number again. *)
Definition Numeric := Z.

Definition numberOfNumeric (cents : Numeric) : Number :=
  numberOfDecimal (cents <? 0) (Z.abs cents) (-2).

(** [String(n)] for such a Number: the shortest decimal that reads back as
    [n] is the stored amount itself, without trailing zeros. *)
Definition decimalString (z : Z) : string := NilZero.string_of_int (Z.to_int z).

Definition stringOfNumeric (cents : Numeric) : string :=
  let a := Z.abs cents in
  let ip := decimalString (a / 100) in
  let f := a mod 100 in
  let frac :=
    if f =? 0 then ""
    else if f mod 10 =? 0 then ("." ++ decimalString (f / 10))%string
    else if f <? 10 then (".0" ++ decimalString f)%string
    else ("." ++ decimalString f)%string in
  let sgn := if cents <? 0 then "-" else "" in
  (sgn ++ ip ++ frac)%string.

(** [0.001], the tolerance of the amount check. *)
Definition tolerance : Number := numberOfDecimal false 1 (-3).

(** ** Dates (ECMAScript time values)

    A time value is a number of milliseconds since 1970-01-01T00:00:00Z.
    All the values the handlers compute are integers of magnitude far below
    2^53, on which Number arithmetic is exact, so they are kept in [Z]. *)

Definition Time := Z.

Definition msPerDay : Z := 86400000.

Definition Day (t : Z) : Z := t / msPerDay.
Definition TimeWithinDay (t : Z) : Z := t mod msPerDay.

Definition DayFromYear (y : Z) : Z :=
  365 * (y - 1970) + (y - 1969) / 4 - (y - 1901) / 100 + (y - 1601) / 400.

Definition DaysInYear (y : Z) : Z := DayFromYear (y + 1) - DayFromYear y.

(** The largest [y] with [DayFromYear y <= Day t]: a first guess from the
    mean length of a year is off by at most one. *)
Definition YearFromTime (t : Z) : Z :=
  let d := Day t in
  let y := 1970 + (400 * d) / 146097 in
  if d <? DayFromYear y then y - 1
  else if DayFromYear (y + 1) <=? d then y + 1
  else y.

Definition InLeapYear (t : Z) : Z := DaysInYear (YearFromTime t) - 365.
Definition DayWithinYear (t : Z) : Z := Day t - DayFromYear (YearFromTime t).

(** First day of month [m] (0 = January) within a year, [leap] being 0 or 1. *)
Definition monthStart (m leap : Z) : Z :=
  match m with
  | 0 => 0
  | 1 => 31
  | 2 => 59 + leap
  | 3 => 90 + leap
  | 4 => 120 + leap
  | 5 => 151 + leap
  | 6 => 181 + leap
  | 7 => 212 + leap
  | 8 => 243 + leap
  | 9 => 273 + leap
  | 10 => 304 + leap
  | 11 => 334 + leap
  | _ => 365 + leap
  end.

(** The month that day [d] of a year falls in. *)
Definition monthOfDay (d leap : Z) : Z :=
  if d <? monthStart 1 leap then 0
  else if d <? monthStart 2 leap then 1
  else if d <? monthStart 3 leap then 2
  else if d <? monthStart 4 leap then 3
  else if d <? monthStart 5 leap then 4
  else if d <? monthStart 6 leap then 5
  else if d <? monthStart 7 leap then 6
  else if d <? monthStart 8 leap then 7
  else if d <? monthStart 9 leap then 8
  else if d <? monthStart 10 leap then 9
  else if d <? monthStart 11 leap then 10
  else 11.

Definition MonthFromTime (t : Z) : Z := monthOfDay (DayWithinYear t) (InLeapYear t).

Definition DateFromTime (t : Z) : Z :=
  DayWithinYear t - monthStart (MonthFromTime t) (InLeapYear t) + 1.

Definition HourFromTime (t : Z) : Z := (t / 3600000) mod 24.
Definition MinFromTime (t : Z) : Z := (t / 60000) mod 60.
Definition SecFromTime (t : Z) : Z := (t / 1000) mod 60.

(** [MakeDay(year, month, date)]: months beyond December carry into the
    year, days beyond the end of the month run on into the next one. *)
Definition MakeDay (year month date : Z) : Z :=
  let ym := year + month / 12 in
  let mn := month mod 12 in
  DayFromYear ym + monthStart mn (DaysInYear ym - 365) + date - 1.

Definition MakeDate (day time : Z) : Z := day * msPerDay + time.

(** A [Date] object holds a time value or [NaN] ([None], an invalid date). *)
Definition JSDate := option Z.

Definition TimeClip (t : Z) : JSDate :=
  if Z.abs t <=? 8640000000000000 then Some t else None.

Section LocalTime.
Variable rt : Runtime.

Definition LocalTime (t : Z) : Z := t + LocalTZA rt.
Definition UTC (t : Z) : Z := t - LocalTZA rt.

(** [d.getMonth()], [d.getFullYear()]: [None] is [NaN]. *)
Definition getMonth (d : JSDate) : option Z :=
  option_map (fun t => MonthFromTime (LocalTime t)) d.

Definition getFullYear (d : JSDate) : option Z :=
  option_map (fun t => YearFromTime (LocalTime t)) d.

(** [d.setMonth(month)] *)
Definition setMonth (d : JSDate) (month : option Z) : JSDate :=
  match d, month with
  | Some tv, Some m =>
      let t := LocalTime tv in
      TimeClip (UTC (MakeDate (MakeDay (YearFromTime t) m (DateFromTime t))
                              (TimeWithinDay t)))
  | _, _ => None
  end.

(** [d.setFullYear(year)] *)
Definition setFullYear (d : JSDate) (year : option Z) : JSDate :=
  match d, year with
  | Some tv, Some y =>
      let t := LocalTime tv in
      TimeClip (UTC (MakeDate (MakeDay y (MonthFromTime t) (DateFromTime t))
                              (TimeWithinDay t)))
  | _, _ => None
  end.
End LocalTime.

(** [d.toISOString()] throws a [RangeError] on an invalid date ([None]);
    otherwise it renders the time value, and the [timestamptz] column it is
    written to holds that same instant. *)
Definition toISOString (d : JSDate) : option Time := d.

(** [new Date(s)] for a [timestamptz] read back from the table. *)
Definition newDateOf (t : Time) : JSDate := TimeClip t.

(** ** The [zpay_transactions] table *)

Record Transaction := mkTransaction {
  user_id : string;
  product_id : string;
  name : string;
  out_trade_no : string;                   (* TEXT NOT NULL UNIQUE *)
  trade_no : option string;                (* TEXT, NULL until paid *)
  money : Numeric;                         (* DECIMAL(10, 2) NOT NULL *)
  type : string;                           (* alipay, wxpay *)
  status : string;                         (* pending, paid, failed *)
  is_subscription : bool;
  subscription_period : option string;     (* monthly, yearly or NULL *)
  subscription_start_date : option Time;
  subscription_end_date : option Time;
  created_at : Time;
  updated_at : Time
}.

Definition Ledger := list Transaction.

(** The object passed to [.update(...)]: [status], [trade_no] and
    [updated_at] always, the two subscription dates only when the webhook
    computed them. *)
Record UpdateData := mkUpdateData {
  set_status : string;
  set_trade_no : string;
  set_updated_at : Time;
  set_subscription_dates : option (Time * Time)
}.

(** The object passed to [.insert(...)]; [None] for [money] is a value the
    column refuses. *)
Record InsertData := mkInsertData {
  ins_user_id : string;
  ins_product_id : string;
  ins_out_trade_no : string;
  ins_money : option Numeric;
  ins_name : string;
  ins_type : string;
  ins_status : string;
  ins_is_subscription : bool;
  ins_subscription_period : option string
}.

Definition applyUpdate (d : UpdateData) (r : Transaction) : Transaction :=
  mkTransaction
    (user_id r) (product_id r) (name r) (out_trade_no r)
    (Some (set_trade_no d)) (money r) (type r) (set_status d)
    (is_subscription r) (subscription_period r)
    (match set_subscription_dates d with
     | Some (s, _) => Some s
     | None => subscription_start_date r
     end)
    (match set_subscription_dates d with
     | Some (_, e) => Some e
     | None => subscription_end_date r
     end)
    (created_at r) (set_updated_at d).

(** [.update(data).eq("out_trade_no", no).eq("status", st).select()]:
    one statement; the rows it matched, after the update, are returned. *)
Definition updateMatches (no st : string) (r : Transaction) : bool :=
  String.eqb (out_trade_no r) no && String.eqb (status r) st.

Definition dbUpdate (d : UpdateData) (no st : string) (db : Ledger) : Ledger * list Transaction :=
  (map (fun r => if updateMatches no st r then applyUpdate d r else r) db,
   map (applyUpdate d) (filter (updateMatches no st) db)).

(** [.single()]: an error unless exactly one row matches. *)
Definition single (rows : list Transaction) : option Transaction :=
  match rows with
  | [r] => Some r
  | _ => None
  end.

(** [.select("*").eq("out_trade_no", no).single()] with the service role. *)
Definition dbSelectByOutTradeNo (no : string) (db : Ledger) : option Transaction :=
  single (filter (fun r => String.eqb (out_trade_no r) no) db).

(** [.select("*").eq("out_trade_no", no).eq("status", "pending").single()]
    with the session of user [uid]: the row-level policy
    [auth.uid() = user_id] hides every other user's rows. *)
Definition dbSelectOwnPending (uid no : string) (db : Ledger) : option Transaction :=
  single (filter (fun r => String.eqb (user_id r) uid
                           && String.eqb (out_trade_no r) no
                           && String.eqb (status r) "pending") db).

(** The subscription query of the webhook: the largest
    [subscription_end_date] among the user's paid subscription rows whose
    end date is later than [now], as a list of at most one element. *)
Definition activeSubscription (uid : string) (now : Time) (r : Transaction) : bool :=
  String.eqb (user_id r) uid
  && is_subscription r
  && String.eqb (status r) "paid"
  && match subscription_end_date r with
     | Some e => now <? e
     | None => false
     end.

Definition endDateOf (r : Transaction) : Time :=
  match subscription_end_date r with Some e => e | None => 0 end.

Definition dbSelectActiveSubscriptions (uid : string) (now : Time) (db : Ledger) : list Time :=
  firstn 1 (sort (fun a b => Z.compare b a)
                 (map endDateOf (filter (activeSubscription uid now) db))).

(** [.insert(row)]: refused when the order number is taken (UNIQUE) or the
    amount is not a value of the column; [created_at] and [updated_at]
    default to the time of the insert. *)
Definition dbInsert (d : InsertData) (now : Time) (db : Ledger) : option Ledger :=
  match ins_money d with
  | None => None
  | Some m =>
      if existsb (fun r => String.eqb (out_trade_no r) (ins_out_trade_no d)) db
      then None
      else Some (db ++ [mkTransaction
                          (ins_user_id d) (ins_product_id d) (ins_name d)
                          (ins_out_trade_no d) None m (ins_type d) (ins_status d)
                          (ins_is_subscription d) (ins_subscription_period d)
                          None None now now])
  end.

(** ** Responses *)

Inductive Body :=
| Text (s : string)              (* new NextResponse(s, ...) *)
| JsonError (error : string)     (* NextResponse.json({ error }, ...) *)
| JsonUrl (url : string).        (* NextResponse.json({ url }) *)

Record NextResponse := mkResponse { body : Body; httpStatus : Z }.

(** ** Handlers

    A handler is the tree of what it asks of the outside world, one node
    per [await]ed database call, clock reading or random draw, each with
    the continuation that receives the answer.  A database answer of
    [None] is an [error]. *)
Inductive Handler :=
| Respond (r : NextResponse)
| NewDate (k : JSDate -> Handler)
| RandomBelow1000 (k : Z -> Handler)     (* Math.floor(Math.random() * 1000) *)
| SelectByOutTradeNo (no : string) (k : option Transaction -> Handler)
| SelectOwnPending (uid no : string) (k : option Transaction -> Handler)
| SelectActiveSubscriptions (uid : string) (now : Time) (k : option (list Time) -> Handler)
| Update (data : UpdateData) (no st : string) (k : option (list Transaction) -> Handler)
| Insert (data : InsertData) (k : bool -> Handler).   (* k receives "dbError is set" *)

(** What the [catch] block of each route returns. *)
Definition serverError500 : NextResponse := mkResponse (Text "服务器错误") 500.
Definition internalError500 : NextResponse := mkResponse (JsonError "服务器内部错误") 500.

(** ** Requests and configuration *)

(** [URLSearchParams]: the name-value pairs in order; [get] returns the
    first value of a name, or [null]. *)
Definition URLSearchParams := list (string * string).

Fixpoint get (sp : URLSearchParams) (key : string) : option string :=
  match sp with
  | [] => None
  | (k, v) :: sp' => if String.eqb k key then Some v else get sp' key
  end.

(** [x || ""] *)
Definition orEmpty (x : option string) : string :=
  match x with Some s => s | None => "" end.

(** A string-or-undefined value that is not falsy. *)
Definition truthy (x : option string) : option string :=
  match x with
  | Some EmptyString => None
  | _ => x
  end.

(** [URLSearchParams.prototype.toString]: the
    application/x-www-form-urlencoded serializer. *)
Definition upperHexDigit (n : Z) : ascii :=
  ascii_of_N (Z.to_N (if n <? 10 then 48 + n else 55 + n)).

Definition formEncodeByte (c : ascii) : string :=
  let n := Z.of_N (N_of_ascii c) in
  if ((48 <=? n) && (n <=? 57)) || ((65 <=? n) && (n <=? 90)) || ((97 <=? n) && (n <=? 122))
     || (n =? 42) || (n =? 45) || (n =? 46) || (n =? 95)
  then String c EmptyString
  else if n =? 32 then "+"
  else String "%" (String (upperHexDigit (Z.shiftr n 4))
                          (String (upperHexDigit (Z.land n 15)) EmptyString)).

Definition formEncode (s : string) : string :=
  String.concat "" (map formEncodeByte (list_ascii_of_string s)).

Definition urlParamsToString (sp : URLSearchParams) : string :=
  String.concat "&" (map (fun kv => (formEncode (fst kv) ++ "=" ++ formEncode (snd kv))%string) sp).

(** [process.env] *)
Record ProcessEnv := mkProcessEnv {
  ZPAY_PID : option string;
  ZPAY_KEY : option string;
  NEXT_PUBLIC_BASE_URL : option string
}.

(** The catalog imported from [@/lib/products]: a lookup by product id,
    with the fields of a product the issuer reads. *)
Module Product.
Record t := mk {
  name : string;
  price : string;
  isSubscription : bool;
  subscriptionPeriod : option string
}.
End Product.

Definition Catalog := string -> option Product.t.

(** [money: parseFloat(product.price)] as it reaches the [DECIMAL(10, 2)]
    column: the number read from the price, rounded to hundredths (halves
    away from zero).  [NaN] and the infinities are sent as [null], which
    the column refuses, as it refuses an amount of 10^8 or more.  The
    decimal rendering of the parsed Number is taken to be the decimal that
    was read, which holds for prices of up to 15 significant digits. *)
Definition numericOfPrice (price : string) : option Numeric :=
  match readLiteral price with
  | LitDecimal neg m e =>
      let scaled :=
        if 0 <=? e + 2 then m * 10 ^ (e + 2)
        else let d := 10 ^ (- (e + 2)) in (2 * m + d) / (2 * d) in
      if scaled <? 10 ^ 10 then Some (if neg then - scaled else scaled) else None
  | _ => None
  end.

(** [s.padStart(n, "0")] *)
Definition padStart (n : nat) (s : string) : string :=
  (String.concat "" (repeat "0" (n - String.length s)) ++ s)%string.

(** [String(x)] for an integer-valued Number or [NaN]. *)
Definition stringOfInt (x : option Z) : string :=
  match x with
  | Some z => decimalString z
  | None => "NaN"
  end.

(** ** The order issuer: [POST /api/checkout/providers/zpay/url] *)
Module UrlRoute.

(** Order number: YYYYMMDDHHmmss in local time and three random digits. *)
Definition orderNo (rt : Runtime) (now : JSDate) (r : Z) : string :=
  let local := option_map (LocalTime rt) now in
  let year := option_map YearFromTime local in
  let month := padStart 2 (stringOfInt (option_map (fun t => MonthFromTime t + 1) local)) in
  let day := padStart 2 (stringOfInt (option_map DateFromTime local)) in
  let hours := padStart 2 (stringOfInt (option_map HourFromTime local)) in
  let minutes := padStart 2 (stringOfInt (option_map MinFromTime local)) in
  let seconds := padStart 2 (stringOfInt (option_map SecFromTime local)) in
  let timestamp := (stringOfInt year ++ month ++ day ++ hours ++ minutes ++ seconds)%string in
  let random := padStart 3 (decimalString r) in
  (timestamp ++ random)%string.

Definition generateOrderNo (rt : Runtime) (k : string -> Handler) : Handler :=
  NewDate (fun now => RandomBelow1000 (fun r => k (orderNo rt now r))).

(** The JSON body; [None] for a field is [undefined]. *)
Record Body := mkBody { productId : option string; payType : option string }.

(** [user] is the outcome of [supabase.auth.getUser()] (the user's id, or
    [None] when there is an error or no user); [body] is [None] when
    [request.json()] throws. *)
Definition POST (rt : Runtime) (env : ProcessEnv) (products : Catalog)
           (user : option string) (body : option Body) : Handler :=
  match user with
  | None => Respond (mkResponse (JsonError "请先登录后再进行支付") 401)
  | Some uid =>
  match body with
  | None => Respond internalError500
  | Some b =>
  let productId := match productId b with Some p => p | None => "undefined" end in
  let payType := match payType b with Some p => p | None => "alipay" end in
  if negb (String.eqb payType "alipay" || String.eqb payType "wxpay")
  then Respond (mkResponse (JsonError "不支持的支付方式") 400)
  else
  match products productId with
  | None => Respond (mkResponse (JsonError "产品不存在") 400)
  | Some product =>
  match truthy (ZPAY_PID env), truthy (ZPAY_KEY env), truthy (NEXT_PUBLIC_BASE_URL env) with
  | Some pid, Some key, Some baseUrl =>
      generateOrderNo rt (fun outTradeNo =>
        let notifyUrl := (baseUrl ++ "/api/checkout/providers/zpay/webhook")%string in
        let returnUrl := (baseUrl ++ "/payment/success")%string in
        let params : JSRecord :=
          [ ("pid", pid);
            ("money", Product.price product);
            ("name", Product.name product);
            ("notify_url", notifyUrl);
            ("out_trade_no", outTradeNo);
            ("return_url", returnUrl);
            ("type", payType) ] in
        let str := getVerifyParams rt params in
        let sign := md5hex (str ++ key)%string in
        Insert (mkInsertData uid productId outTradeNo
                  (numericOfPrice (Product.price product))
                  (Product.name product) payType "pending"
                  (Product.isSubscription product)
                  (truthy (Product.subscriptionPeriod product)))
          (fun dbError =>
             if dbError
             then Respond (mkResponse (JsonError "创建订单失败，请稍后重试") 500)
             else
               let urlParams := params ++ [("sign", sign); ("sign_type", "MD5")] in
               let paymentUrl :=
                 ("https://zpayz.cn/submit.php?" ++ urlParamsToString urlParams)%string in
               Respond (mkResponse (JsonUrl paymentUrl) 200)))
  | _, _, _ =>
      Respond (mkResponse (JsonError "支付服务配置错误，请联系管理员") 500)
  end end end end.

End UrlRoute.

(** ** The redirect regenerator: [POST /api/checkout/providers/zpay/repay] *)
Module RepayRoute.

Record Body := mkBody { outTradeNo : option string }.

Definition POST (rt : Runtime) (env : ProcessEnv)
           (user : option string) (body : option Body) : Handler :=
  match user with
  | None => Respond (mkResponse (JsonError "请先登录后再进行支付") 401)
  | Some uid =>
  match body with
  | None => Respond internalError500
  | Some b =>
  match truthy (outTradeNo b) with
  | None => Respond (mkResponse (JsonError "缺少订单号") 400)
  | Some outTradeNo =>
  SelectOwnPending uid outTradeNo (fun found =>
    match found with
    | None => Respond (mkResponse (JsonError "订单不存在或已支付") 404)
    | Some transaction =>
    match truthy (ZPAY_PID env), truthy (ZPAY_KEY env), truthy (NEXT_PUBLIC_BASE_URL env) with
    | Some pid, Some key, Some baseUrl =>
        let notifyUrl := (baseUrl ++ "/api/checkout/providers/zpay/webhook")%string in
        let returnUrl := (baseUrl ++ "/payment/success")%string in
        let params : JSRecord :=
          [ ("pid", pid);
            ("money", stringOfNumeric (money transaction));
            ("name", name transaction);
            ("notify_url", notifyUrl);
            ("out_trade_no", out_trade_no transaction);
            ("return_url", returnUrl);
            ("type", type transaction) ] in
        let str := getVerifyParams rt params in
        let sign := md5hex (str ++ key)%string in
        let urlParams := params ++ [("sign", sign); ("sign_type", "MD5")] in
        let paymentUrl :=
          ("https://zpayz.cn/submit.php?" ++ urlParamsToString urlParams)%string in
        Respond (mkResponse (JsonUrl paymentUrl) 200)
    | _, _, _ =>
        Respond (mkResponse (JsonError "支付服务配置错误，请联系管理员") 500)
    end end)
  end end end.

End RepayRoute.

(** ** The webhook reconciler: [GET /api/checkout/providers/zpay/webhook] *)
Module WebhookRoute.

Definition success : NextResponse := mkResponse (Text "success") 200.

(** [if (v) verifyParams.k = v] *)
Definition field (k v : string) : JSRecord :=
  if isEmpty v then [] else [(k, v)].

(** The amount check: [isNaN(receivedMoney) || isNaN(expectedMoney) ||
    Math.abs(receivedMoney - expectedMoney) > 0.001]. *)
Definition amountMismatch (receivedMoney expectedMoney : Number) : bool :=
  isNaN receivedMoney || isNaN expectedMoney
  || numGt (MathAbs (numSub receivedMoney expectedMoney)) tolerance.

(** Step 7: the conditional update and the three ways it can end. *)
Definition conditionalUpdate (updateData : UpdateData) (outTradeNo : string) : Handler :=
  Update updateData outTradeNo "pending" (fun updatedRows =>
    match updatedRows with
    | None => Respond (mkResponse (Text "更新失败") 500)
    | Some [] => Respond success
    | Some (_ :: _) => Respond success
    end).

(** Step 6, from the start date on: the end date and the two fields added
    to [updateData]; [toISOString] throws on an invalid date. *)
Definition withSubscription (rt : Runtime) (period tradeNo : string) (updated_at : Time)
           (outTradeNo : string) (startDate : JSDate) : Handler :=
  let endDate :=
    if String.eqb period "monthly"
    then setMonth rt startDate (option_map (Z.add 1) (getMonth rt startDate))
    else if String.eqb period "yearly"
    then setFullYear rt startDate (option_map (Z.add 1) (getFullYear rt startDate))
    else startDate in
  match toISOString startDate, toISOString endDate with
  | Some s, Some e =>
      conditionalUpdate (mkUpdateData "paid" tradeNo updated_at (Some (s, e))) outTradeNo
  | _, _ => Respond serverError500
  end.

(** Steps 5 and 6, once the amount has been accepted. *)
Definition settle (rt : Runtime) (tradeNo outTradeNo : string) (transaction : Transaction) : Handler :=
  NewDate (fun now1 =>
    match toISOString now1 with
    | None => Respond serverError500
    | Some updated_at =>
    match is_subscription transaction, truthy (subscription_period transaction) with
    | true, Some period =>
        NewDate (fun now2 =>
          match toISOString now2 with
          | None => Respond serverError500
          | Some nowIso =>
          SelectActiveSubscriptions (user_id transaction) nowIso (fun existingSubscriptions =>
            match existingSubscriptions with
            | Some (latest :: _) =>
                withSubscription rt period tradeNo updated_at outTradeNo (newDateOf latest)
            | _ =>
                NewDate (fun now3 =>
                  withSubscription rt period tradeNo updated_at outTradeNo now3)
            end)
          end)
    | _, _ =>
        conditionalUpdate (mkUpdateData "paid" tradeNo updated_at None) outTradeNo
    end end).

(** Step 4, from the answer of the order query on. *)
Definition reconcile (rt : Runtime) (money_ tradeNo outTradeNo : string)
           (found : option Transaction) : Handler :=
  match found with
  | None => Respond (mkResponse (Text "订单不存在") 400)
  | Some transaction =>
      if String.eqb (status transaction) "paid"
      then Respond success
      else
        let receivedMoney := parseFloat money_ in
        let expectedMoney := numberOfNumeric (money transaction) in
        if amountMismatch receivedMoney expectedMoney
        then Respond (mkResponse (Text "金额不匹配") 400)
        else settle rt tradeNo outTradeNo transaction
  end.

(** The fields the signature is checked over: the eight that are read,
    each only when not empty. *)
Definition verifyParams (searchParams : URLSearchParams) : JSRecord :=
  let pid := orEmpty (get searchParams "pid") in
  let name := orEmpty (get searchParams "name") in
  let money_ := orEmpty (get searchParams "money") in
  let outTradeNo := orEmpty (get searchParams "out_trade_no") in
  let tradeNo := orEmpty (get searchParams "trade_no") in
  let param := orEmpty (get searchParams "param") in
  let tradeStatus := orEmpty (get searchParams "trade_status") in
  let type := orEmpty (get searchParams "type") in
  field "pid" pid ++ field "name" name ++ field "money" money_
  ++ field "out_trade_no" outTradeNo ++ field "trade_no" tradeNo
  ++ field "param" param ++ field "trade_status" tradeStatus
  ++ field "type" type.

Definition expectedSign (rt : Runtime) (key : string) (searchParams : URLSearchParams) : string :=
  let str := getVerifyParams rt (verifyParams searchParams) in
  md5hex (str ++ key)%string.

Definition GET (rt : Runtime) (env : ProcessEnv) (searchParams : URLSearchParams) : Handler :=
  let money_ := orEmpty (get searchParams "money") in
  let outTradeNo := orEmpty (get searchParams "out_trade_no") in
  let tradeNo := orEmpty (get searchParams "trade_no") in
  let tradeStatus := orEmpty (get searchParams "trade_status") in
  let sign := orEmpty (get searchParams "sign") in
  match truthy (ZPAY_KEY env) with
  | None => Respond (mkResponse (Text "配置错误") 500)
  | Some key =>
      if negb (String.eqb sign (expectedSign rt key searchParams))
      then Respond (mkResponse (Text "签名验证失败") 400)
      else if negb (String.eqb tradeStatus "TRADE_SUCCESS")
      then Respond success
      else SelectByOutTradeNo outTradeNo (reconcile rt money_ tradeNo outTradeNo)
  end.

End WebhookRoute.

(** ** Running handlers

    The world a handler runs in: the table, and how many times the clock
    and the random generator have been read.  An [Oracle] fixes what the
    successive readings are.  The store answers every call (no transport
    errors), each call being one atomic statement. *)

Record Oracle := mkOracle {
  clock : nat -> Z;       (* the n-th reading of the clock, in ms *)
  random : nat -> Z       (* the n-th value of Math.floor(Math.random() * 1000) *)
}.

Record World := mkWorld {
  ledger : Ledger;
  ticks : nat;
  draws : nat
}.

Definition withLedger (w : World) (db : Ledger) : World := mkWorld db (ticks w) (draws w).
Definition tick (w : World) : World := mkWorld (ledger w) (S (ticks w)) (draws w).
Definition draw (w : World) : World := mkWorld (ledger w) (ticks w) (S (draws w)).

Inductive Event :=
| EvNewDate (d : JSDate)
| EvRandom (r : Z)
| EvSelectByOutTradeNo (no : string) (found : option Transaction)
| EvSelectOwnPending (uid no : string) (found : option Transaction)
| EvSelectActiveSubscriptions (uid : string) (now : Time) (ends : list Time)
| EvUpdate (data : UpdateData) (no st : string) (updatedRows : list Transaction)
| EvInsert (data : InsertData) (dbError : bool).

(** One call of a handler: what happened, the world after it, and the rest
    of the handler.  [None] when the handler has responded. *)
Definition step (o : Oracle) (w : World) (h : Handler) : option (Event * World * Handler) :=
  match h with
  | Respond _ => None
  | NewDate k =>
      let d := TimeClip (clock o (ticks w)) in
      Some (EvNewDate d, tick w, k d)
  | RandomBelow1000 k =>
      let r := random o (draws w) mod 1000 in
      Some (EvRandom r, draw w, k r)
  | SelectByOutTradeNo no k =>
      let found := dbSelectByOutTradeNo no (ledger w) in
      Some (EvSelectByOutTradeNo no found, w, k found)
  | SelectOwnPending uid no k =>
      let found := dbSelectOwnPending uid no (ledger w) in
      Some (EvSelectOwnPending uid no found, w, k found)
  | SelectActiveSubscriptions uid now k =>
      let ends := dbSelectActiveSubscriptions uid now (ledger w) in
      Some (EvSelectActiveSubscriptions uid now ends, w, k (Some ends))
  | Update data no st k =>
      let '(db, rows) := dbUpdate data no st (ledger w) in
      Some (EvUpdate data no st rows, withLedger w db, k (Some rows))
  | Insert data k =>
      match dbInsert data (clock o (ticks w)) (ledger w) with
      | Some db => Some (EvInsert data false, tick (withLedger w db), k false)
      | None => Some (EvInsert data true, w, k true)
      end
  end.

(** A handler run to its response with nothing else touching the table. *)
Fixpoint exec (o : Oracle) (h : Handler) (w : World) : NextResponse * World * list Event :=
  match h with
  | Respond r => (r, w, [])
  | NewDate k =>
      let d := TimeClip (clock o (ticks w)) in
      let '(r, w', log) := exec o (k d) (tick w) in
      (r, w', EvNewDate d :: log)
  | RandomBelow1000 k =>
      let x := random o (draws w) mod 1000 in
      let '(r, w', log) := exec o (k x) (draw w) in
      (r, w', EvRandom x :: log)
  | SelectByOutTradeNo no k =>
      let found := dbSelectByOutTradeNo no (ledger w) in
      let '(r, w', log) := exec o (k found) w in
      (r, w', EvSelectByOutTradeNo no found :: log)
  | SelectOwnPending uid no k =>
      let found := dbSelectOwnPending uid no (ledger w) in
      let '(r, w', log) := exec o (k found) w in
      (r, w', EvSelectOwnPending uid no found :: log)
  | SelectActiveSubscriptions uid now k =>
      let ends := dbSelectActiveSubscriptions uid now (ledger w) in
      let '(r, w', log) := exec o (k (Some ends)) w in
      (r, w', EvSelectActiveSubscriptions uid now ends :: log)
  | Update data no st k =>
      let '(db, rows) := dbUpdate data no st (ledger w) in
      let '(r, w', log) := exec o (k (Some rows)) (withLedger w db) in
      (r, w', EvUpdate data no st rows :: log)
  | Insert data k =>
      match dbInsert data (clock o (ticks w)) (ledger w) with
      | Some db =>
          let '(r, w', log) := exec o (k false) (tick (withLedger w db)) in
          (r, w', EvInsert data false :: log)
      | None =>
          let '(r, w', log) := exec o (k true) w in
          (r, w', EvInsert data true :: log)
      end
  end.

(** *** Concurrent deliveries

    Any number of requests are in flight at once; the system moves when a
    new request arrives at one of the three routes or when one of the
    handlers in flight performs its next call. *)
Record System := mkSystem {
  world : World;
  inflight : list Handler
}.

Fixpoint replaceNth {A : Type} (n : nat) (x : A) (l : list A) : list A :=
  match l, n with
  | [], _ => []
  | _ :: l', O => x :: l'
  | y :: l', S n' => y :: replaceNth n' x l'
  end.

Section Concurrent.
Variables (rt : Runtime) (env : ProcessEnv) (products : Catalog) (o : Oracle).

Inductive sysStep : System -> System -> Prop :=
| arriveWebhook s searchParams :
    sysStep s (mkSystem (world s) (inflight s ++ [WebhookRoute.GET rt env searchParams]))
| arriveUrl s user body :
    sysStep s (mkSystem (world s) (inflight s ++ [UrlRoute.POST rt env products user body]))
| arriveRepay s user body :
    sysStep s (mkSystem (world s) (inflight s ++ [RepayRoute.POST rt env user body]))
| advance s i h ev w' h' :
    nth_error (inflight s) i = Some h ->
    step o (world s) h = Some (ev, w', h') ->
    sysStep s (mkSystem w' (replaceNth i h' (inflight s))).

Inductive reaches : System -> System -> Prop :=
| reachesRefl s : reaches s s
| reachesStep s1 s2 s3 : reaches s1 s2 -> sysStep s2 s3 -> reaches s1 s3.

(** A server that has just started on a table [db]. *)
Definition boot (db : Ledger) : System := mkSystem (mkWorld db 0 0) [].
End Concurrent.

(** ** Vocabulary of the properties *)

Definition isWrite (ev : Event) : bool :=
  match ev with
  | EvUpdate _ _ _ _ | EvInsert _ _ => true
  | _ => false
  end.

(** Every update a handler can ever issue sets [status] to paid and is
    restricted to rows whose [status] is pending. *)
Inductive guardedWrites : Handler -> Prop :=
| gwRespond r : guardedWrites (Respond r)
| gwNewDate k : (forall d, guardedWrites (k d)) -> guardedWrites (NewDate k)
| gwRandom k : (forall x, guardedWrites (k x)) -> guardedWrites (RandomBelow1000 k)
| gwSelectByOutTradeNo no k :
    (forall x, guardedWrites (k x)) -> guardedWrites (SelectByOutTradeNo no k)
| gwSelectOwnPending uid no k :
    (forall x, guardedWrites (k x)) -> guardedWrites (SelectOwnPending uid no k)
| gwSelectActiveSubscriptions uid now k :
    (forall x, guardedWrites (k x)) -> guardedWrites (SelectActiveSubscriptions uid now k)
| gwUpdate data no k :
    set_status data = "paid" ->
    (forall x, guardedWrites (k x)) -> guardedWrites (Update data no "pending" k)
| gwInsert data k : (forall x, guardedWrites (k x)) -> guardedWrites (Insert data k).

(** A handler that only reads until, at most once, it issues such an
    update on order number [no], responds right after it, and responds
    [success] when the update matched no row. *)
Inductive readsThenOneUpdate (no : string) : Handler -> Prop :=
| roRespond r : readsThenOneUpdate no (Respond r)
| roNewDate k : (forall d, readsThenOneUpdate no (k d)) -> readsThenOneUpdate no (NewDate k)
| roSelectByOutTradeNo no' k :
    (forall x, readsThenOneUpdate no (k x)) ->
    readsThenOneUpdate no (SelectByOutTradeNo no' k)
| roSelectActiveSubscriptions uid now k :
    (forall x, readsThenOneUpdate no (k x)) ->
    readsThenOneUpdate no (SelectActiveSubscriptions uid now k)
| roUpdate data k :
    set_status data = "paid" ->
    (forall x, exists r, k x = Respond r) ->
    k (Some []) = Respond WebhookRoute.success ->
    readsThenOneUpdate no (Update data no "pending" k).

(** The outcome of such a run from world [w]: nothing written, or exactly
    one write, the last event, which is that update. *)
Definition oneGuardedWrite (no : string) (w : World)
           (out : NextResponse * World * list Event) : Prop :=
  let '(resp, w', log) := out in
  (filter isWrite log = [] /\ ledger w' = ledger w)
  \/ (exists pre data rows,
        log = pre ++ [EvUpdate data no "pending" rows]
        /\ filter isWrite pre = []
        /\ set_status data = "paid"
        /\ (ledger w', rows) = dbUpdate data no "pending" (ledger w)
        /\ (rows = [] -> resp = WebhookRoute.success /\ ledger w' = ledger w)).

(** How a row may differ between an earlier and a later table. *)
Definition rowEvolves (r r' : Transaction) : Prop :=
  r' = r \/ (status r = "pending" /\ status r' = "paid").

Definition ledgerEvolves (db db' : Ledger) : Prop :=
  forall i r, nth_error db i = Some r ->
    exists r', nth_error db' i = Some r' /\ rowEvolves r r'.

(** Time values a [Date] can hold. *)
Definition validTime (t : Z) : Prop := Z.abs t <= 8640000000000000.

(** [params[k] = v] *)
Fixpoint assign (params : JSRecord) (k v : string) : JSRecord :=
  match params with
  | [] => [(k, v)]
  | (k', v') :: rest =>
      if String.eqb k' k then (k, v) :: rest else (k', v') :: assign rest k v
  end.

(** The amount comparison in the words of the specification: the decimal
    in the notification and the stored amount differ by at most 0.001,
    exactly (both sides scaled to integers). *)
Definition exactlyWithinTolerance (amount : string) (cents : Numeric) : bool :=
  match readLiteral amount with
  | LitDecimal neg m e =>
      let v := if neg then - m else m in
      let s := 10 ^ Z.max 0 (- e) in
      Z.abs (v * 10 ^ (e + Z.max 0 (- e)) * 1000 - cents * 10 * s) <=? s
  | _ => false
  end.

(** A verified success notification: the key is configured, the supplied
    [sign] is the expected one, and [trade_status] is the success value. *)
Definition verifiedSuccess (rt : Runtime) (env : ProcessEnv) (sp : URLSearchParams) : Prop :=
  exists key,
    truthy (ZPAY_KEY env) = Some key
    /\ orEmpty (get sp "sign") = WebhookRoute.expectedSign rt key sp
    /\ orEmpty (get sp "trade_status") = "TRADE_SUCCESS".

(** Times far from the ends of the range of [Date]: between 1970 and the
    year 255000. *)
Definition ordinaryTime (t : Z) : Prop := 0 <= t <= 8000000000000000.

(** Every clock reading and every stored end date is such a time. *)
Definition ordinaryTimes (o : Oracle) (db : Ledger) : Prop :=
  (forall n, ordinaryTime (clock o n))
  /\ (forall r e, In r db -> subscription_end_date r = Some e -> ordinaryTime e).

(** The start date advanced by calendar years and months, in local time:
    same day of the month and time of day, the month and year carried, a
    day beyond the end of the month running on into the next. *)
Definition addCalendar (rt : Runtime) (years months : Z) (t : Time) : Time :=
  let lt := LocalTime rt t in
  UTC rt (MakeDate (MakeDay (YearFromTime lt + years) (MonthFromTime lt + months)
                            (DateFromTime lt))
                   (TimeWithinDay lt)).

(** The end of a window that starts at [start]: one calendar month later
    for a monthly period, one calendar year later for a yearly one (and,
    as the code has it, [start] itself for any other period). *)
Definition periodEnd (rt : Runtime) (period : string) (start : Time) : Time :=
  if String.eqb period "monthly" then addCalendar rt 0 1 start
  else if String.eqb period "yearly" then addCalendar rt 1 0 start
  else start.

(** The order of [.order("subscription_end_date", { ascending: false })]. *)
Definition descending : Z -> Z -> comparison := fun a b => Z.compare b a.

(** Where the new window starts, as the webhook computes it in world [w]:
    its second clock reading is the "now" of the query, its third the
    "now" a fresh window starts at. *)
Definition windowStart (o : Oracle) (w : World) (uid : string) : Time :=
  match dbSelectActiveSubscriptions uid (clock o (S (ticks w))) (ledger w) with
  | latest :: _ => latest
  | [] => clock o (S (S (ticks w)))
  end.

(** What the webhook's update sets for order [t] when it settles it in
    world [w]. *)
Definition settledData (rt : Runtime) (o : Oracle) (w : World) (tradeNo : string)
           (t : Transaction) : UpdateData :=
  mkUpdateData "paid" tradeNo (clock o (ticks w))
    (match is_subscription t, truthy (subscription_period t) with
     | true, Some period =>
         let start := windowStart o w (user_id t) in
         Some (start, periodEnd rt period start)
     | _, _ => None
     end).

(** The parameters the regenerator signs and sends for a stored order. *)
Definition repayParams (pid baseUrl : string) (t : Transaction) : JSRecord :=
  [ ("pid", pid);
    ("money", stringOfNumeric (money t));
    ("name", name t);
    ("notify_url", baseUrl ++ "/api/checkout/providers/zpay/webhook")%string;
    ("out_trade_no", out_trade_no t);
    ("return_url", baseUrl ++ "/payment/success")%string;
    ("type", type t) ].

(** [a] does not sort after [b]. *)
Definition notAfter {A : Type} (compareFn : A -> A -> comparison) (a b : A) : Prop :=
  compareFn a b <> Gt.

(** Equality of comparison results, as a boolean. *)
Definition comparisonEqb (a b : comparison) : bool :=
  match a, b with
  | Eq, Eq | Lt, Lt | Gt, Gt => true
  | _, _ => false
  end.

(** A comparison that is a strict total order on a set of keys: the two
    directions agree, it is transitive, and only equal keys compare equal. *)
Definition separatesKeys (compareFn : string -> string -> comparison) (keys : list string) : Prop :=
  (forall a b, In a keys -> In b keys -> compareFn a b = CompOpp (compareFn b a))
  /\ (forall a b c, In a keys -> In b keys -> In c keys ->
                    compareFn a b <> Gt -> compareFn b c <> Gt -> compareFn a c <> Gt)
  /\ (forall a b, In a keys -> In b keys -> compareFn a b = Eq -> a = b).

(** Every key the routes ever sign. *)
Definition routeKeys : list string :=
  ["pid"; "money"; "name"; "notify_url"; "out_trade_no"; "return_url"; "type";
   "trade_no"; "param"; "trade_status"].

(** The fields the webhook reads besides [sign]. *)
Definition signedFields : list string :=
  ["pid"; "name"; "money"; "out_trade_no"; "trade_no"; "param"; "trade_status"; "type"].

(** ** Sample data

    A shop on a UTC server; user [u1] holds a paid monthly subscription
    that ends on 2025-04-15T00:00:00Z and, on 2025-04-01T00:00:00Z, pays a
    second monthly order. *)
Definition sampleEnv : ProcessEnv :=
  mkProcessEnv (Some "1001") (Some "secret") (Some "https://shop.example").

Definition sampleOracle : Oracle :=
  mkOracle (fun n => 1743465600000 + Z.of_nat (Nat.min n 10)) (fun _ => 123).

Definition paidOrder : Transaction :=
  mkTransaction "u1" "pro-monthly" "Pro" "20250315000000001" (Some "T1") 990 "alipay"
                "paid" true (Some "monthly")
                (Some 1741996800000) (Some 1744675200000) 1741996800000 1741996800000.

Definition pendingOrder : Transaction :=
  mkTransaction "u1" "pro-monthly" "Pro" "20250401000000002" None 990 "alipay"
                "pending" true (Some "monthly") None None 1743465000000 1743465000000.

Definition sampleWorld : World := mkWorld [paidOrder; pendingOrder] 0 0.

Definition sampleNotification : URLSearchParams :=
  [ ("pid", "1001"); ("name", "Pro"); ("money", "9.90");
    ("out_trade_no", "20250401000000002"); ("trade_no", "T2");
    ("trade_status", "TRADE_SUCCESS"); ("type", "alipay");
    ("sign", "cfa7eefc0690e8ece19d1b6fbabbec3c"); ("sign_type", "MD5") ].

Definition sampleCatalog : Catalog :=
  fun id =>
    if String.eqb id "pro-monthly" then Some (Product.mk "Pro" "9.9" true (Some "monthly"))
    else if String.eqb id "basic-onetime" then Some (Product.mk "Basic" "99" false None)
    else None.

(** Two one-off orders and notifications whose amounts sit at the edge of
    the tolerance: 0.021 against a stored 0.02, and 10.0010000000000001
    against a stored 10.00. *)
Definition centOrder : Transaction :=
  mkTransaction "u2" "cent" "Cent" "20250401000000003" None 2 "alipay"
                "pending" false None None None 1743465000000 1743465000000.

Definition centNotification : URLSearchParams :=
  [ ("pid", "1001"); ("name", "Cent"); ("money", "0.021");
    ("out_trade_no", "20250401000000003"); ("trade_no", "T3");
    ("trade_status", "TRADE_SUCCESS"); ("type", "alipay");
    ("sign", "d128ec920289d50781d757be97a5fbad"); ("sign_type", "MD5") ].

Definition tenOrder : Transaction :=
  mkTransaction "u2" "ten" "Ten" "20250401000000004" None 1000 "alipay"
                "pending" false None None None 1743465000000 1743465000000.

Definition tenNotification : URLSearchParams :=
  [ ("pid", "1001"); ("name", "Ten"); ("money", "10.0010000000000001");
    ("out_trade_no", "20250401000000004"); ("trade_no", "T4");
    ("trade_status", "TRADE_SUCCESS"); ("type", "alipay");
    ("sign", "95b8350b6ca4b656aea5df52d2a895d3"); ("sign_type", "MD5") ].

(** The system after the sample notification has arrived and been handled. *)
Definition afterDelivery : System :=
  mkSystem (snd (fst (exec sampleOracle (WebhookRoute.GET nodeUTC sampleEnv sampleNotification) sampleWorld)))
           [Respond (fst (fst (exec sampleOracle (WebhookRoute.GET nodeUTC sampleEnv sampleNotification) sampleWorld)))].

(** The sample notification with its amount raised to 19.90 and signed
    again: the amount no longer matches the stored 9.90. *)
Definition overpricedNotification : URLSearchParams :=
  [ ("pid", "1001"); ("name", "Pro"); ("money", "19.90");
    ("out_trade_no", "20250401000000002"); ("trade_no", "T2");
    ("trade_status", "TRADE_SUCCESS"); ("type", "alipay");
    ("sign", "b17f4c21f538c8dc915bf2ef573d2ab6"); ("sign_type", "MD5") ].

(** The body of an issuance request for the monthly plan. *)
Definition sampleBody : UrlRoute.Body := UrlRoute.mkBody (Some "pro-monthly") None.

(** Two keys that differ by the control character U+0001 only. *)
Definition keyA : string := "a".
Definition keyA1 : string := String "a" (String "001" EmptyString).

(** A schedule names, step by step, which of the handlers in flight makes
    its next call; running it yields the final system and what happened. *)
Fixpoint runSchedule (o : Oracle) (schedule : list nat) (s : System) : System * list Event :=
  match schedule with
  | [] => (s, [])
  | i :: rest =>
      match nth_error (inflight s) i with
      | Some h =>
          match step o (world s) h with
          | Some (ev, w', h') =>
              let '(s', evs) :=
                runSchedule o rest (mkSystem w' (replaceNth i h' (inflight s))) in
              (s', ev :: evs)
          | None => runSchedule o rest s
          end
      | None => runSchedule o rest s
      end
  end.

(** The sample notification delivered twice at once. *)
Definition twoDeliveries : System :=
  mkSystem sampleWorld
           [ WebhookRoute.GET nodeUTC sampleEnv sampleNotification;
             WebhookRoute.GET nodeUTC sampleEnv sampleNotification ].

(** A Number that is neither [NaN] nor an infinity. *)
Definition isFinite (x : Number) : bool :=
  match x with
  | S754_zero _ | S754_finite _ _ _ => true
  | _ => false
  end.

(** A first yearly subscription, paid by user [u3] on 2025-04-01. *)
Definition yearlyOrder : Transaction :=
  mkTransaction "u3" "pro-yearly" "Year" "20250401000000005" None 9900 "wxpay"
                "pending" true (Some "yearly") None None 1743465000000 1743465000000.

Definition yearlyNotification : URLSearchParams :=
  [ ("pid", "1001"); ("name", "Year"); ("money", "99");
    ("out_trade_no", "20250401000000005"); ("trade_no", "T5");
    ("trade_status", "TRADE_SUCCESS"); ("type", "wxpay");
    ("sign", "622b5cebc9b2a0749ef2d14e5c4a6d50"); ("sign_type", "MD5") ].

(** ** Vocabulary of the further properties *)

(** What identifies an order: every column but [status], [trade_no],
    [updated_at] and the two subscription dates. *)
Definition sameOrder (r r' : Transaction) : Prop :=
  user_id r' = user_id r /\ product_id r' = product_id r /\ name r' = name r
  /\ out_trade_no r' = out_trade_no r /\ money r' = money r /\ type r' = type r
  /\ is_subscription r' = is_subscription r
  /\ subscription_period r' = subscription_period r
  /\ created_at r' = created_at r.

(** A row as an insert leaves it: no trade number, no subscription window,
    never updated. *)
Definition untouched (r : Transaction) : Prop :=
  trade_no r = None /\ subscription_start_date r = None
  /\ subscription_end_date r = None /\ updated_at r = created_at r.

(** Every pending row of a table is untouched. *)
Definition pendingUntouched (db : Ledger) : Prop :=
  forall r, In r db -> status r = "pending" -> untouched r.

(** The parameters the issuer signs and sends for a new order. *)
Definition issuerParams (pid baseUrl : string) (product : Product.t)
           (payType outTradeNo : string) : JSRecord :=
  [ ("pid", pid);
    ("money", Product.price product);
    ("name", Product.name product);
    ("notify_url", baseUrl ++ "/api/checkout/providers/zpay/webhook")%string;
    ("out_trade_no", outTradeNo);
    ("return_url", baseUrl ++ "/payment/success")%string;
    ("type", payType) ].

(** The query parameters of a payment link: the signed parameters, then
    [sign] and [sign_type]. *)
Definition linkParams (rt : Runtime) (key : string) (params : JSRecord) : URLSearchParams :=
  params ++ [("sign", sign rt params key); ("sign_type", "MD5")].

Definition paymentUrl (rt : Runtime) (key : string) (params : JSRecord) : string :=
  ("https://zpayz.cn/submit.php?" ++ urlParamsToString (linkParams rt key params))%string.

(** [productId] and [payType] as the issuer reads them from the body. *)
Definition productIdOf (b : UrlRoute.Body) : string :=
  match UrlRoute.productId b with Some p => p | None => "undefined" end.

Definition payTypeOf (b : UrlRoute.Body) : string :=
  match UrlRoute.payType b with Some p => p | None => "alipay" end.

(** The row the issuer's insert creates. *)
Definition issuedRow (uid : string) (b : UrlRoute.Body) (product : Product.t)
           (outTradeNo : string) (m : Numeric) (now : Time) : Transaction :=
  mkTransaction uid (productIdOf b) (Product.name product) outTradeNo None m
                (payTypeOf b) "pending" (Product.isSubscription product)
                (truthy (Product.subscriptionPeriod product)) None None now now.

(** The number of days of month [m] (0 = January) of a year, [leap] being
    0 or 1. *)
Definition daysInMonth (m leap : Z) : Z := monthStart (m + 1) leap - monthStart m leap.

(** ** Further sample data *)

(** The pending sample order marked as failed, and with a period the
    webhook does not know. *)
Definition failedOrder : Transaction :=
  mkTransaction "u1" "pro-monthly" "Pro" "20250401000000002" None 990 "alipay"
                "failed" true (Some "monthly") None None 1743465000000 1743465000000.

Definition weeklyOrder : Transaction :=
  mkTransaction "u1" "pro-weekly" "Pro" "20250401000000002" None 990 "alipay"
                "pending" true (Some "weekly") None None 1743465000000 1743465000000.

(** A one-off order of user [u1] under the same number. *)
Definition oneOffOrder : Transaction :=
  mkTransaction "u1" "basic-onetime" "Pro" "20250401000000002" None 990 "alipay"
                "pending" false None None None 1743465000000 1743465000000.

(** The sample notification under another merchant id, product name,
    payment type and pass-through parameter, signed again. *)
Definition relabelledNotification : URLSearchParams :=
  [ ("pid", "9999"); ("name", "Other"); ("money", "9.90");
    ("out_trade_no", "20250401000000002"); ("trade_no", "T2"); ("param", "x");
    ("trade_status", "TRADE_SUCCESS"); ("type", "wxpay");
    ("sign", "e9519db10038c7196a218dcc5a26a878"); ("sign_type", "MD5") ].

(** A lower-case hexadecimal digit. *)
Definition isLowerHex (c : ascii) : bool :=
  let n := Z.of_N (N_of_ascii c) in
  ((48 <=? n) && (n <=? 57)) || ((97 <=? n) && (n <=? 102)).

(** The shape of a hexadecimal MD5 digest: 32 lower-case hexadecimal
    digits. *)
Definition isDigest (s : string) : bool :=
  Nat.eqb (String.length s) 32 && forallb isLowerHex (list_ascii_of_string s).

(** The sample notification with its signature in upper case. *)
Definition upperCaseNotification : URLSearchParams :=
  [ ("pid", "1001"); ("name", "Pro"); ("money", "9.90");
    ("out_trade_no", "20250401000000002"); ("trade_no", "T2");
    ("trade_status", "TRADE_SUCCESS"); ("type", "alipay");
    ("sign", "CFA7EEFC0690E8ECE19D1B6FBABBEC3C"); ("sign_type", "MD5") ].

(** ** Decimal digits *)

(** The number a string of decimal digits denotes, read from the left
    with [acc] the value read so far. *)
Fixpoint digitsValue (s : string) (acc : Z) : Z :=
  match s with
  | EmptyString => acc
  | String c s' => digitsValue s' (10 * acc + digitVal c)
  end.

Definition allDigits (s : string) : bool :=
  forallb isDigit (list_ascii_of_string s).

(** The same for the digit sequences of the standard library. *)
Fixpoint uintValue (d : Decimal.uint) (acc : Z) : Z :=
  match d with
  | Decimal.Nil => acc
  | Decimal.D0 l => uintValue l (10 * acc)
  | Decimal.D1 l => uintValue l (10 * acc + 1)
  | Decimal.D2 l => uintValue l (10 * acc + 2)
  | Decimal.D3 l => uintValue l (10 * acc + 3)
  | Decimal.D4 l => uintValue l (10 * acc + 4)
  | Decimal.D5 l => uintValue l (10 * acc + 5)
  | Decimal.D6 l => uintValue l (10 * acc + 6)
  | Decimal.D7 l => uintValue l (10 * acc + 7)
  | Decimal.D8 l => uintValue l (10 * acc + 8)
  | Decimal.D9 l => uintValue l (10 * acc + 9)
  end.

(** The gateway's success notification for the order that the sample
    issuance request creates. *)
Definition issuedNotification : URLSearchParams :=
  [ ("pid", "1001"); ("name", "Pro"); ("money", "9.9");
    ("out_trade_no", "20250401000000123"); ("trade_no", "T9");
    ("trade_status", "TRADE_SUCCESS"); ("type", "alipay");
    ("sign", "a90a5380bcadd89ea6790479722a6422"); ("sign_type", "MD5") ].

(** ** Reading a query string

    [request.nextUrl.searchParams] and [new URLSearchParams(query)] hold
    what the application/x-www-form-urlencoded parser reads from the query:
    the pieces between [&], empty ones dropped, each split at its first
    [=], with [+] read as a space and [%XY] as the byte [XY].  (The final
    UTF-8 decoding is the identity on the byte sequences of strings.) *)

Definition hexValue (c : ascii) : option Z :=
  let n := Z.of_N (N_of_ascii c) in
  if (48 <=? n) && (n <=? 57) then Some (n - 48)
  else if (65 <=? n) && (n <=? 70) then Some (n - 55)
  else if (97 <=? n) && (n <=? 102) then Some (n - 87)
  else None.

Fixpoint formDecode (s : string) : string :=
  match s with
  | EmptyString => EmptyString
  | String c s' =>
      if Ascii.eqb c "+" then String " " (formDecode s')
      else if Ascii.eqb c "%" then
        match s' with
        | String h (String l rest) =>
            match hexValue h, hexValue l with
            | Some x, Some y => String (ascii_of_N (Z.to_N (16 * x + y))) (formDecode rest)
            | _, _ => String c (formDecode s')
            end
        | _ => String c (formDecode s')
        end
      else String c (formDecode s')
  end.

(** [s] split at every occurrence of [sep]. *)
Fixpoint splitOn (sep : ascii) (s : string) : list string :=
  match s with
  | EmptyString => [EmptyString]
  | String c s' =>
      if Ascii.eqb c sep then EmptyString :: splitOn sep s'
      else match splitOn sep s' with
           | [] => [String c EmptyString]
           | x :: xs => String c x :: xs
           end
  end.

(** [s] split at its first [=]: the name, and the value, which is empty
    when there is no [=]. *)
Fixpoint splitPair (s : string) : string * string :=
  match s with
  | EmptyString => (EmptyString, EmptyString)
  | String c s' =>
      if Ascii.eqb c "=" then (EmptyString, s')
      else let '(k, v) := splitPair s' in (String c k, v)
  end.

Definition parseQuery (query : string) : URLSearchParams :=
  map (fun piece => let '(k, v) := splitPair piece in (formDecode k, formDecode v))
      (filter (fun piece => negb (isEmpty piece)) (splitOn "&" query)).

(** A string in which the character [sep] does not occur. *)
Definition without (sep : ascii) (s : string) : bool :=
  forallb (fun c => negb (Ascii.eqb c sep)) (list_ascii_of_string s).

(** The characters of a serialized query: letters, digits and [* - . _ + % & =]. *)
Definition isQueryChar (c : ascii) : bool :=
  let n := Z.of_N (N_of_ascii c) in
  ((48 <=? n) && (n <=? 57)) || ((65 <=? n) && (n <=? 90)) || ((97 <=? n) && (n <=? 122))
  || (n =? 42) || (n =? 45) || (n =? 46) || (n =? 95)
  || (n =? 43) || (n =? 37) || (n =? 38) || (n =? 61).

(** ** The pages that call the routes

    What a browser-side handler does is recorded as the sequence of its
    effects.  A [fetch] is answered by a response of the server, or fails
    ([None]); [response.json()] fails on a body that is not JSON. *)

Inductive ClientEffect :=
| SetLoadingProductId (v : option string)
| SetPayingOrderNo (v : option string)
| SetUser (v : option string)
| RouterPush (href : string)
| Fetch (path : string) (json : JSRecord)      (* POST with this JSON body *)
| Alert (message : string)
| SetLocation (href : option string)           (* window.location.href = ... *)
| ConsoleError (message : string).

Definition isJson (r : NextResponse) : bool :=
  match body r with Text _ => false | _ => true end.

(** [data.error] and [data.url]; [None] is [undefined]. *)
Definition dataError (r : NextResponse) : option string :=
  match body r with JsonError e => Some e | _ => None end.

Definition dataUrl (r : NextResponse) : option string :=
  match body r with JsonUrl u => Some u | _ => None end.

(** A string-or-undefined value used as a condition. *)
Definition isTruthy (x : option string) : bool :=
  match truthy x with Some _ => true | None => false end.

(** [response.ok] *)
Definition responseOk (r : NextResponse) : bool :=
  (200 <=? httpStatus r) && (httpStatus r <=? 299).

(** [encodeURIComponent]: every byte but letters, digits and
    [- _ . ! ~ * ' ( )] is percent-encoded. *)
Definition uriEncodeByte (c : ascii) : string :=
  let n := Z.of_N (N_of_ascii c) in
  if ((48 <=? n) && (n <=? 57)) || ((65 <=? n) && (n <=? 90)) || ((97 <=? n) && (n <=? 122))
     || (n =? 45) || (n =? 95) || (n =? 46) || (n =? 33) || (n =? 126)
     || (n =? 42) || (n =? 39) || (n =? 40) || (n =? 41)
  then String c EmptyString
  else String "%" (String (upperHexDigit (Z.shiftr n 4))
                          (String (upperHexDigit (Z.land n 15)) EmptyString)).

Definition encodeURIComponent (s : string) : string :=
  String.concat "" (map uriEncodeByte (list_ascii_of_string s)).

(** *** The pricing page *)
Module Pricing.

Record State := mkState {
  loadingProductId : option string;
  user : option string;            (* the signed-in user, as the page knows it *)
  pathname : string
}.

Definition signinRedirect (st : State) : string :=
  ("/signin?redirect=" ++ encodeURIComponent (pathname st))%string.

(** [handlePayment(productId)], [fetched] being the outcome of its
    request should it make one. *)
Definition handlePayment (st : State) (productId : string)
           (fetched : option NextResponse) : list ClientEffect :=
  match truthy (loadingProductId st) with
  | Some _ => []
  | None =>
  match user st with
  | None => [RouterPush (signinRedirect st)]
  | Some _ =>
      [ SetLoadingProductId (Some productId);
        Fetch "/api/checkout/providers/zpay/url"
              [("productId", productId); ("payType", "alipay")] ]
      ++ match fetched with
         | None => [ConsoleError "支付请求失败:"; Alert "支付请求失败，请稍后重试"]
         | Some response =>
             if negb (isJson response)
             then [ConsoleError "支付请求失败:"; Alert "支付请求失败，请稍后重试"]
             else if httpStatus response =? 401
             then [SetUser None; RouterPush (signinRedirect st)]
             else if negb (responseOk response) || isTruthy (dataError response)
             then [Alert match truthy (dataError response) with
                         | Some e => e
                         | None => "获取支付链接失败，请稍后重试"
                         end]
             else [SetLocation (dataUrl response)]
         end
      ++ [SetLoadingProductId None]
  end end.

End Pricing.

(** *** The purchase history *)
Module PurchaseHistory.

(** [.select("*").order("created_at", { ascending: false })] with the
    session of the visitor: the row-level policy shows a signed-in user
    their own rows and an anonymous visitor none. *)
Definition fetchTransactions (visitor : option string) (db : Ledger) : list Transaction :=
  match visitor with
  | None => []
  | Some uid =>
      sort (fun a b => Z.compare (created_at b) (created_at a))
           (filter (fun r => String.eqb (user_id r) uid) db)
  end.

(** What the last column of a row offers. *)
Inductive Action := PayButton | DetailButton | NoAction.

Definition rowAction (tx : Transaction) : Action :=
  if String.eqb (status tx) "pending" then PayButton
  else if String.eqb (status tx) "paid" then DetailButton
  else NoAction.

Definition getPaymentTypeLabel (type : string) : string :=
  if String.eqb type "alipay" then "支付宝"
  else if String.eqb type "wxpay" then "微信支付"
  else type.

(** [handlePendingPayment(transaction)] *)
Definition handlePendingPayment (transaction : Transaction)
           (fetched : option NextResponse) : list ClientEffect :=
  [ SetPayingOrderNo (Some (out_trade_no transaction));
    Fetch "/api/checkout/providers/zpay/repay" [("outTradeNo", out_trade_no transaction)] ]
  ++ match fetched with
     | None => [ConsoleError "跳转支付失败:"; Alert "跳转支付失败，请稍后重试"]
     | Some response =>
         if negb (isJson response)
         then [ConsoleError "跳转支付失败:"; Alert "跳转支付失败，请稍后重试"]
         else
           match truthy (dataUrl response) with
           | Some url => [SetLocation (Some url)]
           | None =>
               [Alert ("获取支付链接失败: "
                       ++ match truthy (dataError response) with
                          | Some e => e
                          | None => "未知错误"
                          end)%string]
           end
     end
  ++ [SetPayingOrderNo None].

End PurchaseHistory.

(** The request bodies the two pages send, as the routes read them. *)
Definition pricingBody (productId : string) : UrlRoute.Body :=
  UrlRoute.mkBody (Some productId) (Some "alipay").

Definition historyBody (transaction : Transaction) : RepayRoute.Body :=
  RepayRoute.mkBody (Some (out_trade_no transaction)).

Definition isFetch (e : ClientEffect) : bool :=
  match e with Fetch _ _ => true | _ => false end.

Definition isSetLocation (e : ClientEffect) : bool :=
  match e with SetLocation _ => true | _ => false end.

(** Times at least a year and a day before the end of the ordinary range:
    a window that starts at such a time ends at an ordinary one. *)
Definition earlyTimes (o : Oracle) (db : Ledger) : Prop :=
  (forall n, 0 <= clock o n <= 7000000000000000)
  /\ (forall r e, In r db -> subscription_end_date r = Some e -> 0 <= e <= 7000000000000000).

(** A paid subscription row of user [uid]. *)
Definition paidSubscriptionOf (uid : string) (r : Transaction) : Prop :=
  user_id r = uid /\ is_subscription r = true /\ status r = "paid".

(** A second renewal of user [u1], ordered while [pendingOrder] is still
    unpaid, with its success notification. *)
Definition secondPendingOrder : Transaction :=
  mkTransaction "u1" "pro-monthly" "Pro" "20250401000000003" None 990 "wxpay"
                "pending" true (Some "monthly") None None 1743465100000 1743465100000.

Definition secondNotification : URLSearchParams :=
  [ ("pid", "1001"); ("name", "Pro"); ("money", "9.90");
    ("out_trade_no", "20250401000000003"); ("trade_no", "T3");
    ("trade_status", "TRADE_SUCCESS"); ("type", "wxpay");
    ("sign", "dcbd30d2d569c4dc96e65ebccf351f77"); ("sign_type", "MD5") ].

Definition renewalWorld : World :=
  mkWorld [paidOrder; pendingOrder; secondPendingOrder] 0 0.

(** * Properties

    From here on, facts about the definitions above: first the calendar
    and the runtime models, then the signer, then the three routes. *)

(** * Calendar arithmetic *)

(** Name the quotient and remainder of every division by a constant. *)
Ltac divs :=
  repeat match goal with
  | |- context [?a / ?b] =>
      let q := fresh "q" in let r := fresh "r" in
      pose proof (Z.div_mod a b ltac:(lia));
      pose proof (Z.mod_pos_bound a b ltac:(lia));
      set (q := a / b) in *; set (r := a mod b) in *; clearbody q r
  | H : context [?a / ?b] |- _ =>
      let q := fresh "q" in let r := fresh "r" in
      pose proof (Z.div_mod a b ltac:(lia));
      pose proof (Z.mod_pos_bound a b ltac:(lia));
      set (q := a / b) in *; set (r := a mod b) in *; clearbody q r
  end.

Lemma DayFromYear_succ y :
  DayFromYear (y + 1) = DayFromYear y + 365 + ((y - 1968) / 4 - (y - 1969) / 4)
                        - ((y - 1900) / 100 - (y - 1901) / 100)
                        + ((y - 1600) / 400 - (y - 1601) / 400).
Proof.
  unfold DayFromYear.
  replace (y + 1 - 1970) with (y - 1969) by lia.
  replace (y + 1 - 1969) with (y - 1968) by lia.
  replace (y + 1 - 1901) with (y - 1900) by lia.
  replace (y + 1 - 1601) with (y - 1600) by lia.
  lia.
Qed.

Lemma DaysInYear_cases y : DaysInYear y = 365 \/ DaysInYear y = 366.
Proof.
  unfold DaysInYear. rewrite DayFromYear_succ. divs. lia.
Qed.

(** [YearFromTime] is the year of the ECMAScript definition. *)
Lemma YearFromTime_spec t :
  DayFromYear (YearFromTime t) <= Day t < DayFromYear (YearFromTime t + 1).
Proof.
  unfold YearFromTime. set (d := Day t). clearbody d.
  set (y := 1970 + 400 * d / 146097).
  assert (Hy : 146097 * (y - 1970) <= 400 * d < 146097 * (y - 1970) + 146097).
  { unfold y. divs. lia. }
  clearbody y.
  destruct (d <? DayFromYear y) eqn:E1; [apply Z.ltb_lt in E1 | apply Z.ltb_ge in E1].
  - replace (y - 1 + 1) with y by lia. split; [|lia].
    pose proof (DayFromYear_succ (y - 1)) as Hs.
    replace (y - 1 + 1) with y in Hs by lia.
    unfold DayFromYear in *.
    replace (y - 1 - 1970) with (y - 1971) in * by lia.
    replace (y - 1 - 1969) with (y - 1970) in * by lia.
    replace (y - 1 - 1968) with (y - 1969) in * by lia.
    replace (y - 1 - 1901) with (y - 1902) in * by lia.
    replace (y - 1 - 1900) with (y - 1901) in * by lia.
    replace (y - 1 - 1601) with (y - 1602) in * by lia.
    replace (y - 1 - 1600) with (y - 1601) in * by lia.
    divs. lia.
  - destruct (DayFromYear (y + 1) <=? d) eqn:E2; [apply Z.leb_le in E2 | apply Z.leb_gt in E2].
    + split; [lia|].
      rewrite (DayFromYear_succ (y + 1)). rewrite DayFromYear_succ in *.
      unfold DayFromYear in *.
      replace (y + 1 - 1968) with (y - 1967) in * by lia.
      replace (y + 1 - 1969) with (y - 1968) in * by lia.
      replace (y + 1 - 1900) with (y - 1899) in * by lia.
      replace (y + 1 - 1901) with (y - 1900) in * by lia.
      replace (y + 1 - 1600) with (y - 1599) in * by lia.
      replace (y + 1 - 1601) with (y - 1600) in * by lia.
      divs. lia.
    + lia.
Qed.

Lemma DayWithinYear_range t :
  0 <= DayWithinYear t < DaysInYear (YearFromTime t).
Proof.
  unfold DayWithinYear, DaysInYear. pose proof (YearFromTime_spec t). lia.
Qed.

Lemma MakeDate_Day t : MakeDate (Day t) (TimeWithinDay t) = t.
Proof.
  unfold MakeDate, Day, TimeWithinDay, msPerDay.
  pose proof (Z.div_mod t 86400000 ltac:(lia)). lia.
Qed.

Lemma monthOfDay_cases d leap :
  leap = 0 \/ leap = 1 -> 0 <= d < 365 + leap ->
  0 <= monthOfDay d leap <= 11
  /\ monthStart (monthOfDay d leap) leap <= d < monthStart (monthOfDay d leap + 1) leap.
Proof.
  intros Hl Hd. unfold monthOfDay.
  repeat match goal with
  | |- context [if ?a <? ?b then _ else _] =>
      let E := fresh "E" in
      destruct (a <? b) eqn:E; [apply Z.ltb_lt in E|apply Z.ltb_ge in E]; cbv iota
  end; cbn [monthStart Z.add Pos.add Pos.succ] in *; lia.
Qed.

Lemma InLeapYear_cases t : InLeapYear t = 0 \/ InLeapYear t = 1.
Proof.
  unfold InLeapYear. destruct (DaysInYear_cases (YearFromTime t)); lia.
Qed.

Lemma MonthFromTime_cases t :
  let m := MonthFromTime t in
  let leap := InLeapYear t in
  0 <= m <= 11
  /\ monthStart m leap <= DayWithinYear t < monthStart (m + 1) leap.
Proof.
  cbv zeta. apply monthOfDay_cases; [apply InLeapYear_cases|].
  pose proof (DayWithinYear_range t) as Hd. unfold InLeapYear. lia.
Qed.

(** Setting the month to the next one moves a date forward by the length
    of its month; setting the year to the next one by 365 or 366 days. *)

Lemma Day_split t : Day t = DayFromYear (YearFromTime t) + DayWithinYear t.
Proof. unfold DayWithinYear. lia. Qed.

Lemma nextMonth_day t :
  exists len, 28 <= len <= 31 /\
    MakeDay (YearFromTime t) (MonthFromTime t + 1) (DateFromTime t) = Day t + len.
Proof.
  destruct (MonthFromTime_cases t) as [Hm _]. cbv zeta in Hm.
  pose proof (InLeapYear_cases t) as Hl.
  rewrite (Day_split t). unfold DateFromTime, MakeDay.
  assert (Hy1 : DayFromYear (YearFromTime t + 1)
                = DayFromYear (YearFromTime t) + 365 + InLeapYear t).
  { unfold InLeapYear, DaysInYear. lia. }
  assert (Hleap : DaysInYear (YearFromTime t) - 365 = InLeapYear t) by reflexivity.
  set (y := YearFromTime t) in *. set (m := MonthFromTime t) in *.
  set (d := DayWithinYear t) in *. set (leap := InLeapYear t) in *.
  clearbody y m d leap.
  assert (Hcase : m = 0 \/ m = 1 \/ m = 2 \/ m = 3 \/ m = 4 \/ m = 5 \/ m = 6
                  \/ m = 7 \/ m = 8 \/ m = 9 \/ m = 10 \/ m = 11) by lia.
  exists (if m =? 11 then 31 else monthStart (m + 1) leap - monthStart m leap).
  destruct Hcase as [->|[->|[->|[->|[->|[->|[->|[->|[->|[->|[->| ->]]]]]]]]]]].
  12: { change ((11 + 1) / 12) with 1. change ((11 + 1) mod 12) with 0.
        cbn [monthStart Z.eqb Pos.eqb]. rewrite Hy1. lia. }
  all: match goal with
       | |- context [(?a + 1) / 12] =>
           change ((a + 1) / 12) with 0;
           let v := eval cbv in (a + 1) in
           change ((a + 1) mod 12) with v; change (a + 1) with v
       end;
       replace (y + 0) with y by lia; rewrite Hleap;
       cbn [monthStart Z.eqb Pos.eqb];
       destruct Hl as [-> | ->]; lia.
Qed.

Lemma nextMonth_span t :
  exists len, 28 <= len <= 31 /\
    MakeDate (MakeDay (YearFromTime t) (MonthFromTime t + 1) (DateFromTime t)) (TimeWithinDay t)
    = t + len * msPerDay.
Proof.
  destruct (nextMonth_day t) as [len [Hlen E]].
  exists len. split; [exact Hlen|].
  rewrite E. pose proof (MakeDate_Day t) as Ht. unfold MakeDate in *. lia.
Qed.

Lemma nextYear_day t :
  exists len, 365 <= len <= 366 /\
    MakeDay (YearFromTime t + 1) (MonthFromTime t) (DateFromTime t) = Day t + len.
Proof.
  destruct (MonthFromTime_cases t) as [Hm _]. cbv zeta in Hm.
  pose proof (InLeapYear_cases t) as Hl.
  rewrite (Day_split t). unfold DateFromTime, MakeDay.
  assert (Hy1 : DayFromYear (YearFromTime t + 1)
                = DayFromYear (YearFromTime t) + 365 + InLeapYear t).
  { unfold InLeapYear, DaysInYear. lia. }
  pose proof (DaysInYear_cases (YearFromTime t + 1)) as Hn.
  set (y := YearFromTime t) in *. set (m := MonthFromTime t) in *.
  set (d := DayWithinYear t) in *. set (leap := InLeapYear t) in *.
  set (leap' := DaysInYear (y + 1) - 365).
  assert (Hl' : leap' = 0 \/ leap' = 1) by (unfold leap'; lia).
  exists (365 + leap + (monthStart m leap' - monthStart m leap)).
  replace (m / 12) with 0 by (symmetry; apply Z.div_small; lia).
  replace (m mod 12) with m by (symmetry; apply Z.mod_small; lia).
  replace (y + 1 + 0) with (y + 1) by lia. fold leap'. rewrite Hy1.
  clearbody y m d leap leap'.
  assert (Hcase : m = 0 \/ m = 1 \/ m = 2 \/ m = 3 \/ m = 4 \/ m = 5 \/ m = 6
                  \/ m = 7 \/ m = 8 \/ m = 9 \/ m = 10 \/ m = 11) by lia.
  destruct Hcase as [->|[->|[->|[->|[->|[->|[->|[->|[->|[->|[->| ->]]]]]]]]]]];
    cbn [monthStart]; lia.
Qed.

Lemma nextYear_span t :
  exists len, 365 <= len <= 366 /\
    MakeDate (MakeDay (YearFromTime t + 1) (MonthFromTime t) (DateFromTime t)) (TimeWithinDay t)
    = t + len * msPerDay.
Proof.
  destruct (nextYear_day t) as [len [Hlen E]].
  exists len. split; [exact Hlen|].
  rewrite E. pose proof (MakeDate_Day t) as Ht. unfold MakeDate in *. lia.
Qed.

(** * What the calendar fields of an advanced date are *)

Lemma DayFromYear_increasing y y' : y < y' -> DayFromYear (y + 1) <= DayFromYear y'.
Proof.
  intros H. unfold DayFromYear.
  replace (y + 1 - 1970) with (y - 1969) by lia.
  replace (y + 1 - 1969) with (y - 1968) by lia.
  replace (y + 1 - 1901) with (y - 1900) by lia.
  replace (y + 1 - 1601) with (y - 1600) by lia.
  divs. lia.
Qed.

Lemma YearFromTime_unique t y :
  DayFromYear y <= Day t < DayFromYear (y + 1) -> YearFromTime t = y.
Proof.
  intros H. pose proof (YearFromTime_spec t) as H0.
  destruct (Z.lt_trichotomy (YearFromTime t) y) as [Hlt|[E|Hgt]]; [|exact E|].
  - pose proof (DayFromYear_increasing _ _ Hlt). lia.
  - pose proof (DayFromYear_increasing _ _ Hgt). lia.
Qed.

Lemma monthOfDay_unique d leap m :
  leap = 0 \/ leap = 1 -> 0 <= m <= 11 ->
  monthStart m leap <= d < monthStart (m + 1) leap ->
  monthOfDay d leap = m.
Proof.
  intros Hl Hm Hd.
  assert (Hcase : m = 0 \/ m = 1 \/ m = 2 \/ m = 3 \/ m = 4 \/ m = 5 \/ m = 6
                  \/ m = 7 \/ m = 8 \/ m = 9 \/ m = 10 \/ m = 11) by lia.
  unfold monthOfDay.
  destruct Hl as [-> | ->];
  destruct Hcase as [->|[->|[->|[->|[->|[->|[->|[->|[->|[->|[->| ->]]]]]]]]]]];
    cbn in Hd;
    repeat match goal with
    | |- context [if ?a <? ?b then _ else _] =>
        let E := fresh "E" in
        destruct (a <? b) eqn:E; [apply Z.ltb_lt in E|apply Z.ltb_ge in E]; cbv iota
    end; cbn in *; lia.
Qed.

Lemma monthStart_bounds m leap :
  leap = 0 \/ leap = 1 -> 0 <= m <= 11 ->
  0 <= monthStart m leap /\ monthStart m leap + 28 <= monthStart (m + 1) leap
  /\ monthStart (m + 1) leap <= 365 + leap.
Proof.
  intros Hl Hm.
  assert (Hcase : m = 0 \/ m = 1 \/ m = 2 \/ m = 3 \/ m = 4 \/ m = 5 \/ m = 6
                  \/ m = 7 \/ m = 8 \/ m = 9 \/ m = 10 \/ m = 11) by lia.
  destruct Hl as [-> | ->];
    destruct Hcase as [->|[->|[->|[->|[->|[->|[->|[->|[->|[->|[->| ->]]]]]]]]]]];
    cbn; lia.
Qed.

(** The date made from year [y], month [m], day [d] (one that every month
    has) and time of day [tod] has exactly these fields. *)
Lemma fields_of_MakeDate y m d tod :
  0 <= m <= 11 -> 1 <= d <= 28 -> 0 <= tod < msPerDay ->
  let t := MakeDate (MakeDay y m d) tod in
  YearFromTime t = y /\ MonthFromTime t = m /\ DateFromTime t = d /\ TimeWithinDay t = tod.
Proof.
  intros Hm Hd Htod t.
  assert (Hday : Day t = MakeDay y m d).
  { unfold t, MakeDate, Day, msPerDay in *.
    rewrite Z.div_add_l by lia. rewrite Z.div_small by lia. lia. }
  assert (Htw : TimeWithinDay t = tod).
  { unfold t, MakeDate, TimeWithinDay, msPerDay in *.
    rewrite Z.add_comm, Z.mod_add by lia. apply Z.mod_small. lia. }
  assert (Hmk : MakeDay y m d = DayFromYear y + monthStart m (DaysInYear y - 365) + d - 1).
  { unfold MakeDay. rewrite Z.div_small, Z.mod_small by lia.
    replace (y + 0) with y by lia. reflexivity. }
  pose proof (DaysInYear_cases y) as Hdy.
  set (leap := DaysInYear y - 365) in *.
  assert (Hl : leap = 0 \/ leap = 1) by (unfold leap; lia).
  pose proof (monthStart_bounds m leap Hl Hm) as Hms.
  assert (Hy : YearFromTime t = y).
  { apply YearFromTime_unique. rewrite Hday, Hmk.
    assert (DayFromYear (y + 1) = DayFromYear y + 365 + leap) by (unfold leap, DaysInYear; lia).
    lia. }
  assert (Hleap : InLeapYear t = leap) by (unfold InLeapYear; rewrite Hy; reflexivity).
  assert (Hdw : DayWithinYear t = monthStart m leap + d - 1).
  { unfold DayWithinYear. rewrite Hy, Hday, Hmk. lia. }
  assert (Hmo : MonthFromTime t = m).
  { unfold MonthFromTime. rewrite Hleap, Hdw. apply monthOfDay_unique; [exact Hl|exact Hm|lia]. }
  split; [exact Hy|]. split; [exact Hmo|]. split; [|exact Htw].
  unfold DateFromTime. rewrite Hmo, Hleap, Hdw. lia.
Qed.

(** One calendar month (year) later: for a date whose day of the month
    every month has, the local year, month, day and time of day of the
    advanced date are those of the start with the month (year) moved on by
    one, December carrying into the next year. *)
Lemma addCalendar_fields rt t :
  let lt := LocalTime rt t in
  DateFromTime lt <= 28 ->
  (let lt' := LocalTime rt (addCalendar rt 0 1 t) in
   YearFromTime lt' = YearFromTime lt + (MonthFromTime lt + 1) / 12
   /\ MonthFromTime lt' = (MonthFromTime lt + 1) mod 12
   /\ DateFromTime lt' = DateFromTime lt
   /\ TimeWithinDay lt' = TimeWithinDay lt)
  /\ (let lt' := LocalTime rt (addCalendar rt 1 0 t) in
      YearFromTime lt' = YearFromTime lt + 1
      /\ MonthFromTime lt' = MonthFromTime lt
      /\ DateFromTime lt' = DateFromTime lt
      /\ TimeWithinDay lt' = TimeWithinDay lt).
Proof.
  intros lt Hd.
  destruct (MonthFromTime_cases lt) as [Hm Hr]. cbv zeta in Hm, Hr.
  assert (Hd1 : 1 <= DateFromTime lt) by (unfold DateFromTime; lia).
  assert (Htod : 0 <= TimeWithinDay lt < msPerDay).
  { unfold TimeWithinDay, msPerDay. apply Z.mod_pos_bound. lia. }
  unfold addCalendar. fold lt. cbv zeta. unfold UTC, LocalTime.
  split.
  - replace (MakeDate (MakeDay (YearFromTime lt + 0) (MonthFromTime lt + 1) (DateFromTime lt))
                      (TimeWithinDay lt) - LocalTZA rt + LocalTZA rt)
      with (MakeDate (MakeDay (YearFromTime lt + (MonthFromTime lt + 1) / 12)
                              ((MonthFromTime lt + 1) mod 12) (DateFromTime lt))
                     (TimeWithinDay lt)).
    + apply fields_of_MakeDate; [|lia|exact Htod].
      pose proof (Z.mod_pos_bound (MonthFromTime lt + 1) 12 ltac:(lia)). lia.
    + unfold MakeDate, MakeDay. rewrite Z.add_0_r.
      rewrite Z.mod_mod by lia.
      replace ((MonthFromTime lt + 1) mod 12 / 12) with 0
        by (symmetry; apply Z.div_small, Z.mod_pos_bound; lia).
      rewrite Z.add_0_r. lia.
  - replace (MakeDate (MakeDay (YearFromTime lt + 1) (MonthFromTime lt + 0) (DateFromTime lt))
                      (TimeWithinDay lt) - LocalTZA rt + LocalTZA rt)
      with (MakeDate (MakeDay (YearFromTime lt + 1) (MonthFromTime lt) (DateFromTime lt))
                     (TimeWithinDay lt)) by (rewrite Z.add_0_r; lia).
    apply fields_of_MakeDate; [exact Hm|lia|exact Htod].
Qed.

(** * The runtime models on known values *)

Example md5_empty : md5hex "" = "d41d8cd98f00b204e9800998ecf8427e".
Proof. vm_compute. reflexivity. Qed.

Example md5_abc : md5hex "abc" = "900150983cd24fb0d6963f7d28e17f72".
Proof. vm_compute. reflexivity. Qed.

Example md5_two_blocks :
  md5hex "12345678901234567890123456789012345678901234567890123456789012345678901234567890"
  = "57edf4a22be3c955ac49da2e2107b67a".
Proof. vm_compute. reflexivity. Qed.

Example sort_lower_before_upper :
  getVerifyParams nodeUTC [("B", "2"); ("a", "1")] = "a=1&B=2".
Proof. reflexivity. Qed.

Example sort_issuer_keys :
  getVerifyParams nodeUTC
    [("pid", "1001"); ("money", "9.9"); ("name", "pro"); ("notify_url", "n");
     ("out_trade_no", "20250401120000123"); ("return_url", "r"); ("type", "alipay");
     ("sign", "x"); ("sign_type", "MD5"); ("param", "")]
  = "money=9.9&name=pro&notify_url=n&out_trade_no=20250401120000123&pid=1001&return_url=r&type=alipay".
Proof. reflexivity. Qed.

(** 2025-04-15T00:00:00Z plus one month. *)
Example setMonth_april :
  setMonth nodeUTC (Some 1744675200000) (option_map (Z.add 1) (getMonth nodeUTC (Some 1744675200000)))
  = Some 1747267200000.
Proof. reflexivity. Qed.

(** 2024-01-31T12:00:00Z plus one month runs on to 2024-03-02T12:00:00Z. *)
Example setMonth_overflow :
  setMonth nodeUTC (Some 1706702400000) (Some 1) = Some 1709380800000.
Proof. reflexivity. Qed.

(** 2024-12-31T23:59:59.999Z plus one month is 2025-01-31T23:59:59.999Z. *)
Example setMonth_december :
  setMonth nodeUTC (Some 1735689599999) (Some 12) = Some 1738367999999.
Proof. reflexivity. Qed.

(** 2024-02-29T00:00:00Z plus one year runs on to 2025-03-01T00:00:00Z. *)
Example setFullYear_leap :
  setFullYear nodeUTC (Some 1709164800000) (Some 2025) = Some 1740787200000.
Proof. reflexivity. Qed.

(** [parseFloat] reads the longest numeric prefix. *)
Example parseFloat_prefix :
  map parseFloat ["9.90"; "  +1e2x"; ".5"; "-0"; "abc"; ""]
  = [numberOfDecimal false 990 (-2); numberOfDecimal false 1 2;
     numberOfDecimal false 5 (-1); S754_zero true; S754_nan; S754_nan].
Proof. vm_compute. reflexivity. Qed.

(** The Number nearest 0.001 is 4611686018427388 * 2^-62. *)
Example tolerance_value : tolerance = S754_finite false 4611686018427388 (-62).
Proof. vm_compute. reflexivity. Qed.

(** [String(n)] of a stored amount reads back as the same Number. *)
Example stringOfNumeric_reads_back :
  forallb (fun c => SFeqb (parseFloat (stringOfNumeric c)) (numberOfNumeric c))
          [1; 5; 10; 99; 100; 990; 1000; 1005; 123456; 9999999999; -5; -990]
  = true
  /\ map stringOfNumeric [990; 1000; 5; 123456; -5; 0] = ["9.9"; "10"; "0.05"; "1234.56"; "-0.05"; "0"].
Proof. split; vm_compute; reflexivity. Qed.

(** An order number: 2025-04-01 00:00:00 and the digits 007. *)
Example orderNo_sample :
  UrlRoute.orderNo nodeUTC (Some 1743465600000) 7 = "20250401000000007".
Proof. vm_compute. reflexivity. Qed.

Example formEncode_sample :
  urlParamsToString [("notify_url", "https://a.b/c d"); ("name", "Pro*")]
  = "notify_url=https%3A%2F%2Fa.b%2Fc+d&name=Pro*".
Proof. vm_compute. reflexivity. Qed.

(** * The signer *)

Section SortFacts.
Context {A : Type} (compareFn : A -> A -> comparison).

Lemma insertSorted_perm x l : Permutation (insertSorted compareFn x l) (x :: l).
Proof.
  induction l as [|y l IH]; cbn; [reflexivity|].
  destruct (compareFn x y); try reflexivity.
  rewrite IH. apply perm_swap.
Qed.

Lemma sort_perm l : Permutation (sort compareFn l) l.
Proof.
  induction l as [|x l IH]; cbn; [reflexivity|].
  rewrite insertSorted_perm. constructor. exact IH.
Qed.

(** Two comparisons that agree on the elements of a list sort it alike. *)
Lemma insertSorted_ext (other : A -> A -> comparison) x l :
  (forall y, In y l -> compareFn x y = other x y) ->
  insertSorted compareFn x l = insertSorted other x l.
Proof.
  induction l as [|y l IH]; intros H; cbn; [reflexivity|].
  rewrite <- (H y (or_introl eq_refl)).
  destruct (compareFn x y); try reflexivity.
  rewrite IH; [reflexivity|]. intros z Hz. apply H. right. exact Hz.
Qed.

Lemma sort_ext (other : A -> A -> comparison) l :
  (forall x y, In x l -> In y l -> compareFn x y = other x y) ->
  sort compareFn l = sort other l.
Proof.
  induction l as [|x l IH]; intros H; cbn; [reflexivity|].
  assert (E : sort compareFn l = sort other l)
    by (apply IH; intros a b Ha Hb; apply H; right; assumption).
  rewrite <- E.
  apply insertSorted_ext. intros y Hy. apply H; [left; reflexivity|].
  right. apply (Permutation_in _ (sort_perm l)). exact Hy.
Qed.

Variable D : A -> Prop.
Hypothesis opposite : forall a b, D a -> D b -> compareFn a b = CompOpp (compareFn b a).
Hypothesis transitive :
  forall a b c, D a -> D b -> D c -> notAfter compareFn a b -> notAfter compareFn b c -> notAfter compareFn a c.
Hypothesis strict : forall a b, D a -> D b -> compareFn a b = Eq -> a = b.

Lemma insertSorted_sorted x l :
  D x -> Forall D l ->
  StronglySorted (notAfter compareFn) l -> StronglySorted (notAfter compareFn) (insertSorted compareFn x l).
Proof.
  intros Dx Dl Hs. induction Hs as [|y l Hs IH Hy]; cbn.
  - repeat constructor.
  - inversion Dl as [|? ? Dy Dl']; subst.
    destruct (compareFn x y) eqn:E.
    + constructor; [constructor; assumption|].
      constructor; [unfold notAfter; congruence|].
      rewrite Forall_forall in *. intros z Hz.
      apply (transitive x y z); [exact Dx|exact Dy|apply Dl'; exact Hz| |apply Hy; exact Hz].
      unfold notAfter. congruence.
    + constructor; [constructor; assumption|].
      constructor; [unfold notAfter; congruence|].
      rewrite Forall_forall in *. intros z Hz.
      apply (transitive x y z); [exact Dx|exact Dy|apply Dl'; exact Hz| |apply Hy; exact Hz].
      unfold notAfter. congruence.
    + constructor; [apply IH; assumption|].
      rewrite Forall_forall in *. intros z Hz.
      apply (Permutation_in _ (insertSorted_perm x l)) in Hz.
      destruct Hz as [<-|Hz]; [|auto].
      unfold notAfter. rewrite (opposite y x Dy Dx), E. discriminate.
Qed.

Lemma sort_sorted l : Forall D l -> StronglySorted (notAfter compareFn) (sort compareFn l).
Proof.
  induction 1 as [|x l Dx Dl IH]; cbn; [constructor|].
  apply insertSorted_sorted; [exact Dx| |exact IH].
  rewrite Forall_forall in *. intros y Hy. apply Dl.
  apply (Permutation_in _ (sort_perm l)). exact Hy.
Qed.

Lemma notAfter_both a b : D a -> D b -> notAfter compareFn a b -> notAfter compareFn b a -> a = b.
Proof.
  unfold notAfter. intros Da Db Hab Hba. apply strict; auto.
  rewrite (opposite a b Da Db) in *.
  destruct (compareFn b a) eqn:E; cbn in *; congruence.
Qed.

Lemma sorted_unique l1 : forall l2,
  Forall D l1 ->
  StronglySorted (notAfter compareFn) l1 -> StronglySorted (notAfter compareFn) l2 ->
  Permutation l1 l2 -> l1 = l2.
Proof.
  induction l1 as [|x l1 IH]; intros l2 Dl H1 H2 Hp.
  - apply Permutation_nil in Hp. congruence.
  - destruct l2 as [|y l2]; [apply Permutation_sym, Permutation_nil in Hp; discriminate|].
    inversion H1 as [|? ? H1' Hx]; subst. inversion H2 as [|? ? H2' Hy]; subst.
    inversion Dl as [|? ? Dx Dl']; subst.
    assert (Dl2 : Forall D (y :: l2)).
    { rewrite Forall_forall in *. intros z Hz. apply Dl.
      apply (Permutation_in _ (Permutation_sym Hp)). exact Hz. }
    inversion Dl2 as [|? ? Dy Dl2']; subst.
    assert (Exy : x = y).
    { assert (Hin1 : In y (x :: l1))
        by (apply (Permutation_in _ (Permutation_sym Hp)); left; reflexivity).
      assert (Hin2 : In x (y :: l2)) by (apply (Permutation_in _ Hp); left; reflexivity).
      destruct Hin1 as [E|Hin1]; [exact E|].
      destruct Hin2 as [E|Hin2]; [symmetry; exact E|].
      rewrite Forall_forall in Hx, Hy.
      apply notAfter_both; auto. }
    subst y. f_equal. apply IH; try assumption.
    apply (Permutation_cons_inv Hp).
Qed.

(** The stable sort of a list does not depend on the order of its
    elements, as long as the comparison separates them. *)
Lemma sort_order_independent l1 l2 :
  Forall D l1 -> Permutation l1 l2 -> sort compareFn l1 = sort compareFn l2.
Proof.
  intros Dl Hp.
  assert (Dl2 : Forall D l2).
  { rewrite Forall_forall in *. intros z Hz. apply Dl.
    apply (Permutation_in _ (Permutation_sym Hp)). exact Hz. }
  apply sorted_unique.
  - rewrite Forall_forall in *. intros z Hz. apply Dl.
    apply (Permutation_in _ (sort_perm l1)). exact Hz.
  - apply sort_sorted; exact Dl.
  - apply sort_sorted; exact Dl2.
  - rewrite (sort_perm l1), (sort_perm l2). exact Hp.
Qed.
End SortFacts.

Lemma filter_perm {A} (p : A -> bool) l1 l2 :
  Permutation l1 l2 -> Permutation (filter p l1) (filter p l2).
Proof.
  induction 1 as [|x l1 l2 H IH|x y l|l1 l2 l3 H12 IH12 H23 IH23]; cbn.
  - constructor.
  - destruct (p x); [constructor|]; exact IH.
  - destruct (p x), (p y); try reflexivity. apply perm_swap.
  - etransitivity; eassumption.
Qed.

Lemma NoDup_fst_injective (l : JSRecord) a b :
  NoDup (map fst l) -> In a l -> In b l -> fst a = fst b -> a = b.
Proof.
  induction l as [|x l IH]; intros Hnd Ha Hb E; [destruct Ha|].
  cbn in Hnd. inversion Hnd as [|? ? Hnot Hnd']; subst.
  destruct Ha as [<-|Ha], Hb as [<-|Hb]; auto.
  - exfalso. apply Hnot. rewrite E. apply in_map. exact Hb.
  - exfalso. apply Hnot. rewrite <- E. apply in_map. exact Ha.
Qed.

(** Reordering the insertion order of a record does not change the signing
    string when the host's comparison separates its keys. *)
Lemma getVerifyParams_insertion_order rt (p1 p2 : JSRecord) :
  Permutation p1 p2 ->
  NoDup (map fst p1) ->
  separatesKeys (localeCompare rt) (map fst p1) ->
  getVerifyParams rt p1 = getVerifyParams rt p2.
Proof.
  intros Hp Hnd [Hopp [Htr Hst]]. unfold getVerifyParams. cbv zeta. do 2 f_equal.
  apply (sort_order_independent _ (fun kv => In kv p1)).
  - intros a b Ha Hb. apply Hopp; apply in_map; assumption.
  - intros a b c Ha Hb Hc. unfold notAfter. apply Htr; apply in_map; assumption.
  - intros a b Ha Hb E. apply (NoDup_fst_injective p1); try assumption.
    apply Hst; try (apply in_map; assumption). exact E.
  - rewrite Forall_forall. intros kv Hkv. apply filter_In in Hkv. apply Hkv.
  - apply filter_perm. exact Hp.
Qed.

Lemma sign_insertion_order rt (p1 p2 : JSRecord) key :
  Permutation p1 p2 ->
  NoDup (map fst p1) ->
  separatesKeys (localeCompare rt) (map fst p1) ->
  sign rt p1 key = sign rt p2 key.
Proof.
  intros Hp Hnd Hs. unfold sign. rewrite (getVerifyParams_insertion_order rt p1 p2 Hp Hnd Hs).
  reflexivity.
Qed.

(** Entries the filter drops leave no trace, wherever they sit. *)
Lemma filter_assign_skipped (params : JSRecord) k v :
  skipped (k, v) = true ->
  (forall v', skipped (k, v') = true) \/ get params k = None ->
  filter (fun kv => negb (skipped kv)) (assign params k v)
  = filter (fun kv => negb (skipped kv)) params.
Proof.
  intros Hs Hk. induction params as [|[k' v'] params IH]; cbn [assign filter].
  - rewrite Hs. reflexivity.
  - destruct (String.eqb k' k) eqn:E.
    + apply String.eqb_eq in E. subst k'. cbn [filter]. rewrite Hs. cbn [negb].
      destruct Hk as [Hk|Hk].
      * rewrite (Hk v'). reflexivity.
      * cbn [get] in Hk. rewrite String.eqb_refl in Hk. discriminate.
    + cbn [filter]. rewrite IH; [reflexivity|].
      destruct Hk as [Hk|Hk]; [left; exact Hk|right].
      cbn [get] in Hk. rewrite E in Hk. exact Hk.
Qed.

(** Setting [sign] or [sign_type] to any value, or adding a key with an
    empty value, does not change the token. *)
Lemma sign_ignores_excluded_entries rt (params : JSRecord) key :
  (forall v, sign rt (assign params "sign" v) key = sign rt params key)
  /\ (forall v, sign rt (assign params "sign_type" v) key = sign rt params key)
  /\ (forall k, get params k = None -> sign rt (assign params k "") key = sign rt params key).
Proof.
  unfold sign, getVerifyParams. cbv zeta. repeat split.
  - intros v. rewrite filter_assign_skipped; [reflexivity| |left; intros v'].
    + unfold skipped. cbn. destruct (isEmpty v); reflexivity.
    + unfold skipped. cbn. destruct (isEmpty v'); reflexivity.
  - intros v. rewrite filter_assign_skipped; [reflexivity| |left; intros v'].
    + unfold skipped. cbn. destruct (isEmpty v); reflexivity.
    + unfold skipped. cbn. destruct (isEmpty v'); reflexivity.
  - intros k Hk. rewrite filter_assign_skipped; [reflexivity|reflexivity|right; exact Hk].
Qed.

(** Byte-wise comparison is a strict total order on all strings. *)
Lemma N_of_ascii_inj x y : N_of_ascii x = N_of_ascii y -> x = y.
Proof.
  intros E. rewrite <- (ascii_N_embedding x), <- (ascii_N_embedding y), E. reflexivity.
Qed.

Lemma byteCompare_opposite a : forall b, byteCompare a b = CompOpp (byteCompare b a).
Proof.
  induction a as [|x a IH]; intros [|y b]; cbn; try reflexivity.
  rewrite (N.compare_antisym (N_of_ascii x) (N_of_ascii y)).
  destruct (N.compare (N_of_ascii x) (N_of_ascii y)); cbn; auto.
Qed.

Lemma byteCompare_strict a : forall b, byteCompare a b = Eq -> a = b.
Proof.
  induction a as [|x a IH]; intros [|y b]; cbn; try discriminate; [reflexivity|].
  destruct (N.compare (N_of_ascii x) (N_of_ascii y)) eqn:E; try discriminate.
  intros H. apply N.compare_eq in E. apply N_of_ascii_inj in E. subst y.
  f_equal. apply IH. exact H.
Qed.

Lemma byteCompare_transitive a : forall b c,
  byteCompare a b <> Gt -> byteCompare b c <> Gt -> byteCompare a c <> Gt.
Proof.
  induction a as [|x a IH]; intros [|y b] [|z c]; cbn; try congruence.
  destruct (N.compare_spec (N_of_ascii x) (N_of_ascii y)) as [Exy|Exy|Exy];
    destruct (N.compare_spec (N_of_ascii y) (N_of_ascii z)) as [Eyz|Eyz|Eyz];
    destruct (N.compare_spec (N_of_ascii x) (N_of_ascii z)) as [Exz|Exz|Exz];
    try congruence; try lia.
  apply IH.
Qed.

Lemma byteCompare_separates keys : separatesKeys byteCompare keys.
Proof.
  repeat split.
  - intros a b _ _. apply byteCompare_opposite.
  - intros a b c _ _ _. apply byteCompare_transitive.
  - intros a b _ _. apply byteCompare_strict.
Qed.

(** With the keys in byte order, as the recipe is documented, no
    reordering of any record changes the token. *)
Lemma specSign_insertion_order (p1 p2 : JSRecord) key :
  Permutation p1 p2 -> NoDup (map fst p1) -> specSign p1 key = specSign p2 key.
Proof.
  intros Hp Hnd.
  change (sign (mkRuntime byteCompare 0) p1 key = sign (mkRuntime byteCompare 0) p2 key).
  apply sign_insertion_order; [exact Hp|exact Hnd|apply byteCompare_separates].
Qed.

(** On the keys the routes sign, the host collation and the byte order
    agree, so there the code computes the documented token. *)

Lemma comparisonEqb_eq a b : comparisonEqb a b = true -> a = b.
Proof. destruct a, b; cbn; congruence. Qed.

Lemma routeKeys_agree a b :
  In a routeKeys -> In b routeKeys -> RootCollation.compare a b = byteCompare a b.
Proof.
  assert (H : forallb (fun x => forallb (fun y =>
                comparisonEqb (RootCollation.compare x y) (byteCompare x y)) routeKeys)
              routeKeys = true) by (vm_compute; reflexivity).
  intros Ha Hb. rewrite forallb_forall in H. specialize (H a Ha).
  rewrite forallb_forall in H. apply comparisonEqb_eq, H, Hb.
Qed.

Lemma sign_on_routeKeys (params : JSRecord) key :
  (forall kv, In kv params -> In (fst kv) routeKeys) ->
  sign nodeUTC params key = specSign params key.
Proof.
  intros H. unfold sign, specSign, getVerifyParams, specSigningString. cbv zeta.
  do 4 f_equal. apply sort_ext. intros x y Hx Hy. cbn [localeCompare nodeUTC].
  apply filter_In in Hx, Hy. apply routeKeys_agree; apply H; tauto.
Qed.

(** ... and the host collation separates them, so on the records the
    routes sign the insertion order does not matter either. *)
Lemma nodeUTC_separates_routeKeys : separatesKeys (localeCompare nodeUTC) routeKeys.
Proof.
  cbn [localeCompare nodeUTC]. repeat split.
  - intros a b Ha Hb. rewrite !routeKeys_agree by assumption. apply byteCompare_opposite.
  - intros a b c Ha Hb Hc. rewrite !routeKeys_agree by assumption.
    apply byteCompare_transitive.
  - intros a b Ha Hb. rewrite routeKeys_agree by assumption. apply byteCompare_strict.
Qed.

(** * The signer on keys that collation and byte order treat differently *)

(** C3. The record [{a: "1", B: "2"}] signed with the secret [k]: the code
    orders the keys as the host collation does, [a] before [B], and hashes
    [a=1&B=2k]; the recipe of the specification orders them by byte, [B]
    (66) before [a] (97), and hashes [B=2&a=1k].  The two tokens differ. *)
Theorem sign_orders_keys_by_collation :
  getVerifyParams nodeUTC [("a", "1"); ("B", "2")] = "a=1&B=2"
  /\ specSigningString [("a", "1"); ("B", "2")] = "B=2&a=1"
  /\ sign nodeUTC [("a", "1"); ("B", "2")] "k" = "18b1bd58af4a5f715dc5b1c86205abcf"
  /\ specSign [("a", "1"); ("B", "2")] "k" = "e6df2c92013e1d2ad24bb75f39658d83"
  /\ sign nodeUTC [("a", "1"); ("B", "2")] "k" <> specSign [("a", "1"); ("B", "2")] "k".
Proof.
  split; [vm_compute; reflexivity|]. split; [vm_compute; reflexivity|].
  split; [vm_compute; reflexivity|]. split; [vm_compute; reflexivity|].
  vm_compute. discriminate.
Qed.

(** C9. The keys [a] and [a] followed by U+0001 compare equal under the
    host collation, which ignores that control character, so the stable
    sort leaves them in insertion order: the same two entries inserted in
    the two possible orders give two different tokens. *)
Theorem reordering_tied_keys_changes_token :
  localeCompare nodeUTC keyA keyA1 = Eq
  /\ Permutation [(keyA, "1"); (keyA1, "2")] [(keyA1, "2"); (keyA, "1")]
  /\ sign nodeUTC [(keyA, "1"); (keyA1, "2")] "k" = "b99891d2bc82eb7c535f53e851f92b78"
  /\ sign nodeUTC [(keyA1, "2"); (keyA, "1")] "k" = "5355dc05d606d2a1922e4964b438694e"
  /\ specSign [(keyA, "1"); (keyA1, "2")] "k" = specSign [(keyA1, "2"); (keyA, "1")] "k".
Proof.
  split; [reflexivity|]. split; [apply perm_swap|].
  split; [vm_compute; reflexivity|]. split; vm_compute; reflexivity.
Qed.

(** * Shape of the handlers *)

Lemma conditionalUpdate_shape data no :
  set_status data = "paid" ->
  readsThenOneUpdate no (WebhookRoute.conditionalUpdate data no).
Proof.
  intros Hs. unfold WebhookRoute.conditionalUpdate.
  apply roUpdate; [exact Hs| |reflexivity].
  intros [[|r rows]|]; eexists; reflexivity.
Qed.

Lemma withSubscription_shape rt period tradeNo updated_at no startDate :
  readsThenOneUpdate no (WebhookRoute.withSubscription rt period tradeNo updated_at no startDate).
Proof.
  unfold WebhookRoute.withSubscription.
  destruct (toISOString startDate); [|constructor].
  destruct (toISOString _); [|constructor].
  apply conditionalUpdate_shape. reflexivity.
Qed.

Lemma settle_shape rt tradeNo no t :
  readsThenOneUpdate no (WebhookRoute.settle rt tradeNo no t).
Proof.
  unfold WebhookRoute.settle. constructor. intros now1.
  destruct (toISOString now1); [|constructor].
  destruct (is_subscription t); [|apply conditionalUpdate_shape; reflexivity].
  destruct (truthy (subscription_period t)); [|apply conditionalUpdate_shape; reflexivity].
  constructor. intros now2.
  destruct (toISOString now2); [|constructor].
  constructor. intros [[|latest rest]|].
  - constructor. intros now3. apply withSubscription_shape.
  - apply withSubscription_shape.
  - constructor. intros now3. apply withSubscription_shape.
Qed.

Lemma reconcile_shape rt m tradeNo no found :
  readsThenOneUpdate no (WebhookRoute.reconcile rt m tradeNo no found).
Proof.
  unfold WebhookRoute.reconcile.
  destruct found as [t|]; [|constructor].
  destruct (String.eqb (status t) "paid"); [constructor|].
  destruct (WebhookRoute.amountMismatch _ _); [constructor|].
  apply settle_shape.
Qed.

Lemma GET_shape rt env sp :
  readsThenOneUpdate (orEmpty (get sp "out_trade_no")) (WebhookRoute.GET rt env sp).
Proof.
  unfold WebhookRoute.GET.
  destruct (truthy (ZPAY_KEY env)); [|constructor].
  destruct (negb _); [constructor|].
  destruct (negb _); [constructor|].
  constructor. intros found. apply reconcile_shape.
Qed.

Lemma readsThenOneUpdate_guarded no h : readsThenOneUpdate no h -> guardedWrites h.
Proof.
  induction 1; try (constructor; assumption).
  constructor; [assumption|].
  intros x. destruct (H0 x) as [r ->]. constructor.
Qed.

Lemma GET_guarded rt env sp : guardedWrites (WebhookRoute.GET rt env sp).
Proof. eapply readsThenOneUpdate_guarded, GET_shape. Qed.

Lemma urlPOST_guarded rt env products user body :
  guardedWrites (UrlRoute.POST rt env products user body).
Proof.
  unfold UrlRoute.POST.
  destruct user; [|constructor].
  destruct body; [|constructor].
  destruct (negb _); [constructor|].
  destruct (products _); [|constructor].
  destruct (truthy (ZPAY_PID env)); [|constructor].
  destruct (truthy (ZPAY_KEY env)); [|constructor].
  destruct (truthy (NEXT_PUBLIC_BASE_URL env)); [|constructor].
  unfold UrlRoute.generateOrderNo.
  constructor. intros now. constructor. intros r. constructor.
  intros [|]; constructor.
Qed.

Lemma repayPOST_guarded rt env user body :
  guardedWrites (RepayRoute.POST rt env user body).
Proof.
  unfold RepayRoute.POST.
  destruct user; [|constructor].
  destruct body; [|constructor].
  destruct (truthy _); [|constructor].
  constructor. intros [t|]; [|constructor].
  destruct (truthy (ZPAY_PID env)); [|constructor].
  destruct (truthy (ZPAY_KEY env)); [|constructor].
  destruct (truthy (NEXT_PUBLIC_BASE_URL env)); constructor.
Qed.

(** * Rows only ever move from pending to paid *)

Lemma rowEvolves_refl r : rowEvolves r r.
Proof. left. reflexivity. Qed.

Lemma rowEvolves_trans r1 r2 r3 :
  rowEvolves r1 r2 -> rowEvolves r2 r3 -> rowEvolves r1 r3.
Proof.
  intros [->|[Hp Hq]] H23; [exact H23|].
  destruct H23 as [->|[Hp' _]].
  - right. split; assumption.
  - rewrite Hq in Hp'. discriminate.
Qed.

Lemma rowEvolves_paid r r' :
  rowEvolves r r' -> status r = "paid" -> r' = r.
Proof.
  intros [->|[Hp _]] Hs; [reflexivity|].
  rewrite Hs in Hp. discriminate.
Qed.

Lemma ledgerEvolves_refl db : ledgerEvolves db db.
Proof. intros i r H. exists r. split; [exact H|apply rowEvolves_refl]. Qed.

Lemma ledgerEvolves_trans db1 db2 db3 :
  ledgerEvolves db1 db2 -> ledgerEvolves db2 db3 -> ledgerEvolves db1 db3.
Proof.
  intros H12 H23 i r H.
  destruct (H12 i r H) as [r2 [H2 E12]].
  destruct (H23 i r2 H2) as [r3 [H3 E23]].
  exists r3. split; [exact H3|]. eapply rowEvolves_trans; eassumption.
Qed.

Lemma dbUpdate_evolves data no db :
  set_status data = "paid" ->
  ledgerEvolves db (fst (dbUpdate data no "pending" db)).
Proof.
  intros Hs i r H. unfold dbUpdate. cbn [fst].
  rewrite nth_error_map, H. cbn [option_map].
  eexists. split; [reflexivity|].
  unfold updateMatches.
  destruct (String.eqb (out_trade_no r) no); cbn [andb]; [|left; reflexivity].
  destruct (String.eqb (status r) "pending") eqn:E; [|left; reflexivity].
  right. apply String.eqb_eq in E. split; [exact E|exact Hs].
Qed.

Lemma dbInsert_evolves data now db db' :
  dbInsert data now db = Some db' -> ledgerEvolves db db'.
Proof.
  unfold dbInsert. destruct (ins_money data); [|discriminate].
  destruct (existsb _ db); [discriminate|].
  intros [= <-] i r H. exists r. split; [|apply rowEvolves_refl].
  rewrite nth_error_app1; [exact H|]. apply nth_error_Some. congruence.
Qed.

Lemma step_guarded o w h ev w' h' :
  guardedWrites h -> step o w h = Some (ev, w', h') ->
  guardedWrites h' /\ ledgerEvolves (ledger w) (ledger w').
Proof.
  intros G. destruct G; cbn [step]; intros E.
  - discriminate.
  - injection E as <- <- <-. split; [apply H|apply ledgerEvolves_refl].
  - injection E as <- <- <-. split; [apply H|apply ledgerEvolves_refl].
  - injection E as <- <- <-. split; [apply H|apply ledgerEvolves_refl].
  - injection E as <- <- <-. split; [apply H|apply ledgerEvolves_refl].
  - injection E as <- <- <-. split; [apply H|apply ledgerEvolves_refl].
  - pose proof (dbUpdate_evolves data no (ledger w) H) as Hev.
    destruct (dbUpdate data no "pending" (ledger w)) as [db rows].
    injection E as <- <- <-. split; [apply H0|exact Hev].
  - destruct (dbInsert data (clock o (ticks w)) (ledger w)) as [db|] eqn:Ei.
    + injection E as <- <- <-. split; [apply H|].
      eapply dbInsert_evolves; exact Ei.
    + injection E as <- <- <-. split; [apply H|apply ledgerEvolves_refl].
Qed.

Lemma Forall_replaceNth {A} (P : A -> Prop) n x l :
  Forall P l -> P x -> Forall P (replaceNth n x l).
Proof.
  intros Hl Hx. revert n. induction Hl; intros [|n]; cbn; constructor; auto.
Qed.

Section Invariant.
Variables (rt : Runtime) (env : ProcessEnv) (products : Catalog) (o : Oracle).

Lemma sysStep_invariant s s' :
  sysStep rt env products o s s' ->
  Forall guardedWrites (inflight s) ->
  Forall guardedWrites (inflight s')
  /\ ledgerEvolves (ledger (world s)) (ledger (world s')).
Proof.
  intros Hstep Hall. destruct Hstep; cbn [inflight world].
  - split; [|apply ledgerEvolves_refl].
    apply Forall_app. split; [exact Hall|]. constructor; [apply GET_guarded|constructor].
  - split; [|apply ledgerEvolves_refl].
    apply Forall_app. split; [exact Hall|]. constructor; [apply urlPOST_guarded|constructor].
  - split; [|apply ledgerEvolves_refl].
    apply Forall_app. split; [exact Hall|]. constructor; [apply repayPOST_guarded|constructor].
  - assert (Gh : guardedWrites h).
    { rewrite Forall_forall in Hall. apply Hall. eapply nth_error_In; eassumption. }
    destruct (step_guarded _ _ _ _ _ _ Gh H0) as [Gh' Hev].
    split; [|exact Hev]. apply Forall_replaceNth; assumption.
Qed.

Lemma reaches_invariant s s' :
  reaches rt env products o s s' ->
  Forall guardedWrites (inflight s) ->
  Forall guardedWrites (inflight s')
  /\ ledgerEvolves (ledger (world s)) (ledger (world s')).
Proof.
  induction 1 as [s|s1 s2 s3 H12 IH H23]; intros Hall.
  - split; [exact Hall|apply ledgerEvolves_refl].
  - destruct (IH Hall) as [Hall2 Hev12].
    destruct (sysStep_invariant _ _ H23 Hall2) as [Hall3 Hev23].
    split; [exact Hall3|]. eapply ledgerEvolves_trans; eassumption.
Qed.

Lemma reaches_from_boot db s :
  reaches rt env products o (boot db) s -> Forall guardedWrites (inflight s).
Proof.
  intros H. apply (reaches_invariant _ _ H). constructor.
Qed.
End Invariant.

(** * What one delivery writes *)

Lemma dbUpdate_no_rows data no st db :
  snd (dbUpdate data no st db) = [] -> fst (dbUpdate data no st db) = db.
Proof.
  unfold dbUpdate. cbn [fst snd]. induction db as [|r db IH]; [reflexivity|].
  cbn [filter map]. destruct (updateMatches no st r); [discriminate|].
  intros H. rewrite (IH H). reflexivity.
Qed.

Lemma oneGuardedWrite_cons no ev w w0 resp w' log :
  isWrite ev = false -> ledger w0 = ledger w ->
  oneGuardedWrite no w0 (resp, w', log) -> oneGuardedWrite no w (resp, w', ev :: log).
Proof.
  intros Hev Hw [[Hf Hl]|(pre & data & rows & -> & Hpre & Hs & Hu & Hz)].
  - left. cbn [filter]. rewrite Hev. split; congruence.
  - right. exists (ev :: pre), data, rows.
    repeat split; try assumption.
    + cbn [filter]. rewrite Hev. exact Hpre.
    + rewrite <- Hw. exact Hu.
    + apply Hz; assumption.
    + rewrite <- Hw. apply Hz; assumption.
Qed.

Lemma exec_readsThenOneUpdate o no h :
  readsThenOneUpdate no h -> forall w, oneGuardedWrite no w (exec o h w).
Proof.
  induction 1 as [r|k Hk IH|no' k Hk IH|uid now k Hk IH|data k Hs Hk H0]; intros w; cbn [exec].
  - left. split; reflexivity.
  - specialize (IH (TimeClip (clock o (ticks w))) (tick w)).
    destruct (exec o (k _) (tick w)) as [[resp w'] log].
    eapply oneGuardedWrite_cons; [reflexivity| |exact IH]. reflexivity.
  - specialize (IH (dbSelectByOutTradeNo no' (ledger w)) w).
    destruct (exec o (k _) w) as [[resp w'] log].
    eapply oneGuardedWrite_cons; [reflexivity| |exact IH]. reflexivity.
  - specialize (IH (Some (dbSelectActiveSubscriptions uid now (ledger w))) w).
    destruct (exec o (k _) w) as [[resp w'] log].
    eapply oneGuardedWrite_cons; [reflexivity| |exact IH]. reflexivity.
  - destruct (dbUpdate data no "pending" (ledger w)) as [db rows] eqn:Eu.
    destruct (Hk (Some rows)) as [r Hr]. rewrite Hr. cbn [exec].
    right. exists [], data, rows. cbn [app filter withLedger ledger].
    split; [reflexivity|]. split; [reflexivity|]. split; [exact Hs|].
    split; [symmetry; exact Eu|].
    intros ->. split.
    + rewrite H0 in Hr. congruence.
    + pose proof (dbUpdate_no_rows data no "pending" (ledger w)) as Hn.
      rewrite Eu in Hn. apply Hn. reflexivity.
Qed.

(** * Dates within range *)

Lemma TimeClip_valid t : validTime t -> TimeClip t = Some t.
Proof.
  unfold validTime, TimeClip. intros H.
  destruct (Z.abs t <=? 8640000000000000) eqn:E; [reflexivity|].
  apply Z.leb_gt in E. lia.
Qed.

Lemma ordinaryTime_valid t : ordinaryTime t -> validTime t.
Proof. unfold ordinaryTime, validTime. lia. Qed.

Lemma setMonth_next rt (t : Z) :
  exists len, 28 <= len <= 31
    /\ addCalendar rt 0 1 t = t + len * msPerDay
    /\ setMonth rt (Some t) (option_map (Z.add 1) (getMonth rt (Some t)))
       = TimeClip (addCalendar rt 0 1 t).
Proof.
  destruct (nextMonth_span (LocalTime rt t)) as [len [Hlen E]].
  exists len. split; [exact Hlen|]. unfold addCalendar. cbv zeta.
  rewrite Z.add_0_r. split.
  - rewrite E. unfold UTC, LocalTime. lia.
  - cbn [setMonth getMonth option_map]. rewrite (Z.add_comm 1). reflexivity.
Qed.

Lemma setFullYear_next rt (t : Z) :
  exists len, 365 <= len <= 366
    /\ addCalendar rt 1 0 t = t + len * msPerDay
    /\ setFullYear rt (Some t) (option_map (Z.add 1) (getFullYear rt (Some t)))
       = TimeClip (addCalendar rt 1 0 t).
Proof.
  destruct (nextYear_span (LocalTime rt t)) as [len [Hlen E]].
  exists len. split; [exact Hlen|]. unfold addCalendar. cbv zeta.
  rewrite Z.add_0_r. split.
  - rewrite E. unfold UTC, LocalTime. lia.
  - cbn [setFullYear getFullYear option_map]. rewrite (Z.add_comm 1). reflexivity.
Qed.

Lemma periodEnd_range rt period t :
  t <= periodEnd rt period t <= t + 366 * msPerDay.
Proof.
  unfold periodEnd.
  destruct (String.eqb period "monthly"); [|destruct (String.eqb period "yearly")].
  - destruct (setMonth_next rt t) as [len [Hlen [E _]]]. rewrite E. unfold msPerDay. lia.
  - destruct (setFullYear_next rt t) as [len [Hlen [E _]]]. rewrite E. unfold msPerDay. lia.
  - unfold msPerDay. lia.
Qed.

(** * The subscription query returns the latest active end date *)

Lemma insertSorted_In {A} (c : A -> A -> comparison) x l y :
  In y (insertSorted c x l) <-> y = x \/ In y l.
Proof.
  induction l as [|z l IH]; cbn.
  - intuition.
  - destruct (c x z); cbn; rewrite ?IH; intuition.
Qed.

Lemma sort_In {A} (c : A -> A -> comparison) l y :
  In y (sort c l) <-> In y l.
Proof.
  induction l as [|x l IH]; cbn; [reflexivity|].
  rewrite insertSorted_In, IH. intuition.
Qed.

Lemma insertSorted_descending x l :
  StronglySorted Z.ge l -> StronglySorted Z.ge (insertSorted descending x l).
Proof.
  induction 1 as [|z l Hs IH Hz]; cbn.
  - repeat constructor.
  - unfold descending at 1. destruct (Z.compare_spec z x) as [E|E|E].
    + constructor; [constructor; assumption|].
      constructor; [lia|]. rewrite Forall_forall in *. intros y Hy. specialize (Hz y Hy). lia.
    + constructor; [constructor; assumption|].
      constructor; [lia|]. rewrite Forall_forall in *. intros y Hy. specialize (Hz y Hy). lia.
    + constructor; [exact IH|].
      rewrite Forall_forall in *. intros y Hy.
      apply insertSorted_In in Hy. destruct Hy as [->|Hy]; [lia|auto].
Qed.

Lemma sort_descending l : StronglySorted Z.ge (sort descending l).
Proof.
  induction l as [|x l IH]; cbn; [constructor|].
  apply insertSorted_descending, IH.
Qed.

Lemma latest_is_maximum l x rest :
  sort descending l = x :: rest -> In x l /\ forall y, In y l -> y <= x.
Proof.
  intros E. split.
  - apply (sort_In descending). rewrite E. left. reflexivity.
  - intros y Hy. apply (sort_In descending) in Hy. rewrite E in Hy.
    pose proof (sort_descending l) as Hs. rewrite E in Hs.
    inversion Hs as [|? ? _ Hall]; subst.
    destruct Hy as [->|Hy]; [lia|].
    rewrite Forall_forall in Hall. specialize (Hall y Hy). lia.
Qed.

Lemma activeSubscriptions_none uid now db :
  dbSelectActiveSubscriptions uid now db = [] <->
  forall r, In r db -> activeSubscription uid now r = false.
Proof.
  unfold dbSelectActiveSubscriptions. fold descending. split.
  - intros E r Hr. destruct (activeSubscription uid now r) eqn:Ea; [|reflexivity].
    assert (Hin : In (endDateOf r) (sort descending (map endDateOf (filter (activeSubscription uid now) db)))).
    { apply sort_In, in_map, filter_In. split; assumption. }
    destruct (sort descending _); [destruct Hin|discriminate].
  - intros H.
    assert (Hf : filter (activeSubscription uid now) db = []).
    { induction db as [|r db IH]; [reflexivity|]. cbn.
      rewrite (H r (or_introl eq_refl)). apply IH. intros r' Hr'. apply H. right. exact Hr'. }
    rewrite Hf. reflexivity.
Qed.

Lemma activeSubscriptions_latest uid now db e rest :
  dbSelectActiveSubscriptions uid now db = e :: rest ->
  rest = []
  /\ (exists r, In r db /\ activeSubscription uid now r = true
                /\ subscription_end_date r = Some e)
  /\ (forall r, In r db -> activeSubscription uid now r = true -> endDateOf r <= e).
Proof.
  unfold dbSelectActiveSubscriptions. fold descending.
  destruct (sort descending _) as [|x l] eqn:Es; [discriminate|].
  cbn [firstn]. intros [= -> <-].
  destruct (latest_is_maximum _ _ _ Es) as [Hin Hmax].
  split; [reflexivity|]. split.
  - apply in_map_iff in Hin. destruct Hin as [r [He Hr]].
    apply filter_In in Hr. destruct Hr as [Hr Ha].
    exists r. split; [exact Hr|]. split; [exact Ha|].
    unfold activeSubscription in Ha. unfold endDateOf in He.
    destruct (subscription_end_date r); [congruence|].
    rewrite andb_false_r in Ha. discriminate.
  - intros r Hr Ha. apply Hmax. apply in_map, filter_In. split; assumption.
Qed.

(** * Running the webhook *)

Lemma GET_verified rt env sp :
  verifiedSuccess rt env sp ->
  WebhookRoute.GET rt env sp
  = SelectByOutTradeNo (orEmpty (get sp "out_trade_no"))
      (WebhookRoute.reconcile rt (orEmpty (get sp "money")) (orEmpty (get sp "trade_no"))
                              (orEmpty (get sp "out_trade_no"))).
Proof.
  intros [key [Hk [Hs Ht]]]. unfold WebhookRoute.GET.
  rewrite Hk, Hs, Ht, !String.eqb_refl. reflexivity.
Qed.

Lemma single_Some rows (t : Transaction) : single rows = Some t -> rows = [t].
Proof.
  destruct rows as [|r [|r' rows]]; cbn; intros E; try discriminate.
  congruence.
Qed.

Lemma filter_and {A} (p q : A -> bool) l :
  filter (fun x => p x && q x) l = filter q (filter p l).
Proof.
  induction l as [|x l IH]; cbn; [reflexivity|].
  destruct (p x); cbn; [|exact IH]. destruct (q x); rewrite IH; reflexivity.
Qed.

Lemma filter_map_commute {A} (p : A -> bool) (f : A -> A) l :
  (forall x, p (f x) = p x) -> filter p (map f l) = map f (filter p l).
Proof.
  intros H. induction l as [|x l IH]; cbn; [reflexivity|].
  rewrite H. destruct (p x); cbn; rewrite IH; reflexivity.
Qed.

(** The conditional update on a table where the order is pending. *)
Lemma dbUpdate_pending data no db t :
  dbSelectByOutTradeNo no db = Some t ->
  status t = "pending" ->
  snd (dbUpdate data no "pending" db) = [applyUpdate data t]
  /\ dbSelectByOutTradeNo no (fst (dbUpdate data no "pending" db)) = Some (applyUpdate data t).
Proof.
  unfold dbSelectByOutTradeNo. intros Hf Hs. apply single_Some in Hf.
  unfold dbUpdate. cbn [fst snd]. split.
  - unfold updateMatches. rewrite filter_and, Hf. cbn [filter].
    rewrite Hs. reflexivity.
  - rewrite filter_map_commute.
    + rewrite Hf. cbn [map]. unfold updateMatches.
      assert (Hn : String.eqb (out_trade_no t) no = true).
      { assert (Hin : In t (filter (fun r => String.eqb (out_trade_no r) no) db))
          by (rewrite Hf; left; reflexivity).
        apply filter_In in Hin. apply Hin. }
      rewrite Hn, Hs. reflexivity.
    + intros r. destruct (updateMatches no "pending" r); reflexivity.
Qed.

(** ... and on a table where it is not. *)
Lemma dbUpdate_not_pending data no db t :
  dbSelectByOutTradeNo no db = Some t ->
  status t <> "pending" ->
  dbUpdate data no "pending" db = (db, []).
Proof.
  unfold dbSelectByOutTradeNo. intros Hf Hs. apply single_Some in Hf.
  assert (Hr : snd (dbUpdate data no "pending" db) = []).
  { unfold dbUpdate. cbn [snd]. unfold updateMatches. rewrite filter_and, Hf.
    cbn [filter]. destruct (String.eqb (status t) "pending") eqn:E; [|reflexivity].
    apply String.eqb_eq in E. contradiction. }
  pose proof (dbUpdate_no_rows _ _ _ _ Hr) as Hd.
  destruct (dbUpdate data no "pending" db) as [db' rows]. cbn in *. congruence.
Qed.

Lemma exec_conditionalUpdate o data no w :
  exec o (WebhookRoute.conditionalUpdate data no) w
  = (WebhookRoute.success,
     withLedger w (fst (dbUpdate data no "pending" (ledger w))),
     [EvUpdate data no "pending" (snd (dbUpdate data no "pending" (ledger w)))]).
Proof.
  unfold WebhookRoute.conditionalUpdate. cbn [exec].
  destruct (dbUpdate data no "pending" (ledger w)) as [db [|r rows]]; reflexivity.
Qed.

Lemma exec_withSubscription o rt period tradeNo updated_at no start w :
  ordinaryTime start ->
  exec o (WebhookRoute.withSubscription rt period tradeNo updated_at no (Some start)) w
  = exec o (WebhookRoute.conditionalUpdate
              (mkUpdateData "paid" tradeNo updated_at (Some (start, periodEnd rt period start))) no) w.
Proof.
  intros Hs. unfold WebhookRoute.withSubscription.
  assert (Hend : validTime (periodEnd rt period start)).
  { pose proof (periodEnd_range rt period start).
    unfold ordinaryTime, validTime, msPerDay in *. lia. }
  unfold periodEnd in *.
  destruct (String.eqb period "monthly"); [|destruct (String.eqb period "yearly")].
  - destruct (setMonth_next rt start) as [len [_ [_ E]]]. rewrite E.
    rewrite (TimeClip_valid _ Hend). reflexivity.
  - destruct (setFullYear_next rt start) as [len [_ [_ E]]]. rewrite E.
    rewrite (TimeClip_valid _ Hend). reflexivity.
  - reflexivity.
Qed.

Lemma windowStart_ordinary o w uid :
  ordinaryTimes o (ledger w) -> ordinaryTime (windowStart o w uid).
Proof.
  intros [Hc Hl]. unfold windowStart.
  destruct (dbSelectActiveSubscriptions _ _ _) as [|e rest] eqn:E; [apply Hc|].
  destruct (activeSubscriptions_latest _ _ _ _ _ E) as [_ [[r [Hr [_ He]]] _]].
  eapply Hl; eassumption.
Qed.

Lemma exec_settle o rt tradeNo no t w :
  ordinaryTimes o (ledger w) ->
  exists w1 pre,
    exec o (WebhookRoute.settle rt tradeNo no t) w
    = (WebhookRoute.success,
       withLedger w1 (fst (dbUpdate (settledData rt o w tradeNo t) no "pending" (ledger w))),
       pre ++ [EvUpdate (settledData rt o w tradeNo t) no "pending"
                 (snd (dbUpdate (settledData rt o w tradeNo t) no "pending" (ledger w)))])
    /\ filter isWrite pre = [].
Proof.
  intros Ho. pose proof Ho as [Hc Hl].
  unfold WebhookRoute.settle, settledData. cbn [exec].
  rewrite (TimeClip_valid _ (ordinaryTime_valid _ (Hc (ticks w)))).
  cbn [toISOString].
  destruct (is_subscription t) eqn:Hsub.
  2: { rewrite exec_conditionalUpdate. cbn [ledger tick].
       exists (tick w), [EvNewDate (Some (clock o (ticks w)))]. split; reflexivity. }
  destruct (truthy (subscription_period t)) as [period|] eqn:Hper.
  2: { rewrite exec_conditionalUpdate. cbn [ledger tick].
       exists (tick w), [EvNewDate (Some (clock o (ticks w)))]. split; reflexivity. }
  cbn [exec tick ticks ledger].
  rewrite (TimeClip_valid _ (ordinaryTime_valid _ (Hc (S (ticks w))))).
  cbn [toISOString exec tick ticks ledger].
  pose proof (windowStart_ordinary o w (user_id t) Ho) as Hws.
  unfold windowStart in *.
  destruct (dbSelectActiveSubscriptions (user_id t) (clock o (S (ticks w))) (ledger w))
    as [|latest rest] eqn:Eq.
  - cbn [exec tick ticks ledger].
    rewrite (TimeClip_valid _ (ordinaryTime_valid _ (Hc (S (S (ticks w)))))).
    rewrite (exec_withSubscription _ _ _ _ _ _ _ _ Hws), exec_conditionalUpdate.
    cbn [ledger].
    exists (tick (tick (tick w))),
      [EvNewDate (Some (clock o (ticks w))); EvNewDate (Some (clock o (S (ticks w))));
       EvSelectActiveSubscriptions (user_id t) (clock o (S (ticks w))) [];
       EvNewDate (Some (clock o (S (S (ticks w)))))].
    split; reflexivity.
  - unfold newDateOf. rewrite (TimeClip_valid _ (ordinaryTime_valid _ Hws)).
    rewrite (exec_withSubscription _ _ _ _ _ _ _ _ Hws), exec_conditionalUpdate.
    cbn [ledger].
    exists (tick (tick w)),
      [EvNewDate (Some (clock o (ticks w))); EvNewDate (Some (clock o (S (ticks w))));
       EvSelectActiveSubscriptions (user_id t) (clock o (S (ticks w))) (latest :: rest)].
    split; reflexivity.
Qed.

(** * A sequential run is one of the interleavings *)

Lemma replaceNth_last {A} (pool : list A) x y :
  replaceNth (List.length pool) y (pool ++ [x]) = pool ++ [y].
Proof. induction pool as [|z pool IH]; cbn; [reflexivity|]. rewrite IH. reflexivity. Qed.

Lemma nth_error_last {A} (pool : list A) x :
  nth_error (pool ++ [x]) (List.length pool) = Some x.
Proof. induction pool as [|z pool IH]; cbn; [reflexivity|exact IH]. Qed.

Section Interleaving.
Variables (rt : Runtime) (env : ProcessEnv) (products : Catalog) (o : Oracle).

Lemma reaches_trans s1 s2 s3 :
  reaches rt env products o s1 s2 -> reaches rt env products o s2 s3 ->
  reaches rt env products o s1 s3.
Proof.
  intros H12 H23. induction H23; [exact H12|].
  eapply reachesStep; [apply IHreaches; exact H12|eassumption].
Qed.

Lemma advance_last w pool h ev w' h' :
  step o w h = Some (ev, w', h') ->
  reaches rt env products o (mkSystem w (pool ++ [h])) (mkSystem w' (pool ++ [h'])).
Proof.
  intros Hs. eapply reachesStep; [apply reachesRefl|].
  rewrite <- (replaceNth_last pool h h').
  eapply (advance rt env products o (mkSystem w (pool ++ [h])) (List.length pool) h ev w' h').
  - apply nth_error_last.
  - exact Hs.
Qed.

Lemma exec_reaches h : forall w pool,
  reaches rt env products o
    (mkSystem w (pool ++ [h]))
    (mkSystem (snd (fst (exec o h w))) (pool ++ [Respond (fst (fst (exec o h w)))])).
Proof.
  induction h as [r|k IH|k IH|no k IH|uid no k IH|uid now k IH|data no st k IH|data k IH];
    intros w pool; cbn [exec].
  - apply reachesRefl.
  - eapply reaches_trans; [eapply advance_last; reflexivity|].
    specialize (IH (TimeClip (clock o (ticks w))) (tick w) pool).
    destruct (exec o (k _) (tick w)) as [[resp w'] log]. exact IH.
  - eapply reaches_trans; [eapply advance_last; reflexivity|].
    specialize (IH (random o (draws w) mod 1000) (draw w) pool).
    destruct (exec o (k _) (draw w)) as [[resp w'] log]. exact IH.
  - eapply reaches_trans; [eapply advance_last; reflexivity|].
    specialize (IH (dbSelectByOutTradeNo no (ledger w)) w pool).
    destruct (exec o (k _) w) as [[resp w'] log]. exact IH.
  - eapply reaches_trans; [eapply advance_last; reflexivity|].
    specialize (IH (dbSelectOwnPending uid no (ledger w)) w pool).
    destruct (exec o (k _) w) as [[resp w'] log]. exact IH.
  - eapply reaches_trans; [eapply advance_last; reflexivity|].
    specialize (IH (Some (dbSelectActiveSubscriptions uid now (ledger w))) w pool).
    destruct (exec o (k _) w) as [[resp w'] log]. exact IH.
  - destruct (dbUpdate data no st (ledger w)) as [db rows] eqn:Eu.
    eapply reaches_trans.
    + eapply advance_last. cbn [step]. rewrite Eu. reflexivity.
    + specialize (IH (Some rows) (withLedger w db) pool).
      destruct (exec o (k _) (withLedger w db)) as [[resp w'] log]. exact IH.
  - destruct (dbInsert data (clock o (ticks w)) (ledger w)) as [db|] eqn:Ei.
    + eapply reaches_trans.
      * eapply advance_last. cbn [step]. rewrite Ei. reflexivity.
      * specialize (IH false (tick (withLedger w db)) pool).
        destruct (exec o (k _) (tick (withLedger w db))) as [[resp w'] log]. exact IH.
    + eapply reaches_trans.
      * eapply advance_last. cbn [step]. rewrite Ei. reflexivity.
      * specialize (IH true w pool).
        destruct (exec o (k _) w) as [[resp w'] log]. exact IH.
Qed.

(** A webhook delivery that arrives and runs to its response. *)
Lemma delivery_reaches s sp :
  reaches rt env products o s
    (mkSystem (snd (fst (exec o (WebhookRoute.GET rt env sp) (world s))))
              (inflight s ++ [Respond (fst (fst (exec o (WebhookRoute.GET rt env sp) (world s))))])).
Proof.
  eapply reaches_trans; [|apply exec_reaches].
  eapply reachesStep; [apply reachesRefl|]. apply arriveWebhook.
Qed.
End Interleaving.

Lemma runSchedule_reaches rt env products o schedule : forall s,
  reaches rt env products o s (fst (runSchedule o schedule s)).
Proof.
  induction schedule as [|i rest IH]; intros s; cbn [runSchedule].
  - apply reachesRefl.
  - destruct (nth_error (inflight s) i) as [h|] eqn:En; [|apply IH].
    destruct (step o (world s) h) as [[[ev w'] h']|] eqn:Es; [|apply IH].
    specialize (IH (mkSystem w' (replaceNth i h' (inflight s)))).
    destruct (runSchedule o rest _) as [s' evs]. cbn [fst] in *.
    eapply reaches_trans; [|exact IH].
    eapply reachesStep; [apply reachesRefl|]. eapply advance; eassumption.
Qed.

(** Two deliveries of the sample notification racing, their calls strictly
    alternating: both read the order as pending and both issue the update;
    the first updates one row, the second none; both answer [success], and
    the row carries what the first one wrote. *)
Example two_deliveries_race :
  let '(s, evs) := runSchedule sampleOracle [0; 1; 0; 1; 0; 1; 0; 1; 0; 1]%nat twoDeliveries in
  inflight s = [Respond WebhookRoute.success; Respond WebhookRoute.success]
  /\ map (fun ev => match ev with
                    | EvUpdate _ _ _ rows => List.length rows
                    | _ => 0%nat
                    end) (filter isWrite evs) = [1%nat; 0%nat]
  /\ nth_error (ledger (world s)) 1
     = Some (applyUpdate (mkUpdateData "paid" "T2" 1743465600000
                                       (Some (1744675200000, 1747267200000)))
                         pendingOrder).
Proof. vm_compute. repeat split. Qed.

(** * One transition per order *)

(** C1. Whatever requests arrive at the three routes and however their
    database calls interleave, a row whose status changes goes from pending
    to paid and is identical ever after (status, trade number, subscription
    dates and all); the webhook's only write is one update restricted to
    [status = pending] that sets status paid, after which it responds, with
    [success] when no row was updated. *)
Theorem at_most_one_transition_per_order :
  forall rt env products o,
    (forall db0 s s' s'' i r r',
        reaches rt env products o (boot db0) s ->
        reaches rt env products o s s' ->
        reaches rt env products o s' s'' ->
        nth_error (ledger (world s)) i = Some r ->
        nth_error (ledger (world s')) i = Some r' ->
        status r <> status r' ->
        status r = "pending" /\ status r' = "paid"
        /\ nth_error (ledger (world s'')) i = Some r')
    /\ (forall sp, readsThenOneUpdate (orEmpty (get sp "out_trade_no")) (WebhookRoute.GET rt env sp))
    /\ (forall sp w, oneGuardedWrite (orEmpty (get sp "out_trade_no")) w
                       (exec o (WebhookRoute.GET rt env sp) w)).
Proof.
  intros rt env products o. split; [|split].
  - intros db0 s s' s'' i r r' H0 H1 H2 Hr Hr' Hne.
    pose proof (reaches_from_boot _ _ _ _ _ _ H0) as G.
    destruct (reaches_invariant _ _ _ _ _ _ H1 G) as [G' E1].
    destruct (reaches_invariant _ _ _ _ _ _ H2 G') as [_ E2].
    destruct (E1 i r Hr) as [r1 [Hr1 Hev]].
    rewrite Hr' in Hr1. injection Hr1 as <-.
    destruct Hev as [->|[Hp Hq]]; [contradiction|].
    split; [exact Hp|]. split; [exact Hq|].
    destruct (E2 i r' Hr') as [r2 [Hr2 Hev2]].
    rewrite (rowEvolves_paid _ _ Hev2 Hq) in Hr2. exact Hr2.
  - intros sp. apply GET_shape.
  - intros sp w. apply exec_readsThenOneUpdate, GET_shape.
Qed.

Lemma at_most_one_transition_witness :
  exists r',
    nth_error (ledger (world afterDelivery)) 1 = Some r'
    /\ status pendingOrder = "pending" /\ status r' = "paid".
Proof.
  destruct (at_most_one_transition_per_order nodeUTC sampleEnv sampleCatalog sampleOracle)
    as [H _].
  destruct (nth_error (ledger (world afterDelivery)) 1) as [r'|] eqn:E;
    [|vm_compute in E; discriminate].
  destruct (H [paidOrder; pendingOrder] (boot [paidOrder; pendingOrder]) afterDelivery afterDelivery
              1%nat pendingOrder r') as [Hp [Hq Hr]].
  - apply reachesRefl.
  - apply (delivery_reaches nodeUTC sampleEnv sampleCatalog sampleOracle
             (boot [paidOrder; pendingOrder]) sampleNotification).
  - apply reachesRefl.
  - reflexivity.
  - exact E.
  - vm_compute in E. injection E as <-. vm_compute. discriminate.
  - exists r'. split; [reflexivity|]. split; [exact Hp|exact Hq].
Defined.

Lemma exec_GET_verified o rt env sp w :
  verifiedSuccess rt env sp ->
  exec o (WebhookRoute.GET rt env sp) w
  = let no := orEmpty (get sp "out_trade_no") in
    let found := dbSelectByOutTradeNo no (ledger w) in
    let '(r, w', log) :=
      exec o (WebhookRoute.reconcile rt (orEmpty (get sp "money")) (orEmpty (get sp "trade_no"))
                                     no found) w in
    (r, w', EvSelectByOutTradeNo no found :: log).
Proof. intros H. rewrite (GET_verified _ _ _ H). reflexivity. Qed.

Lemma sample_verified : verifiedSuccess nodeUTC sampleEnv sampleNotification.
Proof. exists "secret". repeat split; vm_compute; reflexivity. Qed.

Lemma sample_ordinary : ordinaryTimes sampleOracle (ledger sampleWorld).
Proof.
  split.
  - intros n. unfold ordinaryTime, sampleOracle. cbn [clock]. lia.
  - intros r e [<-|[<-|[]]]; cbn; intros [= <-]; unfold ordinaryTime; lia.
Qed.

(** * Replays *)

(** C5. A verified success notification for an order that is already paid
    is answered [success] after the one query that reads the order: no
    clock reading, no subscription query, no write.  Hence, when a delivery
    has performed the transition, delivering the same notification again is
    answered [success] and leaves the table, subscription dates included,
    exactly as the first delivery left it. *)
Theorem paid_order_short_circuits :
  (forall rt env o sp w t,
      verifiedSuccess rt env sp ->
      dbSelectByOutTradeNo (orEmpty (get sp "out_trade_no")) (ledger w) = Some t ->
      status t = "paid" ->
      exec o (WebhookRoute.GET rt env sp) w
      = (WebhookRoute.success, w,
         [EvSelectByOutTradeNo (orEmpty (get sp "out_trade_no")) (Some t)]))
  /\ (forall rt env o sp w resp1 w1 log1 data no st rows,
        exec o (WebhookRoute.GET rt env sp) w = (resp1, w1, log1) ->
        In (EvUpdate data no st rows) log1 -> rows <> [] ->
        exists t1,
          dbSelectByOutTradeNo (orEmpty (get sp "out_trade_no")) (ledger w1) = Some t1
          /\ status t1 = "paid"
          /\ filter isWrite log1 = [EvUpdate data no st rows]
          /\ exec o (WebhookRoute.GET rt env sp) w1
             = (WebhookRoute.success, w1,
                [EvSelectByOutTradeNo (orEmpty (get sp "out_trade_no")) (Some t1)])).
Proof.
  assert (Hshort : forall rt env o sp w t,
      verifiedSuccess rt env sp ->
      dbSelectByOutTradeNo (orEmpty (get sp "out_trade_no")) (ledger w) = Some t ->
      status t = "paid" ->
      exec o (WebhookRoute.GET rt env sp) w
      = (WebhookRoute.success, w,
         [EvSelectByOutTradeNo (orEmpty (get sp "out_trade_no")) (Some t)])).
  { intros rt env o sp w t Hv Hf Hs.
    rewrite (exec_GET_verified _ _ _ _ _ Hv). cbv zeta. rewrite Hf.
    unfold WebhookRoute.reconcile. rewrite Hs. reflexivity. }
  split; [exact Hshort|].
  intros rt env o sp w resp1 w1 log1 data no st rows Hex Hin Hrows.
  (* the first delivery was verified and found the order *)
  assert (Hv : verifiedSuccess rt env sp).
  { unfold WebhookRoute.GET in Hex. unfold verifiedSuccess.
    destruct (truthy (ZPAY_KEY env)) as [key|]; [|cbn in Hex; injection Hex as <- <- <-; destruct Hin].
    exists key. split; [reflexivity|].
    destruct (String.eqb (orEmpty (get sp "sign")) (WebhookRoute.expectedSign rt key sp)) eqn:Es;
      [|cbn in Hex; injection Hex as <- <- <-; destruct Hin].
    destruct (String.eqb (orEmpty (get sp "trade_status")) "TRADE_SUCCESS") eqn:Et;
      [|cbn in Hex; injection Hex as <- <- <-; destruct Hin].
    split; apply String.eqb_eq; assumption. }
  rewrite (exec_GET_verified _ _ _ _ _ Hv) in Hex. cbv zeta in Hex.
  set (ono := orEmpty (get sp "out_trade_no")) in *.
  destruct (dbSelectByOutTradeNo ono (ledger w)) as [t|] eqn:Hf.
  2: { cbn in Hex. injection Hex as <- <- <-. destruct Hin as [Hin|[]]. discriminate. }
  pose proof (exec_readsThenOneUpdate o _ _
                (reconcile_shape rt (orEmpty (get sp "money")) (orEmpty (get sp "trade_no")) ono (Some t)) w)
    as Hone.
  destruct (exec o (WebhookRoute.reconcile rt _ _ ono (Some t)) w) as [[r0 w0] log0] eqn:Er.
  injection Hex as <- <- <-.
  destruct Hin as [Hin|Hin]; [discriminate|].
  unfold oneGuardedWrite in Hone.
  destruct Hone as [[Hnone _]|(pre & data' & rows' & -> & Hpre & Hpaid & Hupd & _)].
  { assert (Hw : In (EvUpdate data no st rows) (filter isWrite log0))
      by (apply filter_In; split; [exact Hin|reflexivity]).
    rewrite Hnone in Hw. destruct Hw. }
  apply in_app_or in Hin. destruct Hin as [Hin|[Hin|[]]].
  { assert (Hw : In (EvUpdate data no st rows) (filter isWrite pre))
      by (apply filter_In; split; [exact Hin|reflexivity]).
    rewrite Hpre in Hw. destruct Hw. }
  injection Hin as Hd Hn Hst Hr. subst data' no st rows'.
  (* the order was pending and is now paid *)
  assert (Hpend : status t = "pending").
  { destruct (String.eqb (status t) "pending") eqn:E; [apply String.eqb_eq; exact E|].
    assert (Hn : status t <> "pending") by (intros C; rewrite C in E; discriminate).
    rewrite (dbUpdate_not_pending data ono (ledger w) t Hf Hn) in Hupd.
    injection Hupd as _ ->. contradiction. }
  destruct (dbUpdate_pending data ono (ledger w) t Hf Hpend) as [_ Hsel].
  rewrite <- Hupd in Hsel. cbn [fst] in Hsel.
  exists (applyUpdate data t). split; [exact Hsel|]. split; [exact Hpaid|]. split.
  - cbn [filter isWrite]. rewrite filter_app, Hpre. reflexivity.
  - apply Hshort; [exact Hv|exact Hsel|exact Hpaid].
Qed.

Lemma paid_order_short_circuits_witness :
  exists t1,
    dbSelectByOutTradeNo "20250401000000002" (ledger (world afterDelivery)) = Some t1
    /\ status t1 = "paid"
    /\ subscription_end_date t1 = Some 1747267200000
    /\ exec sampleOracle (WebhookRoute.GET nodeUTC sampleEnv sampleNotification) (world afterDelivery)
       = (WebhookRoute.success, world afterDelivery,
          [EvSelectByOutTradeNo "20250401000000002" (Some t1)]).
Proof.
  destruct paid_order_short_circuits as [_ H].
  destruct (exec sampleOracle (WebhookRoute.GET nodeUTC sampleEnv sampleNotification) sampleWorld)
    as [[resp1 w1] log1] eqn:E.
  pose proof E as E'. vm_compute in E'. injection E' as Hr Hw Hl.
  destruct (H nodeUTC sampleEnv sampleOracle sampleNotification sampleWorld resp1 w1 log1
              (mkUpdateData "paid" "T2" 1743465600000 (Some (1744675200000, 1747267200000)))
              "20250401000000002" "pending"
              [applyUpdate (mkUpdateData "paid" "T2" 1743465600000 (Some (1744675200000, 1747267200000)))
                           pendingOrder]
              E) as [t1 [Hsel [Hpaid [_ Hex]]]].
  - rewrite <- Hl. vm_compute. do 4 right. left. reflexivity.
  - discriminate.
  - exists t1. unfold afterDelivery. rewrite E. cbn [fst snd world].
    split; [exact Hsel|]. split; [exact Hpaid|]. split; [|exact Hex].
    rewrite <- Hw in Hsel. vm_compute in Hsel. injection Hsel as <-. reflexivity.
Defined.

Lemma select_absent no db :
  (forall r, In r db -> out_trade_no r <> no) -> dbSelectByOutTradeNo no db = None.
Proof.
  intros H. unfold dbSelectByOutTradeNo.
  assert (Hf : filter (fun r => String.eqb (out_trade_no r) no) db = []).
  { induction db as [|r db IH]; [reflexivity|]. cbn.
    destruct (String.eqb (out_trade_no r) no) eqn:E.
    - apply String.eqb_eq in E. exfalso. apply (H r); [left; reflexivity|exact E].
    - apply IH. intros r' Hr'. apply H. right. exact Hr'. }
  rewrite Hf. reflexivity.
Qed.

Lemma exec_amount_mismatch rt env o sp w t :
  verifiedSuccess rt env sp ->
  dbSelectByOutTradeNo (orEmpty (get sp "out_trade_no")) (ledger w) = Some t ->
  status t <> "paid" ->
  WebhookRoute.amountMismatch (parseFloat (orEmpty (get sp "money")))
                              (numberOfNumeric (money t)) = true ->
  exec o (WebhookRoute.GET rt env sp) w
  = (mkResponse (Text "金额不匹配") 400, w,
     [EvSelectByOutTradeNo (orEmpty (get sp "out_trade_no")) (Some t)]).
Proof.
  intros Hv Hf Hs Hm. rewrite (exec_GET_verified _ _ _ _ _ Hv). cbv zeta.
  rewrite Hf. unfold WebhookRoute.reconcile.
  apply String.eqb_neq in Hs. rewrite Hs, Hm. reflexivity.
Qed.

(** * Rejections and acknowledgments *)

(** C6. With the key configured: a [sign] that is not the expected one is
    answered 400 before anything is read; for a verified success
    notification, an order number that no row carries is answered 400, and
    an amount mismatch on an order that is found and not yet paid is
    answered 400; a notification with the right signature whose
    [trade_status] is not [TRADE_SUCCESS] is answered [success].  In all
    four cases the table is left as it was. *)
Theorem webhook_failure_semantics :
  forall rt env o sp w,
    (forall key,
        truthy (ZPAY_KEY env) = Some key ->
        orEmpty (get sp "sign") <> WebhookRoute.expectedSign rt key sp ->
        exec o (WebhookRoute.GET rt env sp) w
        = (mkResponse (Text "签名验证失败") 400, w, []))
    /\ (verifiedSuccess rt env sp ->
        (forall r, In r (ledger w) -> out_trade_no r <> orEmpty (get sp "out_trade_no")) ->
        exec o (WebhookRoute.GET rt env sp) w
        = (mkResponse (Text "订单不存在") 400, w,
           [EvSelectByOutTradeNo (orEmpty (get sp "out_trade_no")) None]))
    /\ (forall t,
        verifiedSuccess rt env sp ->
        dbSelectByOutTradeNo (orEmpty (get sp "out_trade_no")) (ledger w) = Some t ->
        status t <> "paid" ->
        WebhookRoute.amountMismatch (parseFloat (orEmpty (get sp "money")))
                                    (numberOfNumeric (money t)) = true ->
        exec o (WebhookRoute.GET rt env sp) w
        = (mkResponse (Text "金额不匹配") 400, w,
           [EvSelectByOutTradeNo (orEmpty (get sp "out_trade_no")) (Some t)]))
    /\ (forall key,
        truthy (ZPAY_KEY env) = Some key ->
        orEmpty (get sp "sign") = WebhookRoute.expectedSign rt key sp ->
        orEmpty (get sp "trade_status") <> "TRADE_SUCCESS" ->
        exec o (WebhookRoute.GET rt env sp) w = (WebhookRoute.success, w, [])).
Proof.
  intros rt env o sp w. repeat split.
  - intros key Hk Hs. unfold WebhookRoute.GET. rewrite Hk.
    apply String.eqb_neq in Hs. rewrite Hs. reflexivity.
  - intros Hv Habs. rewrite (exec_GET_verified _ _ _ _ _ Hv). cbv zeta.
    rewrite (select_absent _ _ Habs). reflexivity.
  - intros t Hv Hf Hs Hm. apply exec_amount_mismatch; assumption.
  - intros key Hk Hs Ht. unfold WebhookRoute.GET. rewrite Hk, Hs, String.eqb_refl.
    apply String.eqb_neq in Ht. rewrite Ht. reflexivity.
Qed.

Lemma webhook_failure_semantics_witness :
  exec sampleOracle (WebhookRoute.GET nodeUTC sampleEnv overpricedNotification) sampleWorld
  = (mkResponse (Text "金额不匹配") 400, sampleWorld,
     [EvSelectByOutTradeNo "20250401000000002" (Some pendingOrder)]).
Proof.
  destruct (webhook_failure_semantics nodeUTC sampleEnv sampleOracle overpricedNotification sampleWorld)
    as [_ [_ [H _]]].
  apply (H pendingOrder).
  - exists "secret". repeat split; vm_compute; reflexivity.
  - reflexivity.
  - discriminate.
  - vm_compute. reflexivity.
Defined.

(** * Fields the webhook does not read *)

(** C10. Two notifications that agree on [sign] and on the eight fields
    the webhook reads get the same expected signature and are the same
    handler, hence behave alike in every world: no other query parameter
    has any influence. *)
Theorem webhook_reads_nine_fields :
  forall rt env sp1 sp2,
    (forall k, In k ("sign" :: signedFields) -> orEmpty (get sp1 k) = orEmpty (get sp2 k)) ->
    (forall key, WebhookRoute.expectedSign rt key sp1 = WebhookRoute.expectedSign rt key sp2)
    /\ WebhookRoute.GET rt env sp1 = WebhookRoute.GET rt env sp2
    /\ (forall o w, exec o (WebhookRoute.GET rt env sp1) w = exec o (WebhookRoute.GET rt env sp2) w).
Proof.
  intros rt env sp1 sp2 H.
  assert (Hsign : orEmpty (get sp1 "sign") = orEmpty (get sp2 "sign")) by (apply H; cbn; tauto).
  assert (H1 : orEmpty (get sp1 "pid") = orEmpty (get sp2 "pid")) by (apply H; cbn; tauto).
  assert (H2 : orEmpty (get sp1 "name") = orEmpty (get sp2 "name")) by (apply H; cbn; tauto).
  assert (H3 : orEmpty (get sp1 "money") = orEmpty (get sp2 "money")) by (apply H; cbn; tauto).
  assert (H4 : orEmpty (get sp1 "out_trade_no") = orEmpty (get sp2 "out_trade_no")) by (apply H; cbn; tauto).
  assert (H5 : orEmpty (get sp1 "trade_no") = orEmpty (get sp2 "trade_no")) by (apply H; cbn; tauto).
  assert (H6 : orEmpty (get sp1 "param") = orEmpty (get sp2 "param")) by (apply H; cbn; tauto).
  assert (H7 : orEmpty (get sp1 "trade_status") = orEmpty (get sp2 "trade_status")) by (apply H; cbn; tauto).
  assert (H8 : orEmpty (get sp1 "type") = orEmpty (get sp2 "type")) by (apply H; cbn; tauto).
  assert (Hv : WebhookRoute.verifyParams sp1 = WebhookRoute.verifyParams sp2).
  { unfold WebhookRoute.verifyParams. cbv zeta.
    rewrite H1, H2, H3, H4, H5, H6, H7, H8. reflexivity. }
  assert (He : forall key, WebhookRoute.expectedSign rt key sp1 = WebhookRoute.expectedSign rt key sp2).
  { intros key. unfold WebhookRoute.expectedSign. rewrite Hv. reflexivity. }
  assert (Hg : WebhookRoute.GET rt env sp1 = WebhookRoute.GET rt env sp2).
  { unfold WebhookRoute.GET. cbv zeta.
    rewrite Hsign, H3, H4, H5, H7.
    destruct (truthy (ZPAY_KEY env)) as [key|]; [|reflexivity].
    rewrite (He key). reflexivity. }
  split; [exact He|]. split; [exact Hg|].
  intros o w. rewrite Hg. reflexivity.
Qed.

Lemma webhook_reads_nine_fields_witness :
  exec sampleOracle
       (WebhookRoute.GET nodeUTC sampleEnv (("utm", "x") :: sampleNotification ++ [("money", "0.01")]))
       sampleWorld
  = exec sampleOracle (WebhookRoute.GET nodeUTC sampleEnv sampleNotification) sampleWorld.
Proof.
  apply (webhook_reads_nine_fields nodeUTC sampleEnv
           (("utm", "x") :: sampleNotification ++ [("money", "0.01")]) sampleNotification).
  intros k Hk. cbn in Hk.
  repeat (destruct Hk as [<-|Hk]; [reflexivity|]). destruct Hk.
Defined.

(** A verified success notification with an accepted amount, for a pending
    order, in ordinary times: the order is paid by one update. *)
Lemma webhook_pays rt env o sp w t :
  verifiedSuccess rt env sp ->
  dbSelectByOutTradeNo (orEmpty (get sp "out_trade_no")) (ledger w) = Some t ->
  status t = "pending" ->
  WebhookRoute.amountMismatch (parseFloat (orEmpty (get sp "money")))
                              (numberOfNumeric (money t)) = false ->
  ordinaryTimes o (ledger w) ->
  let no := orEmpty (get sp "out_trade_no") in
  let data := settledData rt o w (orEmpty (get sp "trade_no")) t in
  exists w' pre,
    exec o (WebhookRoute.GET rt env sp) w
    = (WebhookRoute.success, w', pre ++ [EvUpdate data no "pending" [applyUpdate data t]])
    /\ filter isWrite pre = []
    /\ ledger w' = fst (dbUpdate data no "pending" (ledger w))
    /\ dbSelectByOutTradeNo no (ledger w') = Some (applyUpdate data t).
Proof.
  intros Hv Hf Hs Hm Ho no data.
  rewrite (exec_GET_verified _ _ _ _ _ Hv). cbv zeta. rewrite Hf. fold no.
  unfold WebhookRoute.reconcile. rewrite Hs, Hm.
  cbn [String.eqb Ascii.eqb Bool.eqb].
  destruct (exec_settle o rt (orEmpty (get sp "trade_no")) no t w Ho) as [w1 [pre [E Hpre]]].
  fold data in E. rewrite E.
  destruct (dbUpdate_pending data no (ledger w) t Hf Hs) as [Hrows Hsel].
  rewrite Hrows.
  exists (withLedger w1 (fst (dbUpdate data no "pending" (ledger w)))),
         (EvSelectByOutTradeNo no (Some t) :: pre).
  split; [reflexivity|]. split; [cbn [filter isWrite]; exact Hpre|].
  split; [reflexivity|exact Hsel].
Qed.

(** * The subscription window *)

(** C2. When a verified success notification with an accepted amount is
    reconciled for a pending monthly or yearly subscription order: the row
    ends up paid with a window that starts at the greatest end date among
    the user's paid subscription rows ending after the "now" of the query,
    if there is one, and at the following clock reading otherwise, and that
    ends one calendar month (monthly) or one calendar year (yearly) after
    its start; both dates are set by the update that sets the status, which
    is the only write of the run. *)
Theorem subscription_window_stacks :
  forall rt env o sp w t period,
    verifiedSuccess rt env sp ->
    dbSelectByOutTradeNo (orEmpty (get sp "out_trade_no")) (ledger w) = Some t ->
    status t = "pending" ->
    WebhookRoute.amountMismatch (parseFloat (orEmpty (get sp "money")))
                                (numberOfNumeric (money t)) = false ->
    is_subscription t = true ->
    subscription_period t = Some period ->
    period = "monthly" \/ period = "yearly" ->
    ordinaryTimes o (ledger w) ->
    let no := orEmpty (get sp "out_trade_no") in
    let queryNow := clock o (S (ticks w)) in
    let active := activeSubscription (user_id t) queryNow in
    exists start finish w' pre t',
      let data := mkUpdateData "paid" (orEmpty (get sp "trade_no")) (clock o (ticks w))
                               (Some (start, finish)) in
      exec o (WebhookRoute.GET rt env sp) w
      = (WebhookRoute.success, w', pre ++ [EvUpdate data no "pending" [t']])
      /\ filter isWrite pre = []
      /\ dbSelectByOutTradeNo no (ledger w') = Some t'
      /\ status t' = "paid"
      /\ subscription_start_date t' = Some start
      /\ subscription_end_date t' = Some finish
      /\ ((exists r, In r (ledger w) /\ active r = true) ->
          (exists r, In r (ledger w) /\ active r = true /\ subscription_end_date r = Some start)
          /\ (forall r, In r (ledger w) -> active r = true -> endDateOf r <= start))
      /\ ((forall r, In r (ledger w) -> active r = false) ->
          start = clock o (S (S (ticks w))))
      /\ (period = "monthly" -> finish = addCalendar rt 0 1 start)
      /\ (period = "yearly" -> finish = addCalendar rt 1 0 start).
Proof.
  intros rt env o sp w t period Hv Hf Hs Hm Hsub Hper Hp Ho no queryNow active.
  destruct (webhook_pays rt env o sp w t Hv Hf Hs Hm Ho) as [w' [pre [E [Hpre [_ Hsel]]]]].
  assert (Htr : truthy (subscription_period t) = Some period).
  { rewrite Hper. destruct Hp as [-> | ->]; reflexivity. }
  unfold settledData in E, Hsel. rewrite Hsub, Htr in E, Hsel. cbv zeta in E, Hsel.
  exists (windowStart o w (user_id t)), (periodEnd rt period (windowStart o w (user_id t))),
         w', pre.
  eexists. cbv zeta.
  split; [exact E|]. split; [exact Hpre|]. split; [exact Hsel|].
  split; [reflexivity|]. split; [reflexivity|]. split; [reflexivity|].
  split; [|split; [|split]].
  - intros [r [Hr Ha]]. unfold windowStart. fold queryNow.
    destruct (dbSelectActiveSubscriptions (user_id t) queryNow (ledger w)) as [|e rest] eqn:Eq.
    + pose proof (proj1 (activeSubscriptions_none _ _ _) Eq r Hr) as Hq.
      unfold active in Ha. rewrite Hq in Ha. discriminate.
    + destruct (activeSubscriptions_latest _ _ _ _ _ Eq) as [_ [Hex Hmax]].
      split; [exact Hex|exact Hmax].
  - intros Hnone. unfold windowStart. fold queryNow.
    rewrite (proj2 (activeSubscriptions_none _ _ _) Hnone). reflexivity.
  - intros ->. reflexivity.
  - intros ->. reflexivity.
Qed.

Lemma subscription_window_stacks_witness :
  exists w' pre t',
    exec sampleOracle (WebhookRoute.GET nodeUTC sampleEnv sampleNotification) sampleWorld
    = (WebhookRoute.success, w',
       pre ++ [EvUpdate (mkUpdateData "paid" "T2" 1743465600000
                                      (Some (1744675200000, 1747267200000)))
                        "20250401000000002" "pending" [t']])
    /\ subscription_start_date t' = Some 1744675200000
    /\ subscription_end_date t' = Some 1747267200000.
Proof.
  destruct (subscription_window_stacks nodeUTC sampleEnv sampleOracle sampleNotification
              sampleWorld pendingOrder "monthly")
    as (start & finish & w' & pre & t' & E & _ & _ & _ & Hs & Hf & Hstack & _ & Hmonth & _).
  - exact sample_verified.
  - reflexivity.
  - reflexivity.
  - vm_compute. reflexivity.
  - reflexivity.
  - reflexivity.
  - left. reflexivity.
  - exact sample_ordinary.
  - cbv zeta in *.
    destruct Hstack as [[r [Hr [Ha He]]] _].
    { exists paidOrder. split; [left; reflexivity|vm_compute; reflexivity]. }
    assert (Hstart : start = 1744675200000).
    { destruct Hr as [<-|[<-|[]]]; [cbn in He; congruence|vm_compute in Ha; discriminate]. }
    subst start. rewrite (Hmonth eq_refl) in *.
    change (addCalendar nodeUTC 0 1 1744675200000) with 1747267200000 in *.
    exists w', pre, t'. split; [exact E|]. split; assumption.
Defined.

(** A first yearly subscription, with no window to stack on: it starts at
    the third clock reading of the run (2025-04-01T00:00:00.002Z) and ends
    one calendar year later. *)
Example fresh_yearly_subscription :
  let '(resp, w', _) :=
    exec sampleOracle (WebhookRoute.GET nodeUTC sampleEnv yearlyNotification)
         (mkWorld [paidOrder; yearlyOrder] 0 0) in
  resp = WebhookRoute.success
  /\ option_map (fun r => (status r, subscription_start_date r, subscription_end_date r))
                (nth_error (ledger w') 1)
     = Some ("paid", Some 1743465600002, Some 1775001600002).
Proof. vm_compute. split; reflexivity. Qed.

(** * The amount check *)

(** An amount that parses to the very Number of the stored amount passes. *)
Lemma equal_amounts_accepted x :
  isFinite x = true -> WebhookRoute.amountMismatch x x = false.
Proof.
  unfold WebhookRoute.amountMismatch, numGt, MathAbs, numSub.
  destruct x as [s|s| |s m e]; cbn [isFinite isNaN]; try discriminate; intros _.
  - destruct s; reflexivity.
  - cbn [orb SFsub]. rewrite Z.min_id. unfold shl_align. rewrite Z.sub_diag. cbn [fst].
    reflexivity.
Qed.

(** C4 (as amended). For a verified success notification whose order is
    found and not yet paid, the amounts are compared as binary64 numbers:
    the notification is rejected with 400 and nothing written when either
    is NaN or when the rounded absolute difference of the two exceeds the
    number nearest 0.001, and is accepted otherwise (as it is whenever the
    two are the same finite number), the pending order then being paid by
    the one conditional update. *)
Theorem amount_tolerance_binary64 :
  forall rt env o sp w t,
    verifiedSuccess rt env sp ->
    dbSelectByOutTradeNo (orEmpty (get sp "out_trade_no")) (ledger w) = Some t ->
    status t <> "paid" ->
    let no := orEmpty (get sp "out_trade_no") in
    let received := parseFloat (orEmpty (get sp "money")) in
    let expected := numberOfNumeric (money t) in
    let mismatch :=
      isNaN received || isNaN expected
      || numGt (MathAbs (numSub received expected)) tolerance in
    (mismatch = true ->
     exec o (WebhookRoute.GET rt env sp) w
     = (mkResponse (Text "金额不匹配") 400, w, [EvSelectByOutTradeNo no (Some t)]))
    /\ (received = expected -> isFinite expected = true -> mismatch = false)
    /\ (mismatch = false -> status t = "pending" -> ordinaryTimes o (ledger w) ->
        exists data w' pre,
          exec o (WebhookRoute.GET rt env sp) w
          = (WebhookRoute.success, w', pre ++ [EvUpdate data no "pending" [applyUpdate data t]])
          /\ filter isWrite pre = []
          /\ set_status data = "paid"
          /\ dbSelectByOutTradeNo no (ledger w') = Some (applyUpdate data t)).
Proof.
  intros rt env o sp w t Hv Hf Hs no received expected mismatch. split; [|split].
  - intros Hm. apply exec_amount_mismatch; assumption.
  - intros E Hfin. subst mismatch. rewrite E. apply equal_amounts_accepted. exact Hfin.
  - intros Hm Hp Ho.
    destruct (webhook_pays rt env o sp w t Hv Hf Hp Hm Ho) as [w' [pre [E [Hpre [_ Hsel]]]]].
    exists (settledData rt o w (orEmpty (get sp "trade_no")) t), w', pre.
    split; [exact E|]. split; [exact Hpre|]. split; [reflexivity|exact Hsel].
Qed.

Lemma amount_tolerance_binary64_witness :
  exec sampleOracle (WebhookRoute.GET nodeUTC sampleEnv centNotification) (mkWorld [centOrder] 0 0)
  = (mkResponse (Text "金额不匹配") 400, mkWorld [centOrder] 0 0,
     [EvSelectByOutTradeNo "20250401000000003" (Some centOrder)]).
Proof.
  destruct (amount_tolerance_binary64 nodeUTC sampleEnv sampleOracle centNotification
              (mkWorld [centOrder] 0 0) centOrder) as [H _].
  - exists "secret". repeat split; vm_compute; reflexivity.
  - reflexivity.
  - discriminate.
  - apply H. vm_compute. reflexivity.
Defined.

(** C4, as stated, fails: 0.021 differs from the stored 0.02 by exactly
    0.001 and is rejected; 10.0010000000000001 differs from the stored
    10.00 by more than 0.001 and is accepted, the order being paid. *)
Lemma amount_tolerance_is_not_exact :
  (exactlyWithinTolerance "0.021" 2 = true
   /\ exec sampleOracle (WebhookRoute.GET nodeUTC sampleEnv centNotification)
           (mkWorld [centOrder] 0 0)
      = (mkResponse (Text "金额不匹配") 400, mkWorld [centOrder] 0 0,
         [EvSelectByOutTradeNo "20250401000000003" (Some centOrder)]))
  /\ (exactlyWithinTolerance "10.0010000000000001" 1000 = false
      /\ let '(resp, w', _) :=
           exec sampleOracle (WebhookRoute.GET nodeUTC sampleEnv tenNotification)
                (mkWorld [tenOrder] 0 0) in
         resp = WebhookRoute.success
         /\ option_map status (dbSelectByOutTradeNo "20250401000000004" (ledger w')) = Some "paid").
Proof.
  split; split; vm_compute; try reflexivity. split; reflexivity.
Qed.

(** * Order-number collisions *)

Lemma existsb_out_trade_no no db :
  existsb (fun r => String.eqb (out_trade_no r) no) db = true
  <-> exists r, In r db /\ out_trade_no r = no.
Proof.
  rewrite existsb_exists. split; intros [r [Hr E]]; exists r; (split; [exact Hr|]).
  - apply String.eqb_eq. exact E.
  - apply String.eqb_eq. exact E.
Qed.

(** C7 (as amended). When the order number the issuer generated is already
    taken, the insert is refused and the issuer answers 500 "order creation
    failed, retry later": one insert attempt, no second order number drawn,
    the table unchanged.  When the number is free (and the price is a value
    of the column) one pending row is appended and the redirect URL is
    returned. *)
Theorem collision_is_surfaced_not_retried :
  forall rt env products o w uid b product pid key baseUrl,
    (UrlRoute.payType b = None \/ UrlRoute.payType b = Some "alipay"
     \/ UrlRoute.payType b = Some "wxpay") ->
    products (match UrlRoute.productId b with Some p => p | None => "undefined" end)
    = Some product ->
    truthy (ZPAY_PID env) = Some pid ->
    truthy (ZPAY_KEY env) = Some key ->
    truthy (NEXT_PUBLIC_BASE_URL env) = Some baseUrl ->
    let now := TimeClip (clock o (ticks w)) in
    let r := random o (draws w) mod 1000 in
    let no := UrlRoute.orderNo rt now r in
    let run := exec o (UrlRoute.POST rt env products (Some uid) (Some b)) w in
    ((exists row, In row (ledger w) /\ out_trade_no row = no) ->
     exists data,
       ins_out_trade_no data = no
       /\ run = (mkResponse (JsonError "创建订单失败，请稍后重试") 500,
                 draw (tick w),
                 [EvNewDate now; EvRandom r; EvInsert data true]))
    /\ ((forall row, In row (ledger w) -> out_trade_no row <> no) ->
        forall m, numericOfPrice (Product.price product) = Some m ->
        exists data url row,
          run = (mkResponse (JsonUrl url) 200,
                 tick (withLedger (draw (tick w)) (ledger w ++ [row])),
                 [EvNewDate now; EvRandom r; EvInsert data false])
          /\ out_trade_no row = no /\ status row = "pending" /\ user_id row = uid).
Proof.
  intros rt env products o w uid b product pid key baseUrl Hpay Hprod Hpid Hkey Hbase
         now r no run.
  assert (Hpt : negb (String.eqb (match UrlRoute.payType b with Some p => p | None => "alipay" end) "alipay"
                      || String.eqb (match UrlRoute.payType b with Some p => p | None => "alipay" end) "wxpay")
                = false).
  { destruct Hpay as [-> | [-> | ->]]; reflexivity. }
  subst run. unfold UrlRoute.POST. rewrite Hpt, Hprod, Hpid, Hkey, Hbase.
  unfold UrlRoute.generateOrderNo. cbn [exec tick draw ticks draws ledger].
  fold now. fold r. fold no. unfold dbInsert. cbn [ins_money ins_out_trade_no].
  split.
  - intros Hex. apply existsb_out_trade_no in Hex.
    destruct (numericOfPrice (Product.price product)) as [m|].
    + rewrite Hex. cbn [exec]. eexists. split; [|reflexivity]. reflexivity.
    + cbn [exec]. eexists. split; [|reflexivity]. reflexivity.
  - intros Hfree m Hm. rewrite Hm.
    destruct (existsb (fun r0 => String.eqb (out_trade_no r0) no) (ledger w)) eqn:E.
    { apply existsb_out_trade_no in E. destruct E as [row [Hrow Hno]].
      exfalso. exact (Hfree row Hrow Hno). }
    cbn [exec]. do 3 eexists. split; [reflexivity|]. repeat split.
Qed.

(** C7, as stated, fails: two issuance calls within the same second that
    draw the same three digits generate the same order number; the first
    persists its pending order, the second is answered 500 after a single
    insert attempt and leaves the table as the first call left it. *)
Lemma collision_not_retried :
  let '(r1, w1, _) :=
    exec sampleOracle (UrlRoute.POST nodeUTC sampleEnv sampleCatalog (Some "u1") (Some sampleBody))
         (mkWorld [] 0 0) in
  let '(r2, w2, log2) :=
    exec sampleOracle (UrlRoute.POST nodeUTC sampleEnv sampleCatalog (Some "u2") (Some sampleBody))
         w1 in
  httpStatus r1 = 200
  /\ map out_trade_no (ledger w1) = ["20250401000000123"]
  /\ r2 = mkResponse (JsonError "创建订单失败，请稍后重试") 500
  /\ ledger w2 = ledger w1
  /\ List.length (filter isWrite log2) = 1%nat.
Proof. vm_compute. repeat split. Qed.

Lemma collision_is_surfaced_not_retried_witness :
  exists data,
    ins_out_trade_no data = "20250401000000123"
    /\ exec sampleOracle
            (UrlRoute.POST nodeUTC sampleEnv sampleCatalog (Some "u2") (Some sampleBody))
            (mkWorld [pendingOrder; mkTransaction "u1" "pro-monthly" "Pro" "20250401000000123"
                                      None 990 "alipay" "pending" true (Some "monthly")
                                      None None 0 0] 0 0)
       = (mkResponse (JsonError "创建订单失败，请稍后重试") 500,
          mkWorld [pendingOrder; mkTransaction "u1" "pro-monthly" "Pro" "20250401000000123"
                                      None 990 "alipay" "pending" true (Some "monthly")
                                      None None 0 0] 1 1,
          [EvNewDate (Some 1743465600000); EvRandom 123; EvInsert data true]).
Proof.
  destruct (collision_is_surfaced_not_retried nodeUTC sampleEnv sampleCatalog sampleOracle
              (mkWorld [pendingOrder; mkTransaction "u1" "pro-monthly" "Pro" "20250401000000123"
                                      None 990 "alipay" "pending" true (Some "monthly")
                                      None None 0 0] 0 0)
              "u2" sampleBody (Product.mk "Pro" "9.9" true (Some "monthly"))
              "1001" "secret" "https://shop.example") as [H _];
    try reflexivity.
  - left. reflexivity.
  - apply H. eexists. split; [right; left; reflexivity|vm_compute; reflexivity].
Defined.

(** * Regenerating the redirect *)

Lemma selectOwnPending_none uid no db :
  (forall r, In r db -> out_trade_no r = no -> user_id r <> uid \/ status r <> "pending") ->
  dbSelectOwnPending uid no db = None.
Proof.
  intros H. unfold dbSelectOwnPending.
  assert (Hf : filter (fun r => String.eqb (user_id r) uid && String.eqb (out_trade_no r) no
                                && String.eqb (status r) "pending") db = []).
  { induction db as [|r db IH]; [reflexivity|]. cbn [filter].
    destruct (String.eqb (user_id r) uid && String.eqb (out_trade_no r) no
              && String.eqb (status r) "pending") eqn:E.
    - apply andb_prop in E. destruct E as [E Es]. apply andb_prop in E. destruct E as [Eu En].
      apply String.eqb_eq in Eu, En, Es.
      destruct (H r (or_introl eq_refl) En); contradiction.
    - apply IH. intros r' Hr'. apply H. right. exact Hr'. }
  rewrite Hf. reflexivity.
Qed.

Lemma filter_unique {A B} (key : A -> B) (p : A -> bool) l x :
  NoDup (map key l) -> In x l -> p x = true ->
  (forall y, p y = true -> key y = key x) ->
  filter p l = [x].
Proof.
  intros Hnd Hin Hp Hk. induction l as [|y l IH]; [destruct Hin|].
  cbn [map] in Hnd. inversion Hnd as [|? ? Hnot Hnd']; subst.
  assert (Hrest : forall z, In z l -> key z <> key y -> True) by auto.
  cbn [filter]. destruct Hin as [->|Hin].
  - rewrite Hp. f_equal.
    assert (Hnone : forall z, In z l -> p z = false).
    { intros z Hz. destruct (p z) eqn:E; [|reflexivity].
      exfalso. apply Hnot. rewrite <- (Hk z E). apply in_map. exact Hz. }
    clear -Hnone. induction l as [|z l IH]; [reflexivity|]. cbn.
    rewrite (Hnone z (or_introl eq_refl)). apply IH. intros z' Hz'. apply Hnone. right. exact Hz'.
  - destruct (p y) eqn:E.
    + exfalso. apply Hnot. rewrite (Hk y E). apply in_map. exact Hin.
    + apply IH; assumption.
Qed.

Lemma selectOwnPending_found uid no db t :
  NoDup (map out_trade_no db) -> In t db ->
  out_trade_no t = no -> user_id t = uid -> status t = "pending" ->
  dbSelectOwnPending uid no db = Some t.
Proof.
  intros Hnd Hin Hno Hu Hs. unfold dbSelectOwnPending.
  rewrite (filter_unique out_trade_no _ db t Hnd Hin).
  - reflexivity.
  - rewrite Hno, Hu, Hs, !String.eqb_refl. reflexivity.
  - intros y Hy. apply andb_prop in Hy. destruct Hy as [Hy _].
    apply andb_prop in Hy. destruct Hy as [_ Hy]. apply String.eqb_eq in Hy. congruence.
Qed.

(** C8. A regeneration request for an order number that no pending row of
    the requesting user carries (the number is unknown, or its row belongs
    to someone else, or is not pending) gets one and the same 404 answer.
    For a pending order of the requesting user, the link is built from the
    configuration and the stored row alone: amount, name, order number and
    payment type are the row's, so the link carries the requested order
    number; nothing is written. *)
Theorem repay_is_scoped_and_rebuilt_from_the_row :
  forall rt env o w uid no,
    no <> "" ->
    let run := exec o (RepayRoute.POST rt env (Some uid)
                         (Some (RepayRoute.mkBody (Some no)))) w in
    ((forall r, In r (ledger w) -> out_trade_no r = no ->
                user_id r <> uid \/ status r <> "pending") ->
     run = (mkResponse (JsonError "订单不存在或已支付") 404, w,
            [EvSelectOwnPending uid no None]))
    /\ (forall t pid key baseUrl,
          NoDup (map out_trade_no (ledger w)) ->
          In t (ledger w) ->
          out_trade_no t = no -> user_id t = uid -> status t = "pending" ->
          truthy (ZPAY_PID env) = Some pid ->
          truthy (ZPAY_KEY env) = Some key ->
          truthy (NEXT_PUBLIC_BASE_URL env) = Some baseUrl ->
          let params := repayParams pid baseUrl t in
          run = (mkResponse
                   (JsonUrl ("https://zpayz.cn/submit.php?"
                             ++ urlParamsToString
                                  (params ++ [("sign", sign rt params key); ("sign_type", "MD5")])))
                   200,
                 w, [EvSelectOwnPending uid no (Some t)])
          /\ get params "out_trade_no" = Some no).
Proof.
  intros rt env o w uid no Hno run. subst run.
  assert (Htr : truthy (Some no) = Some no) by (destruct no; [contradiction|reflexivity]).
  unfold RepayRoute.POST. cbn [RepayRoute.outTradeNo]. rewrite Htr. cbn [exec]. split.
  - intros H. rewrite (selectOwnPending_none _ _ _ H). reflexivity.
  - intros t pid key baseUrl Hnd Hin Ht Hu Hs Hpid Hkey Hbase.
    rewrite (selectOwnPending_found _ _ _ _ Hnd Hin Ht Hu Hs).
    rewrite Hpid, Hkey, Hbase. cbn [exec]. split; [reflexivity|].
    unfold repayParams. cbn. rewrite Ht. reflexivity.
Qed.

Lemma repay_is_scoped_and_rebuilt_from_the_row_witness :
  exec sampleOracle (RepayRoute.POST nodeUTC sampleEnv (Some "u1")
                       (Some (RepayRoute.mkBody (Some "20250401000000002")))) sampleWorld
  = (mkResponse
       (JsonUrl "https://zpayz.cn/submit.php?pid=1001&money=9.9&name=Pro&notify_url=https%3A%2F%2Fshop.example%2Fapi%2Fcheckout%2Fproviders%2Fzpay%2Fwebhook&out_trade_no=20250401000000002&return_url=https%3A%2F%2Fshop.example%2Fpayment%2Fsuccess&type=alipay&sign=e042aac4b68c7d108a8e1554683e9f2f&sign_type=MD5")
       200,
     sampleWorld, [EvSelectOwnPending "u1" "20250401000000002" (Some pendingOrder)])
  /\ exec sampleOracle (RepayRoute.POST nodeUTC sampleEnv (Some "u2")
                          (Some (RepayRoute.mkBody (Some "20250401000000002")))) sampleWorld
     = (mkResponse (JsonError "订单不存在或已支付") 404, sampleWorld,
        [EvSelectOwnPending "u2" "20250401000000002" None]).
Proof.
  split.
  - assert (Hno : "20250401000000002" <> "") by discriminate.
    pose proof (repay_is_scoped_and_rebuilt_from_the_row nodeUTC sampleEnv sampleOracle
                  sampleWorld "u1" "20250401000000002" Hno) as Hthm.
    cbv zeta in Hthm. destruct Hthm as [_ H].
    assert (Hnd : NoDup (map out_trade_no (ledger sampleWorld))).
    { repeat constructor; cbn; intuition discriminate. }
    assert (Hin : In pendingOrder (ledger sampleWorld)) by (right; left; reflexivity).
    destruct (H pendingOrder "1001" "secret" "https://shop.example" Hnd Hin
                eq_refl eq_refl eq_refl eq_refl eq_refl eq_refl) as [E _].
    rewrite E. vm_compute. reflexivity.
  - assert (Hno : "20250401000000002" <> "") by discriminate.
    pose proof (repay_is_scoped_and_rebuilt_from_the_row nodeUTC sampleEnv sampleOracle
                  sampleWorld "u2" "20250401000000002" Hno) as Hthm.
    cbv zeta in Hthm. destruct Hthm as [H _].
    apply H. intros r [<-|[<-|[]]] _; [right|left]; discriminate.
Defined.

(** * Invariants of the table *)

Lemma dbUpdate_out_trade_no data no st db :
  map out_trade_no (fst (dbUpdate data no st db)) = map out_trade_no db.
Proof.
  unfold dbUpdate. cbn [fst]. rewrite map_map. apply map_ext.
  intros r. destruct (updateMatches no st r); reflexivity.
Qed.

Lemma dbInsert_out_trade_no data now db db' :
  dbInsert data now db = Some db' ->
  map out_trade_no db' = map out_trade_no db ++ [ins_out_trade_no data]
  /\ ~ In (ins_out_trade_no data) (map out_trade_no db).
Proof.
  unfold dbInsert. destruct (ins_money data) as [m|]; [|discriminate].
  destruct (existsb _ db) eqn:E; [discriminate|].
  intros [= <-]. split.
  - rewrite map_app. reflexivity.
  - intros Hin. apply in_map_iff in Hin. destruct Hin as [r [Hno Hr]].
    assert (Ht : existsb (fun r0 => String.eqb (out_trade_no r0) (ins_out_trade_no data)) db = true).
    { apply existsb_exists. exists r. split; [exact Hr|]. apply String.eqb_eq. exact Hno. }
    congruence.
Qed.

Lemma NoDup_snoc {A} (l : list A) x : NoDup l -> ~ In x l -> NoDup (l ++ [x]).
Proof.
  intros Hl Hx. induction Hl as [|y l Hy Hl IH]; cbn.
  - constructor; [intros []|constructor].
  - constructor.
    + rewrite in_app_iff. intros [H|[H|[]]]; [contradiction|].
      subst. apply Hx. left. reflexivity.
    + apply IH. intros H. apply Hx. right. exact H.
Qed.

Lemma step_unique o w h ev w' h' :
  step o w h = Some (ev, w', h') ->
  NoDup (map out_trade_no (ledger w)) -> NoDup (map out_trade_no (ledger w')).
Proof.
  destruct h; cbn [step]; intros E Hnd; try discriminate;
    try (injection E as <- <- <-; exact Hnd).
  - pose proof (dbUpdate_out_trade_no data no st (ledger w)) as Hu.
    destruct (dbUpdate data no st (ledger w)) as [db rows].
    injection E as <- <- <-. cbn [withLedger ledger fst] in *. rewrite Hu. exact Hnd.
  - destruct (dbInsert data (clock o (ticks w)) (ledger w)) as [db|] eqn:Ei.
    + injection E as <- <- <-. cbn [tick withLedger ledger].
      destruct (dbInsert_out_trade_no _ _ _ _ Ei) as [-> Hfresh].
      apply NoDup_snoc; assumption.
    + injection E as <- <- <-. exact Hnd.
Qed.

(** X1. Order numbers stay unique: whatever requests arrive at the three
    routes and however their database calls interleave, a table that
    starts with pairwise distinct order numbers has pairwise distinct
    order numbers in every state the system reaches. *)
Theorem order_numbers_stay_unique :
  forall rt env products o s s',
    reaches rt env products o s s' ->
    NoDup (map out_trade_no (ledger (world s))) ->
    NoDup (map out_trade_no (ledger (world s'))).
Proof.
  intros rt env products o s s' H. induction H as [s|s1 s2 s3 H12 IH H23]; intros Hnd.
  - exact Hnd.
  - specialize (IH Hnd). destruct H23; cbn [world]; try exact IH.
    eapply step_unique; eassumption.
Qed.

Lemma order_numbers_stay_unique_witness :
  NoDup (map out_trade_no (ledger (world afterDelivery))).
Proof.
  apply (order_numbers_stay_unique nodeUTC sampleEnv sampleCatalog sampleOracle
           (boot [paidOrder; pendingOrder]) afterDelivery).
  - apply (delivery_reaches nodeUTC sampleEnv sampleCatalog sampleOracle
             (boot [paidOrder; pendingOrder]) sampleNotification).
  - cbn. repeat constructor; cbn; intuition discriminate.
Defined.

(** * What an update leaves alone *)

Lemma sameOrder_refl r : sameOrder r r.
Proof. repeat split. Qed.

Lemma sameOrder_trans r1 r2 r3 : sameOrder r1 r2 -> sameOrder r2 r3 -> sameOrder r1 r3.
Proof.
  unfold sameOrder. intros H12 H23.
  repeat match goal with H : _ /\ _ |- _ => destruct H end.
  repeat split; congruence.
Qed.

Lemma sameOrder_applyUpdate data r : sameOrder r (applyUpdate data r).
Proof. repeat split. Qed.

Lemma step_sameOrder o w h ev w' h' i r :
  step o w h = Some (ev, w', h') ->
  nth_error (ledger w) i = Some r ->
  exists r', nth_error (ledger w') i = Some r' /\ sameOrder r r'.
Proof.
  destruct h; cbn [step]; intros E Hr; try discriminate;
    try (injection E as <- <- <-; exists r; split; [exact Hr|apply sameOrder_refl]).
  - unfold dbUpdate in E. injection E as <- <- <-. cbn [withLedger ledger].
    rewrite nth_error_map, Hr. cbn [option_map]. eexists. split; [reflexivity|].
    destruct (updateMatches no st r); [apply sameOrder_applyUpdate|apply sameOrder_refl].
  - unfold dbInsert in E. destruct (ins_money data) as [m|].
    + destruct (existsb _ (ledger w)).
      * injection E as <- <- <-. exists r. split; [exact Hr|apply sameOrder_refl].
      * injection E as <- <- <-. cbn [tick withLedger ledger].
        exists r. split; [|apply sameOrder_refl].
        rewrite nth_error_app1; [exact Hr|]. apply nth_error_Some. congruence.
    + injection E as <- <- <-. exists r. split; [exact Hr|apply sameOrder_refl].
Qed.

(** X2. An order keeps its identity: in every run of the system a row
    stays at its place in the table and keeps its owner, product, name,
    order number, amount, payment type, subscription flag and period, and
    creation time; only [status], [trade_no], [updated_at] and the two
    subscription dates can ever differ. *)
Theorem order_identity_is_immutable :
  forall rt env products o s s' i r,
    reaches rt env products o s s' ->
    nth_error (ledger (world s)) i = Some r ->
    exists r', nth_error (ledger (world s')) i = Some r' /\ sameOrder r r'.
Proof.
  intros rt env products o s s' i r H. induction H as [s|s1 s2 s3 H12 IH H23]; intros Hr.
  - exists r. split; [exact Hr|apply sameOrder_refl].
  - destruct (IH Hr) as [r2 [Hr2 H2]].
    destruct H23; cbn [world]; try (exists r2; split; assumption).
    destruct (step_sameOrder _ _ _ _ _ _ _ _ H0 Hr2) as [r3 [Hr3 H3]].
    exists r3. split; [exact Hr3|]. eapply sameOrder_trans; eassumption.
Qed.

Lemma order_identity_is_immutable_witness :
  exists r', nth_error (ledger (world afterDelivery)) 1 = Some r'
             /\ sameOrder pendingOrder r'.
Proof.
  apply (order_identity_is_immutable nodeUTC sampleEnv sampleCatalog sampleOracle
           (boot [paidOrder; pendingOrder]) afterDelivery 1%nat pendingOrder).
  - apply (delivery_reaches nodeUTC sampleEnv sampleCatalog sampleOracle
             (boot [paidOrder; pendingOrder]) sampleNotification).
  - reflexivity.
Defined.

(** * Pending rows are as the issuer left them *)

Lemma step_pendingUntouched o w h ev w' h' :
  guardedWrites h ->
  step o w h = Some (ev, w', h') ->
  pendingUntouched (ledger w) -> pendingUntouched (ledger w').
Proof.
  intros G. destruct G; cbn [step]; intros E Hp; try discriminate;
    try (injection E as <- <- <-; exact Hp).
  - unfold dbUpdate in E. injection E as <- <- <-. cbn [withLedger ledger].
    intros r Hr Hs. apply in_map_iff in Hr. destruct Hr as [r0 [<- Hr0]].
    destruct (updateMatches no "pending" r0).
    + cbn [applyUpdate status] in Hs. rewrite H in Hs. discriminate.
    + apply Hp; assumption.
  - unfold dbInsert in E. destruct (ins_money data) as [m|].
    + destruct (existsb _ (ledger w)).
      * injection E as <- <- <-. exact Hp.
      * injection E as <- <- <-. cbn [tick withLedger ledger].
        intros r Hr Hs. apply in_app_or in Hr. destruct Hr as [Hr|[<-|[]]].
        -- apply Hp; assumption.
        -- repeat split.
    + injection E as <- <- <-. exact Hp.
Qed.

(** X3. A pending order has never been written to: started on a table
    whose pending rows carry no trade number and no subscription window
    and have never been updated, the system keeps it so in every state it
    reaches; a trade number and a window only ever appear on rows that are
    no longer pending. *)
Theorem pending_rows_are_untouched :
  forall rt env products o db0 s,
    reaches rt env products o (boot db0) s ->
    pendingUntouched db0 ->
    pendingUntouched (ledger (world s)).
Proof.
  intros rt env products o db0 s H Hp0.
  assert (Hgen : forall s0 s1, reaches rt env products o s0 s1 ->
            Forall guardedWrites (inflight s0) -> pendingUntouched (ledger (world s0)) ->
            Forall guardedWrites (inflight s1) /\ pendingUntouched (ledger (world s1))).
  { intros s0 s1 Hr. induction Hr as [s1|s1 s2 s3 H12 IH H23]; intros G P; [split; assumption|].
    destruct (IH G P) as [G2 P2].
    destruct (sysStep_invariant _ _ _ _ _ _ H23 G2) as [G3 _].
    split; [exact G3|].
    destruct H23; cbn [world]; try exact P2.
    eapply step_pendingUntouched; [|eassumption|exact P2].
    rewrite Forall_forall in G2. apply G2. eapply nth_error_In; eassumption. }
  apply (Hgen _ _ H); [constructor|exact Hp0].
Qed.

Lemma pending_rows_are_untouched_witness :
  pendingUntouched (ledger (world afterDelivery)).
Proof.
  apply (pending_rows_are_untouched nodeUTC sampleEnv sampleCatalog sampleOracle
           [paidOrder; pendingOrder] afterDelivery).
  - apply (delivery_reaches nodeUTC sampleEnv sampleCatalog sampleOracle
             (boot [paidOrder; pendingOrder]) sampleNotification).
  - intros r [<-|[<-|[]]] Hs; [discriminate Hs|repeat split].
Defined.

(** * The issuer, on every input *)

(** The issuer run as far as its insert. *)
Lemma exec_issuer o rt env products uid b w product pid key baseUrl :
  String.eqb (payTypeOf b) "alipay" || String.eqb (payTypeOf b) "wxpay" = true ->
  products (productIdOf b) = Some product ->
  truthy (ZPAY_PID env) = Some pid ->
  truthy (ZPAY_KEY env) = Some key ->
  truthy (NEXT_PUBLIC_BASE_URL env) = Some baseUrl ->
  let now := TimeClip (clock o (ticks w)) in
  let r := random o (draws w) mod 1000 in
  let no := UrlRoute.orderNo rt now r in
  let data := mkInsertData uid (productIdOf b) no (numericOfPrice (Product.price product))
                           (Product.name product) (payTypeOf b) "pending"
                           (Product.isSubscription product)
                           (truthy (Product.subscriptionPeriod product)) in
  exec o (UrlRoute.POST rt env products (Some uid) (Some b)) w
  = match dbInsert data (clock o (S (ticks w))) (ledger w) with
    | Some db =>
        (mkResponse (JsonUrl (paymentUrl rt key (issuerParams pid baseUrl product (payTypeOf b) no))) 200,
         tick (withLedger (draw (tick w)) db),
         [EvNewDate now; EvRandom r; EvInsert data false])
    | None =>
        (mkResponse (JsonError "创建订单失败，请稍后重试") 500, draw (tick w),
         [EvNewDate now; EvRandom r; EvInsert data true])
    end.
Proof.
  intros Hpay Hprod Hpid Hkey Hbase now r no data.
  unfold UrlRoute.POST. fold (productIdOf b). fold (payTypeOf b).
  rewrite Hpay, Hprod, Hpid, Hkey, Hbase. cbn [negb].
  unfold UrlRoute.generateOrderNo. cbn [exec tick draw ticks draws ledger].
  fold now. fold r. fold no. fold data.
  destruct (dbInsert data (clock o (S (ticks w))) (ledger w)) as [db|]; reflexivity.
Qed.

Lemma dbInsert_Some data now db db' :
  dbInsert data now db = Some db' ->
  exists m, ins_money data = Some m
    /\ db' = db ++ [mkTransaction (ins_user_id data) (ins_product_id data) (ins_name data)
                                  (ins_out_trade_no data) None m (ins_type data) (ins_status data)
                                  (ins_is_subscription data) (ins_subscription_period data)
                                  None None now now].
Proof.
  unfold dbInsert. destruct (ins_money data) as [m|]; [|discriminate].
  destruct (existsb _ db); [discriminate|]. intros [= <-]. exists m. split; reflexivity.
Qed.

(** Every outcome of the issuer: either 200 with a link and one new
    pending row, or an error message under one of the statuses 400, 401
    and 500 with the table as it was. *)
Lemma issuer_outcome :
  forall rt env products o w user request resp w' log,
    exec o (UrlRoute.POST rt env products user request) w = (resp, w', log) ->
    (httpStatus resp = 200 ->
     exists uid b product m url,
       user = Some uid /\ request = Some b
       /\ products (productIdOf b) = Some product
       /\ numericOfPrice (Product.price product) = Some m
       /\ body resp = JsonUrl url
       /\ ledger w' = ledger w
                      ++ [issuedRow uid b product
                                    (UrlRoute.orderNo rt (TimeClip (clock o (ticks w)))
                                                      (random o (draws w) mod 1000))
                                    m (clock o (S (ticks w)))])
    /\ (httpStatus resp <> 200 ->
        ledger w' = ledger w
        /\ (httpStatus resp = 400 \/ httpStatus resp = 401 \/ httpStatus resp = 500)
        /\ exists msg, body resp = JsonError msg /\ msg <> "").
Proof.
  intros rt env products o w user request resp w' log E.
  destruct user as [uid|].
  2: { cbn in E. injection E as <- <- <-. split; [discriminate|].
       intros _. split; [reflexivity|]. split; [cbn; tauto|]. eexists; split; [reflexivity|discriminate]. }
  destruct request as [b|].
  2: { cbn in E. injection E as <- <- <-. split; [discriminate|].
       intros _. split; [reflexivity|]. split; [cbn; tauto|]. eexists; split; [reflexivity|discriminate]. }
  destruct (String.eqb (payTypeOf b) "alipay" || String.eqb (payTypeOf b) "wxpay") eqn:Hpay.
  2: { unfold UrlRoute.POST in E. fold (payTypeOf b) in E. rewrite Hpay in E.
       cbn in E. injection E as <- <- <-. split; [discriminate|].
       intros _. split; [reflexivity|]. split; [cbn; tauto|]. eexists; split; [reflexivity|discriminate]. }
  destruct (products (productIdOf b)) as [product|] eqn:Hprod.
  2: { unfold UrlRoute.POST in E. fold (payTypeOf b) in E. fold (productIdOf b) in E.
       rewrite Hpay, Hprod in E.
       cbn in E. injection E as <- <- <-. split; [discriminate|].
       intros _. split; [reflexivity|]. split; [cbn; tauto|]. eexists; split; [reflexivity|discriminate]. }
  assert (Hconf : forall r w0 l,
            exec o (Respond (mkResponse (JsonError "支付服务配置错误，请联系管理员") 500)) w = (r, w0, l) ->
            (httpStatus r = 200 -> False)
            /\ (ledger w0 = ledger w
                /\ (httpStatus r = 400 \/ httpStatus r = 401 \/ httpStatus r = 500)
                /\ exists msg, body r = JsonError msg /\ msg <> "")).
  { intros r w0 l [= <- <- <-]. split; [discriminate|]. split; [reflexivity|].
    split; [cbn; tauto|]. eexists; split; [reflexivity|discriminate]. }
  destruct (truthy (ZPAY_PID env)) as [pid|] eqn:Hpid.
  2: { unfold UrlRoute.POST in E. fold (payTypeOf b) in E. fold (productIdOf b) in E.
       rewrite Hpay, Hprod, Hpid in E. cbn [negb] in E.
       destruct (Hconf _ _ _ E) as [H1 H2]. split; [intros H; destruct (H1 H)|intros _; exact H2]. }
  destruct (truthy (ZPAY_KEY env)) as [key|] eqn:Hkey.
  2: { unfold UrlRoute.POST in E. fold (payTypeOf b) in E. fold (productIdOf b) in E.
       rewrite Hpay, Hprod, Hpid, Hkey in E. cbn [negb] in E.
       destruct (Hconf _ _ _ E) as [H1 H2]. split; [intros H; destruct (H1 H)|intros _; exact H2]. }
  destruct (truthy (NEXT_PUBLIC_BASE_URL env)) as [baseUrl|] eqn:Hbase.
  2: { unfold UrlRoute.POST in E. fold (payTypeOf b) in E. fold (productIdOf b) in E.
       rewrite Hpay, Hprod, Hpid, Hkey, Hbase in E. cbn [negb] in E.
       destruct (Hconf _ _ _ E) as [H1 H2]. split; [intros H; destruct (H1 H)|intros _; exact H2]. }
  rewrite (exec_issuer o rt env products uid b w product pid key baseUrl Hpay Hprod Hpid Hkey Hbase) in E.
  cbv zeta in E.
  destruct (dbInsert _ (clock o (S (ticks w))) (ledger w)) as [db|] eqn:Ei.
  - injection E as <- <- <-. split; [|intros H; exfalso; apply H; reflexivity].
    intros _. destruct (dbInsert_Some _ _ _ _ Ei) as [m [Hm ->]]. cbn [ins_money] in Hm.
    exists uid, b, product, m. eexists.
    split; [reflexivity|]. split; [reflexivity|]. split; [exact Hprod|].
    split; [exact Hm|]. split; [reflexivity|]. reflexivity.
  - injection E as <- <- <-. split; [discriminate|].
    intros _. split; [reflexivity|]. split; [cbn; tauto|]. eexists; split; [reflexivity|discriminate].
Qed.

(** X4. A payment link is returned exactly when an order has been
    persisted.  Whatever the caller, the body, the catalog and the
    configuration: if the issuer answers 200, the caller is signed in, the
    product is in the catalog, the answer is a link, and the table has
    gained exactly one row, pending, owned by the caller, priced from the
    catalog, with no trade number and no subscription window; if it
    answers anything else, the answer is an error message and the table is
    as it was.  No existing row is changed in either case. *)
Theorem issuer_link_iff_order_persisted :
  forall rt env products o w user request resp w' log,
    exec o (UrlRoute.POST rt env products user request) w = (resp, w', log) ->
    (httpStatus resp = 200 ->
     exists uid b product m url,
       user = Some uid /\ request = Some b
       /\ products (productIdOf b) = Some product
       /\ numericOfPrice (Product.price product) = Some m
       /\ body resp = JsonUrl url
       /\ ledger w' = ledger w
                      ++ [issuedRow uid b product
                                    (UrlRoute.orderNo rt (TimeClip (clock o (ticks w)))
                                                      (random o (draws w) mod 1000))
                                    m (clock o (S (ticks w)))])
    /\ (httpStatus resp <> 200 ->
        ledger w' = ledger w /\ exists msg, body resp = JsonError msg).
Proof.
  intros rt env products o w user request resp w' log E.
  destruct (issuer_outcome rt env products o w user request resp w' log E) as [H200 Hother].
  split; [exact H200|].
  intros Hne. destruct (Hother Hne) as [Hl [_ [msg [Hmsg _]]]].
  split; [exact Hl|]. exists msg. exact Hmsg.
Qed.

Lemma issuer_link_iff_order_persisted_witness :
  exists uid b product m url,
    Some "u1" = Some uid /\ Some sampleBody = Some b
    /\ sampleCatalog (productIdOf b) = Some product
    /\ numericOfPrice (Product.price product) = Some m
    /\ JsonUrl "https://zpayz.cn/submit.php?pid=1001&money=9.9&name=Pro&notify_url=https%3A%2F%2Fshop.example%2Fapi%2Fcheckout%2Fproviders%2Fzpay%2Fwebhook&out_trade_no=20250401000000123&return_url=https%3A%2F%2Fshop.example%2Fpayment%2Fsuccess&type=alipay&sign=adfd5fafbb6a818b535a63e622ecd0a9&sign_type=MD5"
       = JsonUrl url
    /\ [issuedRow "u1" sampleBody (Product.mk "Pro" "9.9" true (Some "monthly"))
                  "20250401000000123" 990 1743465600001]
       = [] ++ [issuedRow uid b product
                          (UrlRoute.orderNo nodeUTC (TimeClip (clock sampleOracle 0))
                                            (random sampleOracle 0 mod 1000))
                          m (clock sampleOracle 1)].
Proof.
  refine (proj1 (issuer_link_iff_order_persisted nodeUTC sampleEnv sampleCatalog sampleOracle
                   (mkWorld [] 0 0) (Some "u1") (Some sampleBody)
                   (mkResponse (JsonUrl _) 200)
                   (mkWorld [issuedRow "u1" sampleBody (Product.mk "Pro" "9.9" true (Some "monthly"))
                                       "20250401000000123" 990 1743465600001] 2 1)
                   _ _) eq_refl).
  vm_compute. reflexivity.
Defined.

(** * The link the issuer returns *)

Lemma getVerifyParams_linkParams rt key params :
  getVerifyParams rt (linkParams rt key params) = getVerifyParams rt params.
Proof.
  unfold getVerifyParams, linkParams. cbv zeta. rewrite filter_app.
  assert (E : filter (fun kv => negb (skipped kv))
                     [("sign", sign rt params key); ("sign_type", "MD5")] = []).
  { cbn [filter]. unfold skipped. cbn [fst snd].
    destruct (isEmpty (sign rt params key)); reflexivity. }
  rewrite E, app_nil_r. reflexivity.
Qed.

Lemma dbInsert_free data now db m :
  ins_money data = Some m ->
  (forall row, In row db -> out_trade_no row <> ins_out_trade_no data) ->
  dbInsert data now db
  = Some (db ++ [mkTransaction (ins_user_id data) (ins_product_id data) (ins_name data)
                               (ins_out_trade_no data) None m (ins_type data) (ins_status data)
                               (ins_is_subscription data) (ins_subscription_period data)
                               None None now now]).
Proof.
  intros Hm Hfree. unfold dbInsert. rewrite Hm.
  destruct (existsb _ db) eqn:E; [|reflexivity].
  apply existsb_out_trade_no in E. destruct E as [row [Hrow Hno]].
  exfalso. exact (Hfree row Hrow Hno).
Qed.

(** X5. The link of a new order verifies against itself: its query holds
    the nine parameters [pid], [money], [name], [notify_url],
    [out_trade_no], [return_url], [type], [sign], [sign_type], in that
    order; [money] and [name] are the catalog's, [out_trade_no] is the
    number of the row just inserted, the two URLs extend the configured
    base URL, and [sign] is the token the signer computes from the whole
    query with the configured key. *)
Theorem issued_link_is_signed_over_its_parameters :
  forall rt env products o w uid b product pid key baseUrl m,
    String.eqb (payTypeOf b) "alipay" || String.eqb (payTypeOf b) "wxpay" = true ->
    products (productIdOf b) = Some product ->
    truthy (ZPAY_PID env) = Some pid ->
    truthy (ZPAY_KEY env) = Some key ->
    truthy (NEXT_PUBLIC_BASE_URL env) = Some baseUrl ->
    numericOfPrice (Product.price product) = Some m ->
    let no := UrlRoute.orderNo rt (TimeClip (clock o (ticks w))) (random o (draws w) mod 1000) in
    (forall row, In row (ledger w) -> out_trade_no row <> no) ->
    exists q w' log,
      exec o (UrlRoute.POST rt env products (Some uid) (Some b)) w
      = (mkResponse (JsonUrl ("https://zpayz.cn/submit.php?" ++ urlParamsToString q)) 200, w', log)
      /\ map fst q = ["pid"; "money"; "name"; "notify_url"; "out_trade_no"; "return_url";
                      "type"; "sign"; "sign_type"]
      /\ get q "sign" = Some (sign rt q key)
      /\ get q "sign_type" = Some "MD5"
      /\ get q "pid" = Some pid
      /\ get q "money" = Some (Product.price product)
      /\ get q "name" = Some (Product.name product)
      /\ get q "type" = Some (payTypeOf b)
      /\ get q "notify_url" = Some (baseUrl ++ "/api/checkout/providers/zpay/webhook")%string
      /\ get q "return_url" = Some (baseUrl ++ "/payment/success")%string
      /\ get q "out_trade_no" = Some no
      /\ option_map out_trade_no (nth_error (ledger w') (List.length (ledger w))) = Some no.
Proof.
  intros rt env products o w uid b product pid key baseUrl m Hpay Hprod Hpid Hkey Hbase Hm no Hfree.
  rewrite (exec_issuer o rt env products uid b w product pid key baseUrl Hpay Hprod Hpid Hkey Hbase).
  cbv zeta. fold no.
  rewrite (dbInsert_free _ _ _ m); [|exact Hm|exact Hfree].
  exists (linkParams rt key (issuerParams pid baseUrl product (payTypeOf b) no)).
  do 2 eexists. split; [reflexivity|].
  split; [reflexivity|]. split.
  { set (P := issuerParams pid baseUrl product (payTypeOf b) no).
    change (get (linkParams rt key P) "sign") with (Some (sign rt P key)).
    unfold sign. rewrite getVerifyParams_linkParams. reflexivity. }
  repeat (split; [reflexivity|]).
  cbn [tick withLedger ledger]. rewrite nth_error_app2 by lia. rewrite Nat.sub_diag. reflexivity.
Qed.

Lemma issued_link_is_signed_over_its_parameters_witness :
  exists q w' log,
    exec sampleOracle (UrlRoute.POST nodeUTC sampleEnv sampleCatalog (Some "u1") (Some sampleBody))
         (mkWorld [] 0 0)
    = (mkResponse (JsonUrl ("https://zpayz.cn/submit.php?" ++ urlParamsToString q)) 200, w', log)
    /\ get q "sign" = Some (sign nodeUTC q "secret")
    /\ get q "money" = Some "9.9"
    /\ get q "out_trade_no" = Some "20250401000000123".
Proof.
  destruct (issued_link_is_signed_over_its_parameters nodeUTC sampleEnv sampleCatalog sampleOracle
              (mkWorld [] 0 0) "u1" sampleBody (Product.mk "Pro" "9.9" true (Some "monthly"))
              "1001" "secret" "https://shop.example" 990
              eq_refl eq_refl eq_refl eq_refl eq_refl eq_refl)
    as (q & w' & log & E & _ & Hs & _ & _ & Hmoney & _ & _ & _ & _ & Hno & _).
  - intros row [].
  - exists q, w', log. split; [exact E|]. split; [exact Hs|]. split; [exact Hmoney|].
    vm_compute in Hno. exact Hno.
Defined.

(** * The regenerator, on every input *)

Lemma selectOwnPending_Some uid no db t :
  dbSelectOwnPending uid no db = Some t ->
  In t db /\ user_id t = uid /\ out_trade_no t = no /\ status t = "pending".
Proof.
  unfold dbSelectOwnPending. intros E. apply single_Some in E.
  assert (Hin : In t (filter (fun r => String.eqb (user_id r) uid
                                       && String.eqb (out_trade_no r) no
                                       && String.eqb (status r) "pending") db))
    by (rewrite E; left; reflexivity).
  apply filter_In in Hin. destruct Hin as [Hin Hp].
  apply andb_prop in Hp. destruct Hp as [Hp Hs]. apply andb_prop in Hp. destruct Hp as [Hu Hn].
  apply String.eqb_eq in Hu, Hn, Hs. repeat split; assumption.
Qed.

(** A run that ends in a rejection before or right after its one query. *)
Ltac rejected :=
  do 2 eexists; split; [reflexivity|]; split; [reflexivity|];
  split; [cbn; lia|]; cbn; intros H; discriminate H.

(** X6. The regenerator only reads.  Whatever the caller, the body and the
    configuration, it leaves the world as it found it and asks the table
    at most one question; and when it answers 200 the caller is signed in
    and the order number of the request is that of a row of the table that
    belongs to the caller and is pending. *)
Theorem regenerator_only_reads :
  forall rt env o user request w,
    exists resp log,
      exec o (RepayRoute.POST rt env user request) w = (resp, w, log)
      /\ filter isWrite log = []
      /\ (List.length log <= 1)%nat
      /\ (httpStatus resp = 200 ->
          exists uid no t,
            user = Some uid
            /\ request = Some (RepayRoute.mkBody (Some no))
            /\ In t (ledger w)
            /\ user_id t = uid /\ out_trade_no t = no /\ status t = "pending").
Proof.
  intros rt env o user request w. unfold RepayRoute.POST.
  destruct user as [uid|]; [|rejected].
  destruct request as [[ono]|]; [|rejected].
  cbn [RepayRoute.outTradeNo].
  destruct (truthy ono) as [no|] eqn:Hno; [|rejected].
  assert (Eono : ono = Some no).
  { destruct ono as [[|c s]|]; cbn in Hno; congruence. }
  subst ono. cbn [exec].
  destruct (dbSelectOwnPending uid no (ledger w)) as [t|] eqn:Hsel; [|rejected].
  destruct (selectOwnPending_Some _ _ _ _ Hsel) as [Hin [Hu [Hn Hs]]].
  destruct (truthy (ZPAY_PID env)) as [pid|]; [|rejected].
  destruct (truthy (ZPAY_KEY env)) as [key|]; [|rejected].
  destruct (truthy (NEXT_PUBLIC_BASE_URL env)) as [baseUrl|]; [|rejected].
  do 2 eexists. split; [reflexivity|]. split; [reflexivity|]. split; [cbn; lia|].
  intros _. exists uid, no, t. repeat split; assumption.
Qed.

(** * Orders the webhook acknowledges without paying *)

(** X7. An order that is neither pending nor paid (a failed one, say) is
    never paid: a verified success notification with an acceptable amount
    runs through to the conditional update, which matches no row; the
    webhook answers [success] all the same and the table is as it was. *)
Theorem webhook_acknowledges_but_never_pays_a_failed_order :
  forall rt env o sp w t,
    verifiedSuccess rt env sp ->
    dbSelectByOutTradeNo (orEmpty (get sp "out_trade_no")) (ledger w) = Some t ->
    status t <> "pending" -> status t <> "paid" ->
    WebhookRoute.amountMismatch (parseFloat (orEmpty (get sp "money")))
                                (numberOfNumeric (money t)) = false ->
    ordinaryTimes o (ledger w) ->
    exists w' pre data,
      exec o (WebhookRoute.GET rt env sp) w
      = (WebhookRoute.success, w',
         pre ++ [EvUpdate data (orEmpty (get sp "out_trade_no")) "pending" []])
      /\ filter isWrite pre = []
      /\ ledger w' = ledger w.
Proof.
  intros rt env o sp w t Hv Hf Hnp Hnq Hm Ho.
  rewrite (exec_GET_verified _ _ _ _ _ Hv). cbv zeta. rewrite Hf.
  unfold WebhookRoute.reconcile.
  apply String.eqb_neq in Hnq. rewrite Hnq, Hm.
  destruct (exec_settle o rt (orEmpty (get sp "trade_no")) (orEmpty (get sp "out_trade_no")) t w Ho)
    as [w1 [pre [E Hpre]]].
  rewrite E.
  rewrite (dbUpdate_not_pending _ _ _ _ Hf Hnp). cbn [fst snd].
  exists (withLedger w1 (ledger w)), (EvSelectByOutTradeNo (orEmpty (get sp "out_trade_no")) (Some t) :: pre).
  eexists. split; [reflexivity|]. split; [exact Hpre|reflexivity].
Qed.

Lemma ordinary_samples row :
  subscription_end_date row = None -> ordinaryTimes sampleOracle [paidOrder; row].
Proof.
  intros Hrow. split.
  - intros n. unfold ordinaryTime, sampleOracle. cbn [clock]. lia.
  - intros r e [<-|[<-|[]]]; [cbn; intros [= <-]; unfold ordinaryTime; lia|congruence].
Qed.

Lemma webhook_acknowledges_but_never_pays_a_failed_order_witness :
  exists w' pre data,
    exec sampleOracle (WebhookRoute.GET nodeUTC sampleEnv sampleNotification)
         (mkWorld [paidOrder; failedOrder] 0 0)
    = (WebhookRoute.success, w', pre ++ [EvUpdate data "20250401000000002" "pending" []])
    /\ filter isWrite pre = []
    /\ ledger w' = [paidOrder; failedOrder].
Proof.
  apply (webhook_acknowledges_but_never_pays_a_failed_order nodeUTC sampleEnv sampleOracle
           sampleNotification (mkWorld [paidOrder; failedOrder] 0 0) failedOrder).
  - exact sample_verified.
  - reflexivity.
  - discriminate.
  - discriminate.
  - vm_compute. reflexivity.
  - apply ordinary_samples. reflexivity.
Defined.

(** * Orders without a window *)

(** X8. A one-off order (one that is not a subscription, or has no
    period) is paid without a subscription window: the run is the query
    for the order, one clock reading and the conditional update, which
    sets [status], [trade_no] and [updated_at] only; the subscription rows
    are not queried and the two dates of the row stay as they were. *)
Theorem one_off_order_gets_no_window :
  forall rt env o sp w t,
    verifiedSuccess rt env sp ->
    dbSelectByOutTradeNo (orEmpty (get sp "out_trade_no")) (ledger w) = Some t ->
    status t = "pending" ->
    WebhookRoute.amountMismatch (parseFloat (orEmpty (get sp "money")))
                                (numberOfNumeric (money t)) = false ->
    is_subscription t = false \/ truthy (subscription_period t) = None ->
    validTime (clock o (ticks w)) ->
    let no := orEmpty (get sp "out_trade_no") in
    let data := mkUpdateData "paid" (orEmpty (get sp "trade_no")) (clock o (ticks w)) None in
    exists w',
      exec o (WebhookRoute.GET rt env sp) w
      = (WebhookRoute.success, w',
         [EvSelectByOutTradeNo no (Some t); EvNewDate (Some (clock o (ticks w)));
          EvUpdate data no "pending" [applyUpdate data t]])
      /\ dbSelectByOutTradeNo no (ledger w') = Some (applyUpdate data t)
      /\ status (applyUpdate data t) = "paid"
      /\ trade_no (applyUpdate data t) = Some (orEmpty (get sp "trade_no"))
      /\ subscription_start_date (applyUpdate data t) = subscription_start_date t
      /\ subscription_end_date (applyUpdate data t) = subscription_end_date t.
Proof.
  intros rt env o sp w t Hv Hf Hs Hm Hone Hc no data.
  rewrite (exec_GET_verified _ _ _ _ _ Hv). cbv zeta. rewrite Hf. fold no.
  unfold WebhookRoute.reconcile. rewrite Hs, Hm.
  cbn [String.eqb Ascii.eqb Bool.eqb].
  assert (Es : exec o (WebhookRoute.settle rt (orEmpty (get sp "trade_no")) no t) w
               = (WebhookRoute.success,
                  withLedger (tick w) (fst (dbUpdate data no "pending" (ledger w))),
                  [EvNewDate (Some (clock o (ticks w)));
                   EvUpdate data no "pending" (snd (dbUpdate data no "pending" (ledger w)))])).
  { unfold WebhookRoute.settle. cbn [exec].
    rewrite (TimeClip_valid _ Hc). cbn [toISOString].
    destruct Hone as [H|H]; rewrite H; [|destruct (is_subscription t)];
      rewrite exec_conditionalUpdate; reflexivity. }
  rewrite Es.
  destruct (dbUpdate_pending data no (ledger w) t Hf Hs) as [Hrows Hsel].
  rewrite Hrows. eexists. split; [reflexivity|].
  split; [exact Hsel|]. repeat split.
Qed.

Lemma one_off_order_gets_no_window_witness :
  exists w',
    exec sampleOracle (WebhookRoute.GET nodeUTC sampleEnv sampleNotification)
         (mkWorld [paidOrder; oneOffOrder] 0 0)
    = (WebhookRoute.success, w',
       [EvSelectByOutTradeNo "20250401000000002" (Some oneOffOrder);
        EvNewDate (Some 1743465600000);
        EvUpdate (mkUpdateData "paid" "T2" 1743465600000 None) "20250401000000002" "pending"
                 [applyUpdate (mkUpdateData "paid" "T2" 1743465600000 None) oneOffOrder]])
    /\ subscription_end_date (applyUpdate (mkUpdateData "paid" "T2" 1743465600000 None) oneOffOrder)
       = None.
Proof.
  destruct (one_off_order_gets_no_window nodeUTC sampleEnv sampleOracle sampleNotification
              (mkWorld [paidOrder; oneOffOrder] 0 0) oneOffOrder)
    as (w' & E & _ & _ & _ & _ & He).
  - exact sample_verified.
  - reflexivity.
  - reflexivity.
  - vm_compute. reflexivity.
  - left. reflexivity.
  - unfold validTime. cbn. lia.
  - exists w'. split; [exact E|exact He].
Defined.

(** X9. A subscription order whose period is neither [monthly] nor
    [yearly] is paid with a window of length zero: the end date written is
    the start date itself. *)
Theorem unknown_period_gets_an_empty_window :
  forall rt env o sp w t period,
    verifiedSuccess rt env sp ->
    dbSelectByOutTradeNo (orEmpty (get sp "out_trade_no")) (ledger w) = Some t ->
    status t = "pending" ->
    WebhookRoute.amountMismatch (parseFloat (orEmpty (get sp "money")))
                                (numberOfNumeric (money t)) = false ->
    is_subscription t = true ->
    subscription_period t = Some period ->
    period <> "" -> period <> "monthly" -> period <> "yearly" ->
    ordinaryTimes o (ledger w) ->
    exists start w' log t',
      exec o (WebhookRoute.GET rt env sp) w = (WebhookRoute.success, w', log)
      /\ dbSelectByOutTradeNo (orEmpty (get sp "out_trade_no")) (ledger w') = Some t'
      /\ status t' = "paid"
      /\ subscription_start_date t' = Some start
      /\ subscription_end_date t' = Some start.
Proof.
  intros rt env o sp w t period Hv Hf Hs Hm Hsub Hper Hne Hnm Hny Ho.
  destruct (webhook_pays rt env o sp w t Hv Hf Hs Hm Ho) as [w' [pre [E [_ [_ Hsel]]]]].
  assert (Htr : truthy (subscription_period t) = Some period).
  { rewrite Hper. destruct period; [contradiction|reflexivity]. }
  unfold settledData in E, Hsel. rewrite Hsub, Htr in E, Hsel. cbv zeta in E, Hsel.
  unfold periodEnd in E, Hsel.
  apply String.eqb_neq in Hnm, Hny. rewrite Hnm, Hny in E, Hsel.
  exists (windowStart o w (user_id t)), w'. do 2 eexists.
  split; [exact E|]. split; [exact Hsel|]. repeat split.
Qed.

Lemma unknown_period_gets_an_empty_window_witness :
  exists start w' log t',
    exec sampleOracle (WebhookRoute.GET nodeUTC sampleEnv sampleNotification)
         (mkWorld [paidOrder; weeklyOrder] 0 0)
    = (WebhookRoute.success, w', log)
    /\ dbSelectByOutTradeNo "20250401000000002" (ledger w') = Some t'
    /\ status t' = "paid"
    /\ subscription_start_date t' = Some start
    /\ subscription_end_date t' = Some start.
Proof.
  apply (unknown_period_gets_an_empty_window nodeUTC sampleEnv sampleOracle sampleNotification
           (mkWorld [paidOrder; weeklyOrder] 0 0) weeklyOrder "weekly").
  - exact sample_verified.
  - reflexivity.
  - reflexivity.
  - vm_compute. reflexivity.
  - reflexivity.
  - reflexivity.
  - discriminate.
  - discriminate.
  - discriminate.
  - apply ordinary_samples. reflexivity.
Defined.

(** * How long a window lasts *)

Lemma daysInMonth_range m leap :
  leap = 0 \/ leap = 1 -> 0 <= m <= 11 -> 28 <= daysInMonth m leap <= 31.
Proof.
  intros Hl Hm. unfold daysInMonth.
  assert (Hcase : m = 0 \/ m = 1 \/ m = 2 \/ m = 3 \/ m = 4 \/ m = 5 \/ m = 6
                  \/ m = 7 \/ m = 8 \/ m = 9 \/ m = 10 \/ m = 11) by lia.
  destruct Hl as [-> | ->];
    destruct Hcase as [->|[->|[->|[->|[->|[->|[->|[->|[->|[->|[->| ->]]]]]]]]]]];
    cbn; lia.
Qed.

Lemma nextMonth_exact t :
  MakeDate (MakeDay (YearFromTime t) (MonthFromTime t + 1) (DateFromTime t)) (TimeWithinDay t)
  = t + daysInMonth (MonthFromTime t) (InLeapYear t) * msPerDay.
Proof.
  destruct (MonthFromTime_cases t) as [Hm _]. cbv zeta in Hm.
  pose proof (InLeapYear_cases t) as Hl.
  assert (Hday : MakeDay (YearFromTime t) (MonthFromTime t + 1) (DateFromTime t)
                 = Day t + daysInMonth (MonthFromTime t) (InLeapYear t)).
  { rewrite (Day_split t). unfold DateFromTime, MakeDay, daysInMonth.
    assert (Hy1 : DayFromYear (YearFromTime t + 1)
                  = DayFromYear (YearFromTime t) + 365 + InLeapYear t).
    { unfold InLeapYear, DaysInYear. lia. }
    assert (Hleap : DaysInYear (YearFromTime t) - 365 = InLeapYear t) by reflexivity.
    set (y := YearFromTime t) in *. set (m := MonthFromTime t) in *.
    set (d := DayWithinYear t) in *. set (leap := InLeapYear t) in *.
    clearbody y m d leap.
    destruct (Z.eq_dec m 11) as [->|Hne].
    - change ((11 + 1) / 12) with 1. change ((11 + 1) mod 12) with 0.
      change (11 + 1) with 12. cbn [monthStart]. rewrite Hy1. lia.
    - replace ((m + 1) / 12) with 0 by (symmetry; apply Z.div_small; lia).
      replace ((m + 1) mod 12) with (m + 1) by (symmetry; apply Z.mod_small; lia).
      replace (y + 0) with y by lia. rewrite Hleap. lia. }
  rewrite Hday. pose proof (MakeDate_Day t) as Ht. unfold MakeDate in *. lia.
Qed.

(** X10. A monthly window lasts exactly as many days as the calendar
    month it starts in has (in the server's local time), between 28 and
    31, whatever the day of the month: the end date is the start date plus
    that many whole days.  A yearly window lasts 365 or 366 whole days. *)
Theorem window_lasts_the_length_of_its_first_month :
  forall rt start,
    ordinaryTime start ->
    let lt := LocalTime rt start in
    let days := daysInMonth (MonthFromTime lt) (InLeapYear lt) in
    setMonth rt (Some start) (option_map (Z.add 1) (getMonth rt (Some start)))
    = Some (start + days * msPerDay)
    /\ 28 <= days <= 31
    /\ exists days', 365 <= days' <= 366
         /\ setFullYear rt (Some start) (option_map (Z.add 1) (getFullYear rt (Some start)))
            = Some (start + days' * msPerDay).
Proof.
  intros rt start Ho lt days.
  assert (Hd : 28 <= days <= 31).
  { apply daysInMonth_range; [apply InLeapYear_cases|].
    destruct (MonthFromTime_cases lt) as [Hm _]. exact Hm. }
  split; [|split; [exact Hd|]].
  - cbn [setMonth getMonth option_map]. fold lt. rewrite (Z.add_comm 1).
    rewrite nextMonth_exact. fold days.
    unfold UTC. replace (lt + days * msPerDay - LocalTZA rt) with (start + days * msPerDay)
      by (unfold lt, LocalTime; lia).
    apply TimeClip_valid. unfold ordinaryTime, validTime, msPerDay in *. lia.
  - destruct (setFullYear_next rt start) as [len [Hlen [E1 E2]]].
    exists len. split; [exact Hlen|]. rewrite E2, E1.
    apply TimeClip_valid. unfold ordinaryTime, validTime, msPerDay in *. lia.
Qed.

(** 2024-01-31T12:00:00Z: January has 31 days, so the window ends on
    2024-03-02T12:00:00Z. *)
Lemma window_lasts_the_length_of_its_first_month_witness :
  setMonth nodeUTC (Some 1706702400000) (option_map (Z.add 1) (getMonth nodeUTC (Some 1706702400000)))
  = Some (1706702400000 + 31 * msPerDay).
Proof.
  assert (Ho : ordinaryTime 1706702400000) by (unfold ordinaryTime; lia).
  exact (proj1 (window_lasts_the_length_of_its_first_month nodeUTC 1706702400000 Ho)).
Defined.

(** * What the webhook does not compare *)

(** X11. Once the signature verifies, the webhook uses the order number,
    the amount and the trade number of a success notification and nothing
    else: two verified success notifications that agree on these three
    fields behave alike in every world, whatever their [pid], [name],
    [type] and [param] are.  In particular the merchant id, the product
    name and the payment type of a notification are never compared with
    the configuration or with the stored order. *)
Theorem webhook_uses_only_number_amount_and_trade_number :
  forall rt env o sp1 sp2 w,
    verifiedSuccess rt env sp1 ->
    verifiedSuccess rt env sp2 ->
    orEmpty (get sp1 "out_trade_no") = orEmpty (get sp2 "out_trade_no") ->
    orEmpty (get sp1 "money") = orEmpty (get sp2 "money") ->
    orEmpty (get sp1 "trade_no") = orEmpty (get sp2 "trade_no") ->
    exec o (WebhookRoute.GET rt env sp1) w = exec o (WebhookRoute.GET rt env sp2) w.
Proof.
  intros rt env o sp1 sp2 w H1 H2 Hno Hm Ht.
  rewrite (GET_verified _ _ _ H1), (GET_verified _ _ _ H2), Hno, Hm, Ht. reflexivity.
Qed.

Lemma webhook_uses_only_number_amount_and_trade_number_witness :
  exec sampleOracle (WebhookRoute.GET nodeUTC sampleEnv relabelledNotification) sampleWorld
  = exec sampleOracle (WebhookRoute.GET nodeUTC sampleEnv sampleNotification) sampleWorld.
Proof.
  apply (webhook_uses_only_number_amount_and_trade_number nodeUTC sampleEnv sampleOracle
           relabelledNotification sampleNotification sampleWorld).
  - exists "secret". repeat split; vm_compute; reflexivity.
  - exact sample_verified.
  - reflexivity.
  - reflexivity.
  - reflexivity.
Defined.

(** * The shape of a token *)

Lemma append_nil_r (s : string) : (s ++ "")%string = s.
Proof. induction s as [|c s IH]; cbn; [reflexivity|]. rewrite IH. reflexivity. Qed.

Lemma append_assoc (a b c : string) : ((a ++ b) ++ c)%string = (a ++ (b ++ c))%string.
Proof. induction a as [|x a IH]; cbn; [reflexivity|]. rewrite IH. reflexivity. Qed.

Lemma length_append (a b : string) :
  String.length (a ++ b) = (String.length a + String.length b)%nat.
Proof. induction a as [|x a IH]; cbn; [reflexivity|]. rewrite IH. reflexivity. Qed.

Lemma list_ascii_of_append (a b : string) :
  list_ascii_of_string (a ++ b) = list_ascii_of_string a ++ list_ascii_of_string b.
Proof. induction a as [|x a IH]; cbn; [reflexivity|]. rewrite IH. reflexivity. Qed.

Lemma concat_empty_cons (x : string) (l : list string) :
  String.concat "" (x :: l) = (x ++ String.concat "" l)%string.
Proof. destruct l as [|y l]; cbn [String.concat]; [rewrite append_nil_r|]; reflexivity. Qed.

Lemma hexDigit_lower n : 0 <= n <= 15 -> isLowerHex (hexDigit n) = true.
Proof.
  intros H. rewrite <- (Z2Nat.id n) by lia.
  assert (Hk : (Z.to_nat n < 16)%nat) by lia.
  revert Hk. generalize (Z.to_nat n) as k. intros k Hk.
  do 16 (destruct k as [|k]; [reflexivity|]). lia.
Qed.

Lemma nibble_high b : 0 <= b <= 255 -> 0 <= Z.shiftr b 4 <= 15.
Proof.
  intros Hb. rewrite Z.shiftr_div_pow2 by lia. change (2 ^ 4) with 16.
  pose proof (Z.div_mod b 16 ltac:(lia)). pose proof (Z.mod_pos_bound b 16 ltac:(lia)). lia.
Qed.

Lemma nibble_low b : 0 <= b <= 255 -> 0 <= Z.land b 15 <= 15.
Proof.
  intros Hb.
  assert (E : Z.land b 15 = b mod 16)
    by (change 15 with (Z.ones 4); rewrite Z.land_ones by lia; reflexivity).
  rewrite E. pose proof (Z.mod_pos_bound b 16 ltac:(lia)). lia.
Qed.

Lemma hexByte_shape b :
  0 <= b <= 255 ->
  String.length (hexByte b) = 2%nat
  /\ forallb isLowerHex (list_ascii_of_string (hexByte b)) = true.
Proof.
  intros Hb. unfold hexByte. split; [reflexivity|].
  cbn [list_ascii_of_string forallb].
  rewrite (hexDigit_lower _ (nibble_high b Hb)), (hexDigit_lower _ (nibble_low b Hb)).
  reflexivity.
Qed.

Lemma hexBytes_shape l :
  Forall (fun b => 0 <= b <= 255) l ->
  String.length (String.concat "" (map hexByte l)) = (2 * List.length l)%nat
  /\ forallb isLowerHex (list_ascii_of_string (String.concat "" (map hexByte l))) = true.
Proof.
  induction 1 as [|b l Hb Hl [IH1 IH2]]; [split; reflexivity|].
  cbn [map]. rewrite concat_empty_cons, length_append, list_ascii_of_append, forallb_app.
  destruct (hexByte_shape b Hb) as [H1 H2]. rewrite H1, H2, IH1, IH2.
  split; [cbn [List.length]; lia|reflexivity].
Qed.

Lemma leBytes_bytes n x : Forall (fun b => 0 <= b <= 255) (MD5.leBytes n x).
Proof.
  unfold MD5.leBytes. apply Forall_forall. intros b Hb.
  apply in_map_iff in Hb. destruct Hb as [i [<- _]].
  set (y := Z.shiftr x (8 * Z.of_nat i)).
  assert (E : Z.land y 255 = y mod 256)
    by (change 255 with (Z.ones 8); rewrite Z.land_ones by lia; reflexivity).
  rewrite E. pose proof (Z.mod_pos_bound y 256 ltac:(lia)). lia.
Qed.

Lemma digest_bytes msg :
  List.length (MD5.digest msg) = 16%nat /\ Forall (fun b => 0 <= b <= 255) (MD5.digest msg).
Proof.
  unfold MD5.digest. destruct (MD5.blocks _ _ _) as [A B C D]. split.
  - rewrite !length_app. unfold MD5.leBytes. rewrite !length_map, !length_seq. reflexivity.
  - repeat (apply Forall_app; split); apply leBytes_bytes.
Qed.

(** Every token is 32 lower-case hexadecimal digits. *)
Lemma md5hex_isDigest s : isDigest (md5hex s) = true.
Proof.
  unfold isDigest, md5hex. destruct (digest_bytes (bytesOf s)) as [Hlen Hb].
  destruct (hexBytes_shape _ Hb) as [H1 H2]. rewrite H1, H2, Hlen. reflexivity.
Qed.

(** X12. The webhook fails closed.  Without a configured key (unset or
    empty) every notification is answered 500 and nothing is read.  With
    a key, a notification whose [sign] is not 32 lower-case hexadecimal
    digits (it is missing, empty, truncated, or in upper case) is
    answered 400 and nothing is read, whatever its other fields. *)
Theorem webhook_fails_closed :
  forall rt env o sp w,
    (truthy (ZPAY_KEY env) = None ->
     exec o (WebhookRoute.GET rt env sp) w = (mkResponse (Text "配置错误") 500, w, []))
    /\ (forall key,
          truthy (ZPAY_KEY env) = Some key ->
          isDigest (orEmpty (get sp "sign")) = false ->
          exec o (WebhookRoute.GET rt env sp) w
          = (mkResponse (Text "签名验证失败") 400, w, [])).
Proof.
  intros rt env o sp w. split.
  - intros Hk. unfold WebhookRoute.GET. rewrite Hk. reflexivity.
  - intros key Hk Hd. unfold WebhookRoute.GET. rewrite Hk.
    destruct (String.eqb (orEmpty (get sp "sign")) (WebhookRoute.expectedSign rt key sp)) eqn:E;
      [|reflexivity].
    apply String.eqb_eq in E. rewrite E in Hd.
    unfold WebhookRoute.expectedSign in Hd. rewrite md5hex_isDigest in Hd. discriminate.
Qed.

Lemma webhook_fails_closed_witness :
  exec sampleOracle (WebhookRoute.GET nodeUTC sampleEnv upperCaseNotification) sampleWorld
  = (mkResponse (Text "签名验证失败") 400, sampleWorld, [])
  /\ exec sampleOracle
          (WebhookRoute.GET nodeUTC (mkProcessEnv (Some "1001") (Some "") (Some "https://shop.example"))
                            sampleNotification) sampleWorld
     = (mkResponse (Text "配置错误") 500, sampleWorld, []).
Proof.
  split.
  - apply (proj2 (webhook_fails_closed nodeUTC sampleEnv sampleOracle upperCaseNotification
                    sampleWorld) "secret"); reflexivity.
  - apply (proj1 (webhook_fails_closed nodeUTC
                    (mkProcessEnv (Some "1001") (Some "") (Some "https://shop.example"))
                    sampleOracle sampleNotification sampleWorld)). reflexivity.
Defined.

(** * Separators inside values *)

(** X13. The signing string does not escape [&] and [=]: a single entry
    whose value continues with [&k'=v'] is signed exactly as the two
    entries [k=v] and [k'=v'] are, so the token does not tell the two
    records apart. *)
Theorem signer_does_not_escape_separators :
  forall rt k v k' v' key,
    v <> "" -> v' <> "" ->
    k <> "sign" -> k <> "sign_type" -> k' <> "sign" -> k' <> "sign_type" ->
    localeCompare rt k k' <> Gt ->
    getVerifyParams rt [(k, (v ++ "&" ++ k' ++ "=" ++ v')%string)] = getVerifyParams rt [(k, v); (k', v')]
    /\ sign rt [(k, (v ++ "&" ++ k' ++ "=" ++ v')%string)] key = sign rt [(k, v); (k', v')] key.
Proof.
  intros rt k v k' v' key Hv Hv' Hk1 Hk2 Hk1' Hk2' Hc.
  assert (E : getVerifyParams rt [(k, (v ++ "&" ++ k' ++ "=" ++ v')%string)]
              = getVerifyParams rt [(k, v); (k', v')]).
  { unfold getVerifyParams. cbv zeta. cbn [filter]. unfold skipped. cbn [fst snd].
    apply String.eqb_neq in Hk1, Hk2, Hk1', Hk2'. rewrite Hk1, Hk2, Hk1', Hk2'.
    assert (H1 : isEmpty (v ++ "&" ++ k' ++ "=" ++ v')%string = false)
      by (destruct v; [contradiction|reflexivity]).
    assert (H2 : isEmpty v = false) by (destruct v; [contradiction|reflexivity]).
    assert (H3 : isEmpty v' = false) by (destruct v'; [contradiction|reflexivity]).
    rewrite H1, H2, H3. cbn [orb negb sort insertSorted fst].
    destruct (localeCompare rt k k'); [ | |contradiction];
      cbn [map String.concat fst snd]; rewrite !append_assoc; reflexivity. }
  split; [exact E|]. unfold sign. rewrite E. reflexivity.
Qed.

Lemma signer_does_not_escape_separators_witness :
  sign nodeUTC [("name", "Pro&out_trade_no=20250401000000002")] "secret"
  = sign nodeUTC [("name", "Pro"); ("out_trade_no", "20250401000000002")] "secret".
Proof.
  refine (proj2 (signer_does_not_escape_separators nodeUTC "name" "Pro" "out_trade_no"
                   "20250401000000002" "secret" _ _ _ _ _ _ _)); discriminate.
Defined.

(** * The token of the routes *)

Lemma field_keys k v kv : In kv (WebhookRoute.field k v) -> fst kv = k.
Proof.
  unfold WebhookRoute.field. destruct (isEmpty v); [intros []|].
  intros [<-|[]]. reflexivity.
Qed.

Lemma verifyParams_keys sp kv :
  In kv (WebhookRoute.verifyParams sp) -> In (fst kv) routeKeys.
Proof.
  unfold WebhookRoute.verifyParams. cbv zeta. rewrite !in_app_iff.
  intros H. repeat (destruct H as [H|H]; [apply field_keys in H; rewrite H; cbn; tauto|]).
  apply field_keys in H. rewrite H. cbn. tauto.
Qed.

(** X14. On a Node.js host the three routes compute the token of the
    documented recipe, with the keys in byte-wise ascending order: the
    ten keys they ever sign are lower-case words that the host collation
    and the byte order arrange alike.  So the token the webhook expects
    for a notification, and the tokens the issuer and the regenerator put
    into their links, are the digests of the byte-ordered signing
    strings. *)
Theorem routes_sign_in_byte_order :
  (forall key sp,
      WebhookRoute.expectedSign nodeUTC key sp = specSign (WebhookRoute.verifyParams sp) key)
  /\ (forall pid baseUrl product payType no key,
        sign nodeUTC (issuerParams pid baseUrl product payType no) key
        = specSign (issuerParams pid baseUrl product payType no) key)
  /\ (forall pid baseUrl t key,
        sign nodeUTC (repayParams pid baseUrl t) key = specSign (repayParams pid baseUrl t) key).
Proof.
  split; [|split].
  - intros key sp. change (WebhookRoute.expectedSign nodeUTC key sp)
      with (sign nodeUTC (WebhookRoute.verifyParams sp) key).
    apply sign_on_routeKeys. apply verifyParams_keys.
  - intros pid baseUrl product payType no key. apply sign_on_routeKeys.
    intros kv Hkv. cbn in Hkv.
    repeat (destruct Hkv as [<-|Hkv]; [cbn; tauto|]). destruct Hkv.
  - intros pid baseUrl t key. apply sign_on_routeKeys.
    intros kv Hkv. cbn in Hkv.
    repeat (destruct Hkv as [<-|Hkv]; [cbn; tauto|]). destruct Hkv.
Qed.

(** * Decimal renderings *)

Lemma uintValue_pos d : forall acc,
  uintValue d (Zpos acc) = Zpos (Pos.of_uint_acc d acc).
Proof.
  induction d; intros acc; cbn [uintValue Pos.of_uint_acc]; try reflexivity;
    rewrite <- IHd; f_equal; lia.
Qed.

Lemma uintValue_N d : uintValue d 0 = Z.of_N (Pos.of_uint d).
Proof.
  induction d; cbn [uintValue Pos.of_uint]; try reflexivity;
    try (exact IHd); apply (uintValue_pos d).
Qed.

Lemma uintValue_to_uint p : uintValue (Pos.to_uint p) 0 = Zpos p.
Proof. rewrite uintValue_N, DecimalPos.Unsigned.of_to. reflexivity. Qed.

Lemma uintValue_shift d : forall acc,
  uintValue d acc = acc * 10 ^ Z.of_nat (Decimal.nb_digits d) + uintValue d 0
  /\ 0 <= uintValue d 0 < 10 ^ Z.of_nat (Decimal.nb_digits d).
Proof.
  induction d; intros acc; cbn [uintValue Decimal.nb_digits];
    try (cbn; lia);
    rewrite Nat2Z.inj_succ, Z.pow_succ_r by lia;
    match goal with
    | |- uintValue ?l ?a = _ /\ 0 <= uintValue ?l ?b < _ =>
        destruct (IHd a) as [-> _]; destruct (IHd b) as [-> Hr];
        destruct (IHd 0) as [_ H0]
    end; nia.
Qed.

Lemma to_uint_head p : Decimal.nzhead (Pos.to_uint p) = Pos.to_uint p.
Proof.
  pose proof (DecimalPos.Unsigned.to_of (Pos.to_uint p)) as H.
  rewrite DecimalPos.Unsigned.of_to in H. cbn [N.to_uint] in H.
  unfold Decimal.unorm in H.
  destruct (Decimal.nzhead (Pos.to_uint p)) eqn:E; try (symmetry; exact H).
  exfalso. apply (DecimalPos.Unsigned.to_uint_nonzero p). exact H.
Qed.

Lemma nzhead_fixed_lower d :
  Decimal.nzhead d = d -> d <> Decimal.Nil ->
  10 ^ (Z.of_nat (Decimal.nb_digits d) - 1) <= uintValue d 0.
Proof.
  intros Hh Hn. destruct d; try contradiction.
  { exfalso. cbn [Decimal.nzhead] in Hh.
    pose proof (DecimalFacts.nb_digits_nzhead d) as Hle. rewrite Hh in Hle.
    cbn [Decimal.nb_digits] in Hle. lia. }
  all: cbn [uintValue Decimal.nb_digits];
    rewrite Nat2Z.inj_succ;
    replace (Z.succ (Z.of_nat (Decimal.nb_digits d)) - 1) with (Z.of_nat (Decimal.nb_digits d)) by lia;
    match goal with
    | |- _ <= uintValue ?l ?a => destruct (uintValue_shift l a) as [-> Hr]
    end;
    pose proof (Z.pow_pos_nonneg 10 (Z.of_nat (Decimal.nb_digits d)) ltac:(lia) ltac:(lia)); nia.
Qed.

Lemma decimalString_pos p :
  decimalString (Zpos p) = NilEmpty.string_of_uint (Pos.to_uint p).
Proof.
  unfold decimalString. cbn [Z.to_int NilZero.string_of_int]. unfold NilZero.string_of_uint.
  destruct (Pos.to_uint p) eqn:E; try reflexivity.
  exfalso. exact (DecimalPos.Unsigned.to_uint_nonnil p E).
Qed.

Lemma string_of_uint_digits d :
  String.length (NilEmpty.string_of_uint d) = Decimal.nb_digits d
  /\ allDigits (NilEmpty.string_of_uint d) = true.
Proof.
  unfold allDigits.
  induction d; cbn [NilEmpty.string_of_uint String.length Decimal.nb_digits
                    list_ascii_of_string forallb];
    try (split; reflexivity);
    destruct IHd as [-> ->]; split; reflexivity.
Qed.

Lemma digitsValue_uint d rest : forall acc,
  digitsValue (NilEmpty.string_of_uint d ++ rest) acc = digitsValue rest (uintValue d acc).
Proof.
  induction d; intros acc; cbn [NilEmpty.string_of_uint append digitsValue uintValue];
    try reflexivity; rewrite IHd;
    try change (digitVal "0"%char) with 0; rewrite ?Z.add_0_r; reflexivity.
Qed.

Lemma takeDigits_uint d rest : forall acc n,
  takeDigits (NilEmpty.string_of_uint d ++ rest) acc n
  = takeDigits rest (uintValue d acc) (n + Z.of_nat (Decimal.nb_digits d)).
Proof.
  induction d; intros acc n;
    cbn [NilEmpty.string_of_uint append takeDigits uintValue Decimal.nb_digits];
    try (f_equal; lia);
    match goal with
    | |- (if ?c then _ else _) = _ => change c with true; cbv iota
    end;
    rewrite IHd; try change (digitVal "0"%char) with 0; rewrite ?Z.add_0_r;
    f_equal; lia.
Qed.

(** The decimal rendering of a non-negative integer: digits only, not
    empty, denoting the integer, and as long as its magnitude requires. *)
Lemma decimalString_digits z :
  0 <= z ->
  allDigits (decimalString z) = true
  /\ (1 <= String.length (decimalString z))%nat
  /\ (forall rest acc,
        digitsValue (decimalString z ++ rest) acc
        = digitsValue rest (acc * 10 ^ Z.of_nat (String.length (decimalString z)) + z))
  /\ (forall rest acc n,
        takeDigits (decimalString z ++ rest) acc n
        = takeDigits rest (acc * 10 ^ Z.of_nat (String.length (decimalString z)) + z)
                     (n + Z.of_nat (String.length (decimalString z))))
  /\ (0 < z -> 10 ^ (Z.of_nat (String.length (decimalString z)) - 1) <= z
               < 10 ^ Z.of_nat (String.length (decimalString z))).
Proof.
  intros Hz. destruct z as [|p|p]; [|clear Hz|lia].
  - change (decimalString 0) with "0". split; [reflexivity|]. split; [cbn; lia|]. split; [|split].
    + intros rest acc. cbn [append digitsValue String.length].
      change (digitVal "0"%char) with 0. change (Z.of_nat 1) with 1. f_equal. lia.
    + intros rest acc n. cbn [append takeDigits String.length].
      change (isDigit "0"%char) with true. cbv iota.
      change (digitVal "0"%char) with 0. change (Z.of_nat 1) with 1. f_equal; lia.
    + lia.
  - rewrite decimalString_pos.
    destruct (string_of_uint_digits (Pos.to_uint p)) as [Hlen Hall].
    pose proof (uintValue_to_uint p) as Hv.
    pose proof (to_uint_head p) as Hh.
    pose proof (DecimalPos.Unsigned.to_uint_nonnil p) as Hn.
    set (d := Pos.to_uint p) in *. clearbody d.
    rewrite Hlen. split; [exact Hall|]. split.
    { destruct d; cbn; try lia. contradiction. }
    split; [|split].
    + intros rest acc. rewrite digitsValue_uint.
      destruct (uintValue_shift d acc) as [-> _]. rewrite Hv. reflexivity.
    + intros rest acc n. rewrite takeDigits_uint.
      destruct (uintValue_shift d acc) as [-> _]. rewrite Hv. reflexivity.
    + intros _. destruct (uintValue_shift d 0) as [_ Hr]. rewrite Hv in Hr.
      pose proof (nzhead_fixed_lower d Hh Hn) as Hl. rewrite Hv in Hl. lia.
Qed.

(** * Padding *)

Lemma allDigits_append a b : allDigits (a ++ b) = allDigits a && allDigits b.
Proof. unfold allDigits. rewrite list_ascii_of_append, forallb_app. reflexivity. Qed.

Lemma zeros_shape k :
  String.length (String.concat "" (repeat "0" k)) = k
  /\ allDigits (String.concat "" (repeat "0" k)) = true
  /\ forall rest acc,
       digitsValue (String.concat "" (repeat "0" k) ++ rest) acc
       = digitsValue rest (acc * 10 ^ Z.of_nat k).
Proof.
  induction k as [|k [IH1 [IH2 IH3]]].
  - split; [reflexivity|]. split; [reflexivity|]. intros rest acc. cbn. f_equal. lia.
  - cbn [repeat]. rewrite concat_empty_cons.
    split; [cbn [append String.length]; rewrite IH1; reflexivity|].
    split; [rewrite allDigits_append, IH2; reflexivity|].
    intros rest acc. cbn [append digitsValue]. rewrite IH3.
    change (digitVal "0"%char) with 0. rewrite Nat2Z.inj_succ, Z.pow_succ_r by lia.
    f_equal. lia.
Qed.

Lemma decimalString_short n f :
  (1 <= n)%nat -> 0 <= f < 10 ^ Z.of_nat n -> (String.length (decimalString f) <= n)%nat.
Proof.
  intros Hn Hf. destruct (decimalString_digits f ltac:(lia)) as (_ & _ & _ & _ & Hb).
  destruct (Z.eq_dec f 0) as [->|Hne]; [exact Hn|].
  specialize (Hb ltac:(lia)).
  assert (Hlt : 10 ^ (Z.of_nat (String.length (decimalString f)) - 1) < 10 ^ Z.of_nat n) by lia.
  apply Z.pow_lt_mono_r_iff in Hlt; lia.
Qed.

(** [String(f).padStart(n, "0")] for [0 <= f < 10^n]: exactly [n] digits
    that denote [f]. *)
Lemma padStart_decimal n f :
  (1 <= n)%nat -> 0 <= f < 10 ^ Z.of_nat n ->
  String.length (padStart n (decimalString f)) = n
  /\ allDigits (padStart n (decimalString f)) = true
  /\ forall rest acc,
       digitsValue (padStart n (decimalString f) ++ rest) acc
       = digitsValue rest (acc * 10 ^ Z.of_nat n + f).
Proof.
  intros Hn Hf. pose proof (decimalString_short n f Hn Hf) as Hlen.
  destruct (decimalString_digits f ltac:(lia)) as (Hall & _ & Hval & _ & _).
  unfold padStart.
  destruct (zeros_shape (n - String.length (decimalString f))) as [Z1 [Z2 Z3]].
  split; [rewrite length_append, Z1; lia|].
  split; [rewrite allDigits_append, Z2, Hall; reflexivity|].
  intros rest acc. rewrite append_assoc, Z3, Hval. f_equal.
  rewrite <- Z.mul_assoc, <- Z.pow_add_r by lia. f_equal. f_equal. f_equal. lia.
Qed.

Lemma append_inj_length (a a' b b' : string) :
  String.length a = String.length a' -> (a ++ b)%string = (a' ++ b')%string -> a = a' /\ b = b'.
Proof.
  revert a'. induction a as [|c a IH]; intros [|c' a']; cbn; try discriminate.
  - intros _ E. split; [reflexivity|exact E].
  - intros [= Hl] [= -> E]. destruct (IH a' Hl E) as [-> ->]. split; reflexivity.
Qed.

Lemma padStart_decimal_inj n f f' rest rest' :
  (1 <= n)%nat -> 0 <= f < 10 ^ Z.of_nat n -> 0 <= f' < 10 ^ Z.of_nat n ->
  (padStart n (decimalString f) ++ rest)%string = (padStart n (decimalString f') ++ rest')%string ->
  f = f' /\ rest = rest'.
Proof.
  intros Hn Hf Hf' E.
  destruct (padStart_decimal n f Hn Hf) as [L1 [_ V1]].
  destruct (padStart_decimal n f' Hn Hf') as [L2 [_ V2]].
  destruct (append_inj_length _ _ _ _ (eq_trans L1 (eq_sym L2)) E) as [Ep Er].
  split; [|exact Er].
  pose proof (V1 "" 0) as H1. pose proof (V2 "" 0) as H2.
  rewrite Ep in H1. rewrite H1 in H2. cbn [digitsValue] in H2. lia.
Qed.

(** * Order numbers *)

Lemma DateFromTime_range t : 1 <= DateFromTime t <= 31.
Proof.
  destruct (MonthFromTime_cases t) as [Hm Hd]. cbv zeta in Hm, Hd.
  pose proof (daysInMonth_range (MonthFromTime t) (InLeapYear t) (InLeapYear_cases t) Hm) as Hr.
  unfold daysInMonth in Hr. unfold DateFromTime. lia.
Qed.

(** The seven fields of an order number. *)
Lemma orderNo_fields rt t r :
  UrlRoute.orderNo rt (Some t) r
  = (let lt := LocalTime rt t in
     decimalString (YearFromTime lt)
     ++ padStart 2 (decimalString (MonthFromTime lt + 1))
     ++ padStart 2 (decimalString (DateFromTime lt))
     ++ padStart 2 (decimalString (HourFromTime lt))
     ++ padStart 2 (decimalString (MinFromTime lt))
     ++ padStart 2 (decimalString (SecFromTime lt))
     ++ padStart 3 (decimalString r))%string.
Proof.
  unfold UrlRoute.orderNo. cbn [option_map stringOfInt]. cbv zeta.
  rewrite !append_assoc. reflexivity.
Qed.

Lemma year_is_padded y :
  1000 <= y <= 9999 -> decimalString y = padStart 4 (decimalString y).
Proof.
  intros Hy. destruct (decimalString_digits y ltac:(lia)) as (_ & _ & _ & _ & Hb).
  specialize (Hb ltac:(lia)).
  assert (Hlen : String.length (decimalString y) = 4%nat).
  { assert (H1 : 10 ^ 3 < 10 ^ Z.of_nat (String.length (decimalString y)))
      by (change (10 ^ 3) with 1000; lia).
    assert (H2 : 10 ^ (Z.of_nat (String.length (decimalString y)) - 1) < 10 ^ 4)
      by (change (10 ^ 4) with 10000; lia).
    apply Z.pow_lt_mono_r_iff in H1; [|lia|lia].
    apply Z.pow_lt_mono_r_iff in H2; lia. }
  unfold padStart. rewrite Hlen. reflexivity.
Qed.

Lemma clock_fields_range t :
  0 <= HourFromTime t < 24 /\ 0 <= MinFromTime t < 60 /\ 0 <= SecFromTime t < 60.
Proof.
  unfold HourFromTime, MinFromTime, SecFromTime.
  repeat split; apply Z.mod_pos_bound; lia.
Qed.

(** X15. An order number is seventeen decimal digits: for a clock reading
    whose local year has four digits (1000 to 9999) and a draw below 1000,
    the year, the month, day, hour, minute and second padded to two
    digits, and the draw padded to three. *)
Theorem order_number_is_seventeen_digits :
  forall rt t r,
    1000 <= YearFromTime (LocalTime rt t) <= 9999 ->
    0 <= r < 1000 ->
    String.length (UrlRoute.orderNo rt (Some t) r) = 17%nat
    /\ allDigits (UrlRoute.orderNo rt (Some t) r) = true
    /\ digitsValue (UrlRoute.orderNo rt (Some t) r) 0
       = let lt := LocalTime rt t in
         (((((YearFromTime lt * 100 + (MonthFromTime lt + 1)) * 100 + DateFromTime lt) * 100
            + HourFromTime lt) * 100 + MinFromTime lt) * 100 + SecFromTime lt) * 1000 + r.
Proof.
  intros rt t r Hy Hr. rewrite orderNo_fields. cbv zeta.
  set (lt := LocalTime rt t) in *.
  destruct (MonthFromTime_cases lt) as [Hm _]. cbv zeta in Hm.
  pose proof (DateFromTime_range lt) as Hd.
  destruct (clock_fields_range lt) as [Hh [Hmi Hs]].
  rewrite (year_is_padded _ Hy).
  destruct (padStart_decimal 4 (YearFromTime lt) ltac:(lia) ltac:(change (10 ^ Z.of_nat 4) with 10000; lia))
    as [L1 [A1 V1]].
  destruct (padStart_decimal 2 (MonthFromTime lt + 1) ltac:(lia) ltac:(change (10 ^ Z.of_nat 2) with 100; lia))
    as [L2 [A2 V2]].
  destruct (padStart_decimal 2 (DateFromTime lt) ltac:(lia) ltac:(change (10 ^ Z.of_nat 2) with 100; lia))
    as [L3 [A3 V3]].
  destruct (padStart_decimal 2 (HourFromTime lt) ltac:(lia) ltac:(change (10 ^ Z.of_nat 2) with 100; lia))
    as [L4 [A4 V4]].
  destruct (padStart_decimal 2 (MinFromTime lt) ltac:(lia) ltac:(change (10 ^ Z.of_nat 2) with 100; lia))
    as [L5 [A5 V5]].
  destruct (padStart_decimal 2 (SecFromTime lt) ltac:(lia) ltac:(change (10 ^ Z.of_nat 2) with 100; lia))
    as [L6 [A6 V6]].
  destruct (padStart_decimal 3 r ltac:(lia) ltac:(change (10 ^ Z.of_nat 3) with 1000; lia))
    as [L7 [A7 V7]].
  split; [|split].
  - rewrite !length_append, L1, L2, L3, L4, L5, L6, L7. reflexivity.
  - rewrite !allDigits_append, A1, A2, A3, A4, A5, A6, A7. reflexivity.
  - rewrite V1, V2, V3, V4, V5, V6.
    rewrite <- (append_nil_r (padStart 3 (decimalString r))), V7. cbn [digitsValue].
    change (10 ^ Z.of_nat 4) with 10000. change (10 ^ Z.of_nat 2) with 100.
    change (10 ^ Z.of_nat 3) with 1000. lia.
Qed.

Lemma order_number_is_seventeen_digits_witness :
  String.length (UrlRoute.orderNo nodeUTC (Some 1743465600000) 7) = 17%nat
  /\ allDigits (UrlRoute.orderNo nodeUTC (Some 1743465600000) 7) = true
  /\ digitsValue (UrlRoute.orderNo nodeUTC (Some 1743465600000) 7) 0 = 20250401000000007.
Proof.
  assert (Hy : 1000 <= YearFromTime (LocalTime nodeUTC 1743465600000) <= 9999)
    by (vm_compute; split; discriminate).
  assert (Hr : 0 <= 7 < 1000) by lia.
  destruct (order_number_is_seventeen_digits nodeUTC 1743465600000 7 Hy Hr) as [H1 [H2 H3]].
  split; [exact H1|]. split; [exact H2|]. rewrite H3. vm_compute. reflexivity.
Defined.

(** The second a time value falls in is determined by its six calendar
    and clock fields, and determines them. *)
Lemma second_of_fields t :
  t / 1000
  = ((Day t * 24 + HourFromTime t) * 60 + MinFromTime t) * 60 + SecFromTime t.
Proof.
  unfold Day, HourFromTime, MinFromTime, SecFromTime, msPerDay.
  replace (t / 86400000) with (t / 1000 / 86400) by (rewrite Z.div_div by lia; reflexivity).
  replace (t / 3600000) with (t / 1000 / 3600) by (rewrite Z.div_div by lia; reflexivity).
  replace (t / 60000) with (t / 1000 / 60) by (rewrite Z.div_div by lia; reflexivity).
  set (s := t / 1000). clearbody s. Z.to_euclidean_division_equations. lia.
Qed.

Lemma day_of_fields t :
  Day t = DayFromYear (YearFromTime t)
          + monthStart (MonthFromTime t) (DaysInYear (YearFromTime t) - 365)
          + DateFromTime t - 1.
Proof. rewrite (Day_split t). unfold DateFromTime, InLeapYear. lia. Qed.

Lemma fields_of_second t t' :
  t / 1000 = t' / 1000 ->
  YearFromTime t = YearFromTime t' /\ MonthFromTime t = MonthFromTime t'
  /\ DateFromTime t = DateFromTime t' /\ HourFromTime t = HourFromTime t'
  /\ MinFromTime t = MinFromTime t' /\ SecFromTime t = SecFromTime t'.
Proof.
  intros E.
  assert (Hd : Day t = Day t').
  { unfold Day, msPerDay.
    replace (t / 86400000) with (t / 1000 / 86400) by (rewrite Z.div_div by lia; reflexivity).
    replace (t' / 86400000) with (t' / 1000 / 86400) by (rewrite Z.div_div by lia; reflexivity).
    rewrite E. reflexivity. }
  assert (Hy : YearFromTime t = YearFromTime t') by (unfold YearFromTime; rewrite Hd; reflexivity).
  assert (Hw : DayWithinYear t = DayWithinYear t') by (unfold DayWithinYear; rewrite Hd, Hy; reflexivity).
  assert (Hl : InLeapYear t = InLeapYear t') by (unfold InLeapYear; rewrite Hy; reflexivity).
  assert (Hm : MonthFromTime t = MonthFromTime t') by (unfold MonthFromTime; rewrite Hw, Hl; reflexivity).
  split; [exact Hy|]. split; [exact Hm|].
  split; [unfold DateFromTime; rewrite Hw, Hm, Hl; reflexivity|].
  unfold HourFromTime, MinFromTime, SecFromTime.
  replace (t / 3600000) with (t / 1000 / 3600) by (rewrite Z.div_div by lia; reflexivity).
  replace (t' / 3600000) with (t' / 1000 / 3600) by (rewrite Z.div_div by lia; reflexivity).
  replace (t / 60000) with (t / 1000 / 60) by (rewrite Z.div_div by lia; reflexivity).
  replace (t' / 60000) with (t' / 1000 / 60) by (rewrite Z.div_div by lia; reflexivity).
  rewrite E. repeat split.
Qed.

(** X16. Two order numbers coincide exactly when they are generated in
    the same second of local time with the same draw (local years of four
    digits, draws below 1000): the number identifies the second and the
    draw, and nothing else distinguishes two orders. *)
Theorem order_numbers_collide_iff_same_second_and_draw :
  forall rt t1 t2 r1 r2,
    1000 <= YearFromTime (LocalTime rt t1) <= 9999 ->
    1000 <= YearFromTime (LocalTime rt t2) <= 9999 ->
    0 <= r1 < 1000 -> 0 <= r2 < 1000 ->
    (UrlRoute.orderNo rt (Some t1) r1 = UrlRoute.orderNo rt (Some t2) r2
     <-> LocalTime rt t1 / 1000 = LocalTime rt t2 / 1000 /\ r1 = r2).
Proof.
  intros rt t1 t2 r1 r2 Hy1 Hy2 Hr1 Hr2. rewrite !orderNo_fields. cbv zeta.
  set (a := LocalTime rt t1) in *. set (b := LocalTime rt t2) in *. clearbody a b.
  split.
  - intros E.
    destruct (MonthFromTime_cases a) as [Hma _]. destruct (MonthFromTime_cases b) as [Hmb _].
    cbv zeta in Hma, Hmb.
    pose proof (DateFromTime_range a) as Hda. pose proof (DateFromTime_range b) as Hdb.
    destruct (clock_fields_range a) as [Hha [Hmia Hsa]].
    destruct (clock_fields_range b) as [Hhb [Hmib Hsb]].
    rewrite (year_is_padded _ Hy1), (year_is_padded _ Hy2) in E.
    apply padStart_decimal_inj in E; [|lia|change (10 ^ Z.of_nat 4) with 10000; lia..].
    destruct E as [Ey E].
    apply padStart_decimal_inj in E; [|lia|change (10 ^ Z.of_nat 2) with 100; lia..].
    destruct E as [Emo E].
    apply padStart_decimal_inj in E; [|lia|change (10 ^ Z.of_nat 2) with 100; lia..].
    destruct E as [Ed E].
    apply padStart_decimal_inj in E; [|lia|change (10 ^ Z.of_nat 2) with 100; lia..].
    destruct E as [Eh E].
    apply padStart_decimal_inj in E; [|lia|change (10 ^ Z.of_nat 2) with 100; lia..].
    destruct E as [Emi E].
    apply padStart_decimal_inj in E; [|lia|change (10 ^ Z.of_nat 2) with 100; lia..].
    destruct E as [Es E].
    rewrite <- (append_nil_r (padStart 3 (decimalString r1))),
            <- (append_nil_r (padStart 3 (decimalString r2))) in E.
    apply padStart_decimal_inj in E; [|lia|change (10 ^ Z.of_nat 3) with 1000; lia..].
    destruct E as [Er _].
    split; [|exact Er].
    rewrite (second_of_fields a), (second_of_fields b), (day_of_fields a), (day_of_fields b).
    assert (Em : MonthFromTime a = MonthFromTime b) by lia.
    rewrite Ey, Em, Ed, Eh, Emi, Es. reflexivity.
  - intros [E ->].
    destruct (fields_of_second a b E) as (-> & -> & -> & -> & -> & ->). reflexivity.
Qed.

(** 2025-04-01T00:00:00.000Z and 2025-04-01T00:00:00.999Z with the draw
    123: the same order number. *)
Lemma order_numbers_collide_iff_same_second_and_draw_witness :
  UrlRoute.orderNo nodeUTC (Some 1743465600000) 123
  = UrlRoute.orderNo nodeUTC (Some 1743465600999) 123.
Proof.
  assert (Hy1 : 1000 <= YearFromTime (LocalTime nodeUTC 1743465600000) <= 9999)
    by (vm_compute; split; discriminate).
  assert (Hy2 : 1000 <= YearFromTime (LocalTime nodeUTC 1743465600999) <= 9999)
    by (vm_compute; split; discriminate).
  assert (Hr : 0 <= 123 < 1000) by lia.
  apply (proj2 (order_numbers_collide_iff_same_second_and_draw nodeUTC
                  1743465600000 1743465600999 123 123 Hy1 Hy2 Hr Hr)).
  split; reflexivity.
Defined.

(** * An order from issuance to payment *)

Lemma padStart_length n s : (n <= String.length (padStart n s))%nat.
Proof.
  unfold padStart. rewrite length_append.
  destruct (zeros_shape (n - String.length s)) as [-> _]. lia.
Qed.

Lemma orderNo_nonempty rt now r : UrlRoute.orderNo rt now r <> "".
Proof.
  unfold UrlRoute.orderNo. cbv zeta. intros E.
  apply (f_equal String.length) in E. rewrite length_append in E.
  pose proof (padStart_length 3 (decimalString r)). cbn [String.length] in E. lia.
Qed.

Lemma filter_none {A} (p : A -> bool) l :
  (forall x, In x l -> p x = false) -> filter p l = [].
Proof.
  induction l as [|x l IH]; intros H; [reflexivity|]. cbn.
  rewrite (H x (or_introl eq_refl)). apply IH. intros y Hy. apply H. right. exact Hy.
Qed.

(** The table right after an insert under a free order number. *)
Lemma select_inserted no db row :
  (forall r, In r db -> out_trade_no r <> no) -> out_trade_no row = no ->
  dbSelectByOutTradeNo no (db ++ [row]) = Some row.
Proof.
  intros Hfree Hno. unfold dbSelectByOutTradeNo. rewrite filter_app, filter_none.
  - cbn. rewrite Hno, String.eqb_refl. reflexivity.
  - intros r Hr. apply String.eqb_neq. apply Hfree. exact Hr.
Qed.

Lemma selectOwnPending_inserted no db row :
  (forall r, In r db -> out_trade_no r <> no) -> out_trade_no row = no ->
  status row = "pending" ->
  forall caller,
    dbSelectOwnPending caller no (db ++ [row])
    = if String.eqb (user_id row) caller then Some row else None.
Proof.
  intros Hfree Hno Hs caller. unfold dbSelectOwnPending. rewrite filter_app, filter_none.
  - cbn. rewrite Hno, Hs, !String.eqb_refl.
    destruct (String.eqb (user_id row) caller); reflexivity.
  - intros r Hr. assert (E : String.eqb (out_trade_no r) no = false)
      by (apply String.eqb_neq, Hfree, Hr).
    rewrite E. destruct (String.eqb (user_id r) caller); reflexivity.
Qed.

Lemma update_inserted data no db row :
  (forall r, In r db -> out_trade_no r <> no) -> out_trade_no row = no ->
  status row = "pending" ->
  fst (dbUpdate data no "pending" (db ++ [row])) = db ++ [applyUpdate data row].
Proof.
  intros Hfree Hno Hs. unfold dbUpdate. cbn [fst]. rewrite map_app. f_equal.
  - rewrite <- (map_id db) at 2. apply map_ext_in. intros r Hr.
    unfold updateMatches.
    assert (E : String.eqb (out_trade_no r) no = false) by (apply String.eqb_neq, Hfree, Hr).
    rewrite E. reflexivity.
  - cbn. unfold updateMatches. rewrite Hno, Hs, !String.eqb_refl. reflexivity.
Qed.

(** X17. Issuing an order and then regenerating its link.  After a
    successful issuance, a regeneration request of the same caller for
    the issued number is answered with a link built from the stored row:
    it agrees with the issued link in every signed parameter except
    possibly [money], which is now the rendering of the stored amount
    (9.9 for a catalog price written 9.90); when the catalog price is
    written as that rendering, the two links are the same string.  Any
    other caller gets the 404 of an unknown order. *)
Theorem regenerated_link_matches_the_issued_order :
  forall rt env products o w uid b product pid key baseUrl m,
    String.eqb (payTypeOf b) "alipay" || String.eqb (payTypeOf b) "wxpay" = true ->
    products (productIdOf b) = Some product ->
    truthy (ZPAY_PID env) = Some pid ->
    truthy (ZPAY_KEY env) = Some key ->
    truthy (NEXT_PUBLIC_BASE_URL env) = Some baseUrl ->
    numericOfPrice (Product.price product) = Some m ->
    let no := UrlRoute.orderNo rt (TimeClip (clock o (ticks w))) (random o (draws w) mod 1000) in
    (forall row, In row (ledger w) -> out_trade_no row <> no) ->
    let issued := issuerParams pid baseUrl product (payTypeOf b) no in
    let row := issuedRow uid b product no m (clock o (S (ticks w))) in
    let regenerated := repayParams pid baseUrl row in
    exists w1 log1,
      exec o (UrlRoute.POST rt env products (Some uid) (Some b)) w
      = (mkResponse (JsonUrl (paymentUrl rt key issued)) 200, w1, log1)
      /\ ledger w1 = ledger w ++ [row]
      /\ exec o (RepayRoute.POST rt env (Some uid) (Some (RepayRoute.mkBody (Some no)))) w1
         = (mkResponse (JsonUrl (paymentUrl rt key regenerated)) 200, w1,
            [EvSelectOwnPending uid no (Some row)])
      /\ map fst regenerated = map fst issued
      /\ (forall k, k <> "money" -> get regenerated k = get issued k)
      /\ get regenerated "money" = Some (stringOfNumeric m)
      /\ (stringOfNumeric m = Product.price product ->
          paymentUrl rt key regenerated = paymentUrl rt key issued)
      /\ (forall other, other <> uid ->
          exec o (RepayRoute.POST rt env (Some other) (Some (RepayRoute.mkBody (Some no)))) w1
          = (mkResponse (JsonError "订单不存在或已支付") 404, w1,
             [EvSelectOwnPending other no None])).
Proof.
  intros rt env products o w uid b product pid key baseUrl m Hpay Hprod Hpid Hkey Hbase Hm
         no Hfree issued row regenerated.
  rewrite (exec_issuer o rt env products uid b w product pid key baseUrl Hpay Hprod Hpid Hkey Hbase).
  cbv zeta. fold no. rewrite (dbInsert_free _ _ _ m); [|exact Hm|exact Hfree].
  cbn [ins_user_id ins_product_id ins_name ins_out_trade_no ins_type ins_status
       ins_is_subscription ins_subscription_period].
  fold row. do 2 eexists. split; [reflexivity|].
  cbn [tick withLedger draw ledger ticks draws]. split; [reflexivity|].
  assert (Htr : truthy (Some no) = Some no).
  { destruct no eqn:E; [|reflexivity]. exfalso. exact (orderNo_nonempty _ _ _ E). }
  assert (Hrepay : forall caller,
            exec o (RepayRoute.POST rt env (Some caller) (Some (RepayRoute.mkBody (Some no))))
                 (mkWorld (ledger w ++ [row]) (S (S (ticks w))) (S (draws w)))
            = if String.eqb uid caller
              then (mkResponse (JsonUrl (paymentUrl rt key regenerated)) 200,
                    mkWorld (ledger w ++ [row]) (S (S (ticks w))) (S (draws w)),
                    [EvSelectOwnPending caller no (Some row)])
              else (mkResponse (JsonError "订单不存在或已支付") 404,
                    mkWorld (ledger w ++ [row]) (S (S (ticks w))) (S (draws w)),
                    [EvSelectOwnPending caller no None])).
  { intros caller. unfold RepayRoute.POST. cbn [RepayRoute.outTradeNo]. rewrite Htr.
    cbn [exec ledger].
    rewrite (selectOwnPending_inserted no (ledger w) row Hfree eq_refl eq_refl caller).
    cbn [user_id row issuedRow].
    destruct (String.eqb uid caller); [|reflexivity].
    rewrite Hpid, Hkey, Hbase. reflexivity. }
  split; [rewrite Hrepay, String.eqb_refl; reflexivity|].
  split; [reflexivity|].
  split.
  { intros k Hk. unfold regenerated, issued, repayParams, issuerParams. cbn [get].
    destruct (String.eqb "pid" k); [reflexivity|].
    destruct (String.eqb "money" k) eqn:E; [apply String.eqb_eq in E; congruence|].
    reflexivity. }
  split; [reflexivity|].
  split.
  { intros E. unfold regenerated, issued, repayParams, issuerParams.
    cbn [money row issuedRow name out_trade_no type]. rewrite E. reflexivity. }
  intros other Hother. rewrite Hrepay.
  apply String.eqb_neq in Hother. rewrite String.eqb_sym, Hother. reflexivity.
Qed.

Lemma regenerated_link_matches_the_issued_order_witness :
  exists w1 log1,
    exec sampleOracle (UrlRoute.POST nodeUTC sampleEnv sampleCatalog (Some "u1") (Some sampleBody))
         (mkWorld [paidOrder] 0 0)
    = (mkResponse
         (JsonUrl (paymentUrl nodeUTC "secret"
                     (issuerParams "1001" "https://shop.example"
                                   (Product.mk "Pro" "9.9" true (Some "monthly"))
                                   "alipay" "20250401000000123")))
         200, w1, log1)
    /\ fst (fst (exec sampleOracle
                      (RepayRoute.POST nodeUTC sampleEnv (Some "u1")
                         (Some (RepayRoute.mkBody (Some "20250401000000123")))) w1))
       = mkResponse
           (JsonUrl (paymentUrl nodeUTC "secret"
                       (issuerParams "1001" "https://shop.example"
                                     (Product.mk "Pro" "9.9" true (Some "monthly"))
                                     "alipay" "20250401000000123")))
           200.
Proof.
  destruct (regenerated_link_matches_the_issued_order nodeUTC sampleEnv sampleCatalog sampleOracle
              (mkWorld [paidOrder] 0 0) "u1" sampleBody (Product.mk "Pro" "9.9" true (Some "monthly"))
              "1001" "secret" "https://shop.example" 990
              eq_refl eq_refl eq_refl eq_refl eq_refl eq_refl)
    as (w1 & log1 & E1 & _ & E2 & _ & _ & _ & Hsame & _).
  - intros row [<-|[]]. vm_compute. discriminate.
  - exists w1, log1. split; [exact E1|].
    rewrite (Hsame eq_refl) in E2.
    exact (f_equal (fun x => fst (fst x)) E2).
Defined.

Lemma ordinaryTimes_inserted o db row :
  ordinaryTimes o db -> subscription_end_date row = None -> ordinaryTimes o (db ++ [row]).
Proof.
  intros [Hc Hl] Hrow. split; [exact Hc|].
  intros r e Hr He. apply in_app_or in Hr. destruct Hr as [Hr|[<-|[]]].
  - eapply Hl; eassumption.
  - congruence.
Qed.

(** X18. Issuing an order and then receiving its success notification.
    After a successful issuance, a verified success notification that
    names the issued number and carries an acceptable amount is answered
    [success] and leaves the table as it was before the issuance plus one
    row: the issued order, now paid, with the trade number of the
    notification and otherwise the identity it was issued with. *)
Theorem issued_order_is_paid_by_its_notification :
  forall rt env products o w uid b product pid key baseUrl m sp,
    String.eqb (payTypeOf b) "alipay" || String.eqb (payTypeOf b) "wxpay" = true ->
    products (productIdOf b) = Some product ->
    truthy (ZPAY_PID env) = Some pid ->
    truthy (ZPAY_KEY env) = Some key ->
    truthy (NEXT_PUBLIC_BASE_URL env) = Some baseUrl ->
    numericOfPrice (Product.price product) = Some m ->
    let no := UrlRoute.orderNo rt (TimeClip (clock o (ticks w))) (random o (draws w) mod 1000) in
    (forall row, In row (ledger w) -> out_trade_no row <> no) ->
    verifiedSuccess rt env sp ->
    orEmpty (get sp "out_trade_no") = no ->
    WebhookRoute.amountMismatch (parseFloat (orEmpty (get sp "money"))) (numberOfNumeric m) = false ->
    ordinaryTimes o (ledger w) ->
    let row := issuedRow uid b product no m (clock o (S (ticks w))) in
    exists url w1 log1 w2 log2 paid,
      exec o (UrlRoute.POST rt env products (Some uid) (Some b)) w
      = (mkResponse (JsonUrl url) 200, w1, log1)
      /\ ledger w1 = ledger w ++ [row]
      /\ exec o (WebhookRoute.GET rt env sp) w1 = (WebhookRoute.success, w2, log2)
      /\ ledger w2 = ledger w ++ [paid]
      /\ status paid = "paid"
      /\ trade_no paid = Some (orEmpty (get sp "trade_no"))
      /\ sameOrder row paid.
Proof.
  intros rt env products o w uid b product pid key baseUrl m sp Hpay Hprod Hpid Hkey Hbase Hm
         no Hfree Hv Hno Hamount Ho row.
  rewrite (exec_issuer o rt env products uid b w product pid key baseUrl Hpay Hprod Hpid Hkey Hbase).
  cbv zeta. fold no. rewrite (dbInsert_free _ _ _ m); [|exact Hm|exact Hfree].
  cbn [ins_user_id ins_product_id ins_name ins_out_trade_no ins_type ins_status
       ins_is_subscription ins_subscription_period].
  fold row. cbn [tick withLedger draw ledger ticks draws].
  set (w1 := mkWorld (ledger w ++ [row]) (S (S (ticks w))) (S (draws w))).
  assert (Hsel : dbSelectByOutTradeNo (orEmpty (get sp "out_trade_no")) (ledger w1) = Some row).
  { rewrite Hno. apply select_inserted; [exact Hfree|reflexivity]. }
  assert (Ho1 : ordinaryTimes o (ledger w1)) by (apply ordinaryTimes_inserted; [exact Ho|reflexivity]).
  destruct (webhook_pays rt env o sp w1 row Hv Hsel eq_refl Hamount Ho1)
    as (w2 & pre & E & _ & Hl & _).
  cbv zeta in E, Hl.
  set (data := settledData rt o w1 (orEmpty (get sp "trade_no")) row) in *.
  exists (paymentUrl rt key (issuerParams pid baseUrl product (payTypeOf b) no)), w1.
  eexists. exists w2. eexists. exists (applyUpdate data row).
  split; [reflexivity|]. split; [reflexivity|]. split; [exact E|].
  split.
  { rewrite Hl, Hno. apply update_inserted; [exact Hfree|reflexivity|reflexivity]. }
  split; [reflexivity|]. split; [reflexivity|]. apply sameOrder_applyUpdate.
Qed.

Lemma issued_order_is_paid_by_its_notification_witness :
  exists url w1 log1 w2 log2 paid,
    exec sampleOracle (UrlRoute.POST nodeUTC sampleEnv sampleCatalog (Some "u1") (Some sampleBody))
         (mkWorld [] 0 0)
    = (mkResponse (JsonUrl url) 200, w1, log1)
    /\ exec sampleOracle (WebhookRoute.GET nodeUTC sampleEnv issuedNotification) w1
       = (WebhookRoute.success, w2, log2)
    /\ ledger w2 = [paid]
    /\ status paid = "paid"
    /\ trade_no paid = Some "T9".
Proof.
  destruct (issued_order_is_paid_by_its_notification nodeUTC sampleEnv sampleCatalog sampleOracle
              (mkWorld [] 0 0) "u1" sampleBody (Product.mk "Pro" "9.9" true (Some "monthly"))
              "1001" "secret" "https://shop.example" 990 issuedNotification
              eq_refl eq_refl eq_refl eq_refl eq_refl eq_refl)
    as (url & w1 & log1 & w2 & log2 & paid & E1 & _ & E2 & Hl & Hs & Ht & _).
  - intros row [].
  - exists "secret". repeat split; vm_compute; reflexivity.
  - vm_compute. reflexivity.
  - vm_compute. reflexivity.
  - split.
    + intros n. unfold ordinaryTime, sampleOracle. cbn [clock]. lia.
    + intros r e [].
  - exists url, w1, log1, w2, log2, paid.
    split; [exact E1|]. split; [exact E2|]. split; [exact Hl|]. split; [exact Hs|exact Ht].
Defined.

(** * Query strings *)

Ltac each_byte c :=
  destruct c as [[|] [|] [|] [|] [|] [|] [|] [|]].

Lemma formEncodeByte_shape c :
  without "&" (formEncodeByte c) = true
  /\ without "=" (formEncodeByte c) = true
  /\ forallb isQueryChar (list_ascii_of_string (formEncodeByte c)) = true
  /\ isEmpty (formEncodeByte c) = false.
Proof. each_byte c; vm_compute; repeat split. Qed.

Lemma formDecode_byte c rest :
  formDecode (formEncodeByte c ++ rest) = String c (formDecode rest).
Proof. each_byte c; reflexivity. Qed.

Lemma without_append sep a b : without sep (a ++ b) = without sep a && without sep b.
Proof. unfold without. rewrite list_ascii_of_append, forallb_app. reflexivity. Qed.

Lemma formEncode_cons c s :
  formEncode (String c s) = (formEncodeByte c ++ formEncode s)%string.
Proof. unfold formEncode. cbn [list_ascii_of_string map]. apply concat_empty_cons. Qed.

Lemma formEncode_shape s :
  without "&" (formEncode s) = true
  /\ without "=" (formEncode s) = true
  /\ forallb isQueryChar (list_ascii_of_string (formEncode s)) = true.
Proof.
  induction s as [|c s [IH1 [IH2 IH3]]]; [repeat split|].
  rewrite formEncode_cons, !without_append, list_ascii_of_append, forallb_app.
  destruct (formEncodeByte_shape c) as [H1 [H2 [H3 _]]].
  rewrite H1, H2, H3, IH1, IH2, IH3. repeat split.
Qed.

Lemma formDecode_formEncode s : formDecode (formEncode s) = s.
Proof.
  induction s as [|c s IH]; [reflexivity|].
  rewrite formEncode_cons, formDecode_byte, IH. reflexivity.
Qed.

Lemma splitPair_joined k v :
  without "=" k = true -> splitPair (k ++ "=" ++ v) = (k, v).
Proof.
  induction k as [|c k IH]; intros H; [reflexivity|].
  unfold without in H. cbn [list_ascii_of_string forallb] in H.
  apply andb_prop in H. destruct H as [Hc Hk].
  cbn [append splitPair]. apply negb_true_iff in Hc. rewrite Hc.
  change ("=" ++ v)%string with (String "=" v) in IH. rewrite (IH Hk). reflexivity.
Qed.

Lemma splitOn_nonempty sep s : splitOn sep s <> [].
Proof.
  destruct s as [|c s]; cbn; [discriminate|].
  destruct (Ascii.eqb c sep); [discriminate|]. destruct (splitOn sep s); discriminate.
Qed.

Lemma splitOn_whole sep s : without sep s = true -> splitOn sep s = [s].
Proof.
  induction s as [|c s IH]; intros H; [reflexivity|].
  unfold without in H. cbn [list_ascii_of_string forallb] in H.
  apply andb_prop in H. destruct H as [Hc Hs].
  cbn [splitOn]. apply negb_true_iff in Hc. rewrite Hc, (IH Hs). reflexivity.
Qed.

Lemma splitOn_joined sep s rest :
  without sep s = true ->
  splitOn sep (s ++ String sep rest) = s :: splitOn sep rest.
Proof.
  induction s as [|c s IH]; intros H.
  - cbn [append splitOn]. rewrite Ascii.eqb_refl. reflexivity.
  - unfold without in H. cbn [list_ascii_of_string forallb] in H.
    apply andb_prop in H. destruct H as [Hc Hs].
    cbn [append splitOn]. apply negb_true_iff in Hc. rewrite Hc, (IH Hs). reflexivity.
Qed.

Lemma splitOn_concat sep pieces :
  pieces <> [] -> Forall (fun s => without sep s = true) pieces ->
  splitOn sep (String.concat (String sep EmptyString) pieces) = pieces.
Proof.
  induction pieces as [|x [|y pieces] IH]; intros Hne Hall; [contradiction| |].
  - cbn [String.concat]. inversion Hall; subst. apply splitOn_whole. assumption.
  - inversion Hall as [|? ? Hx Hrest]; subst.
    change (String.concat (String sep "") (x :: y :: pieces))
      with (x ++ String sep (String.concat (String sep "") (y :: pieces)))%string.
    rewrite splitOn_joined by exact Hx. f_equal. apply IH; [discriminate|exact Hrest].
Qed.

Lemma pair_shape kv :
  without "&" (formEncode (fst kv) ++ "=" ++ formEncode (snd kv)) = true
  /\ isEmpty (formEncode (fst kv) ++ "=" ++ formEncode (snd kv)) = false
  /\ forallb isQueryChar
       (list_ascii_of_string (formEncode (fst kv) ++ "=" ++ formEncode (snd kv))) = true.
Proof.
  destruct (formEncode_shape (fst kv)) as [H1 [_ H3]].
  destruct (formEncode_shape (snd kv)) as [H1' [_ H3']].
  rewrite !without_append, !list_ascii_of_append, !forallb_app, H1, H1', H3, H3'.
  split; [reflexivity|]. split; [|reflexivity].
  destruct (formEncode (fst kv)); reflexivity.
Qed.

Lemma concat_chars sep pieces :
  forallb isQueryChar (list_ascii_of_string sep) = true ->
  Forall (fun s => forallb isQueryChar (list_ascii_of_string s) = true) pieces ->
  forallb isQueryChar (list_ascii_of_string (String.concat sep pieces)) = true.
Proof.
  intros Hsep. induction pieces as [|x [|y pieces] IH]; intros Hall; [reflexivity| |].
  - inversion Hall; subst. assumption.
  - inversion Hall as [|? ? Hx Hrest]; subst.
    change (String.concat sep (x :: y :: pieces))
      with (x ++ sep ++ String.concat sep (y :: pieces))%string.
    rewrite !list_ascii_of_append, !forallb_app, Hx, Hsep, (IH Hrest). reflexivity.
Qed.

Lemma read_pieces (l : URLSearchParams) :
  map (fun piece => let '(k, v) := splitPair piece in (formDecode k, formDecode v))
      (filter (fun piece => negb (isEmpty piece))
              (map (fun kv => (formEncode (fst kv) ++ "=" ++ formEncode (snd kv))%string) l))
  = l.
Proof.
  induction l as [|[k v] l IH]; [reflexivity|].
  cbn [map filter]. destruct (pair_shape (k, v)) as [_ [-> _]]. cbn [negb map fst snd].
  rewrite IH, splitPair_joined by apply formEncode_shape.
  rewrite !formDecode_formEncode. reflexivity.
Qed.

(** X19. A query string reads back as the parameters it was written
    from: whatever the names and values are (spaces, [&], [=], [%], [+],
    non-ASCII text), parsing the serialized parameters gives the same
    names and values in the same order; and the serialized string consists
    of letters, digits and the characters [* - . _ + % & =] only. *)
Theorem query_string_round_trip :
  forall sp : URLSearchParams,
    parseQuery (urlParamsToString sp) = sp
    /\ forallb isQueryChar (list_ascii_of_string (urlParamsToString sp)) = true.
Proof.
  intros sp. unfold urlParamsToString.
  set (enc := fun kv : string * string => (formEncode (fst kv) ++ "=" ++ formEncode (snd kv))%string).
  assert (Hall : Forall (fun s => without "&" s = true) (map enc sp)).
  { apply Forall_forall. intros s Hs. apply in_map_iff in Hs. destruct Hs as [kv [<- _]].
    apply pair_shape. }
  split.
  - unfold parseQuery. destruct sp as [|kv sp]; [reflexivity|].
    rewrite splitOn_concat; [|discriminate|exact Hall].
    apply read_pieces.
  - apply concat_chars; [reflexivity|].
    apply Forall_forall. intros s Hs. apply in_map_iff in Hs. destruct Hs as [kv [<- _]].
    apply pair_shape.
Qed.

(** * Amounts as text *)

Lemma decimalString_length z n :
  (1 <= n)%nat -> 10 ^ (Z.of_nat n - 1) <= z < 10 ^ Z.of_nat n ->
  String.length (decimalString z) = n.
Proof.
  intros Hn Hz.
  assert (Hpos : 0 < z).
  { pose proof (Z.pow_pos_nonneg 10 (Z.of_nat n - 1) ltac:(lia) ltac:(lia)). lia. }
  destruct (decimalString_digits z ltac:(lia)) as (_ & Hl & _ & _ & Hb).
  specialize (Hb Hpos).
  assert (H1 : 10 ^ (Z.of_nat (String.length (decimalString z)) - 1) < 10 ^ Z.of_nat n) by lia.
  assert (H2 : 10 ^ (Z.of_nat n - 1) < 10 ^ Z.of_nat (String.length (decimalString z))) by lia.
  apply Z.pow_lt_mono_r_iff in H1; [|lia|lia].
  apply Z.pow_lt_mono_r_iff in H2; lia.
Qed.

Lemma takeDigits_all fs rest : forall acc n,
  allDigits fs = true ->
  takeDigits (fs ++ rest) acc n
  = takeDigits rest (digitsValue fs acc) (n + Z.of_nat (String.length fs)).
Proof.
  induction fs as [|c fs IH]; intros acc n H.
  - cbn. f_equal. lia.
  - unfold allDigits in H. cbn [list_ascii_of_string forallb] in H.
    apply andb_prop in H. destruct H as [Hc Hfs].
    cbn [append takeDigits digitsValue String.length]. rewrite Hc, (IH _ _ Hfs).
    f_equal. lia.
Qed.

Lemma digitsValue_decimal z :
  0 <= z -> digitsValue (decimalString z) 0 = z.
Proof.
  intros Hz. destruct (decimalString_digits z Hz) as (_ & _ & Hv & _ & _).
  rewrite <- (append_nil_r (decimalString z)), Hv. cbn [digitsValue]. lia.
Qed.

Lemma starts_with_digit s :
  allDigits s = true -> (1 <= String.length s)%nat ->
  exists c rest, s = String c rest /\ isDigit c = true.
Proof.
  destruct s as [|c rest]; cbn; [lia|]. intros H _.
  unfold allDigits in H. cbn in H. apply andb_prop in H. exists c, rest. tauto.
Qed.

Lemma whiteSpaceAt_number c rest :
  isDigit c || Ascii.eqb c "-" = true -> whiteSpaceAt (String c rest) = None.
Proof.
  each_byte c; intros H; try (vm_compute in H; discriminate H);
    destruct rest as [|c1 [|c2 rest2]]; reflexivity.
Qed.

Lemma trimStart_number c rest :
  isDigit c || Ascii.eqb c "-" = true ->
  trimStart (String.length (String c rest)) (String c rest) = String c rest.
Proof. intros H. cbn [String.length trimStart]. rewrite (whiteSpaceAt_number _ _ H). reflexivity. Qed.

Lemma takeSign_digit c rest :
  isDigit c = true -> takeSign (String c rest) = (false, String c rest).
Proof. each_byte c; intros H; try (vm_compute in H; discriminate H); reflexivity. Qed.

Lemma not_Infinity c rest : isDigit c = true -> startsWith "Infinity" (String c rest) = false.
Proof. each_byte c; intros H; try (vm_compute in H; discriminate H); reflexivity. Qed.

(** The sign dropped, a string that starts with a digit is read from its
    digits on. *)
Lemma readLiteral_signed (neg : bool) c rest :
  isDigit c = true ->
  readLiteral ((if neg then "-" else "") ++ String c rest)
  = let '(ip, ni, s2) := takeDigits (String c rest) 0 0 in
    match s2 with
    | String "." s3 =>
        let '(fp, nf, s4) := takeDigits s3 0 0 in
        if (ni =? 0) && (nf =? 0) then LitNaN
        else LitDecimal neg (ip * 10 ^ nf + fp) (takeExponent s4 - nf)
    | _ =>
        if ni =? 0 then LitNaN
        else LitDecimal neg ip (takeExponent s2)
    end.
Proof.
  intros Hc. unfold readLiteral. destruct neg.
  - change ("-" ++ String c rest)%string with (String "-" (String c rest)).
    rewrite trimStart_number by reflexivity.
    cbn [takeSign]. rewrite (not_Infinity _ _ Hc). reflexivity.
  - change ("" ++ String c rest)%string with (String c rest).
    rewrite trimStart_number by (rewrite Hc; reflexivity).
    rewrite (takeSign_digit _ _ Hc), (not_Infinity _ _ Hc). reflexivity.
Qed.

(** A whole number, and a number with a fraction, as [readLiteral] reads
    them. *)
Lemma readLiteral_whole (neg : bool) ip :
  allDigits ip = true -> (1 <= String.length ip)%nat ->
  readLiteral ((if neg then "-" else "") ++ ip) = LitDecimal neg (digitsValue ip 0) 0.
Proof.
  intros Ha Hl. destruct (starts_with_digit ip Ha Hl) as [c [rest [E Hc]]].
  rewrite E, (readLiteral_signed _ _ _ Hc), <- E.
  pose proof (takeDigits_all ip "" 0 0 Ha) as T. rewrite append_nil_r in T.
  cbn [takeDigits] in T. rewrite T.
  destruct (0 + Z.of_nat (String.length ip) =? 0) eqn:E0; [apply Z.eqb_eq in E0; lia|].
  reflexivity.
Qed.

Lemma readLiteral_fraction (neg : bool) ip fs :
  allDigits ip = true -> (1 <= String.length ip)%nat ->
  allDigits fs = true -> (1 <= String.length fs)%nat ->
  readLiteral ((if neg then "-" else "") ++ ip ++ "." ++ fs)
  = LitDecimal neg (digitsValue ip 0 * 10 ^ Z.of_nat (String.length fs) + digitsValue fs 0)
               (- Z.of_nat (String.length fs)).
Proof.
  intros Ha Hl Hfa Hfl. destruct (starts_with_digit ip Ha Hl) as [c [rest [E Hc]]].
  assert (E' : (ip ++ "." ++ fs)%string = String c (rest ++ "." ++ fs)) by (rewrite E; reflexivity).
  rewrite E', (readLiteral_signed _ _ _ Hc), <- E'.
  rewrite (takeDigits_all ip _ 0 0 Ha).
  change ("." ++ fs)%string with (String "." fs). cbn [takeDigits].
  change (isDigit ".") with false. cbv iota.
  pose proof (takeDigits_all fs "" 0 0 Hfa) as T. rewrite append_nil_r in T.
  cbn [takeDigits] in T. rewrite T.
  destruct (0 + Z.of_nat (String.length ip) =? 0) eqn:E0; [apply Z.eqb_eq in E0; lia|].
  cbn [andb]. change (takeExponent "") with 0. f_equal; lia.
Qed.

Lemma stringOfNumeric_eq c :
  stringOfNumeric c
  = ((if (c <? 0)%Z then "-" else "")
     ++ decimalString (Z.abs c / 100)%Z
     ++ (if (Z.abs c mod 100 =? 0)%Z then ""
         else if ((Z.abs c mod 100) mod 10 =? 0)%Z
              then "." ++ decimalString (Z.abs c mod 100 / 10)%Z
         else if (Z.abs c mod 100 <? 10)%Z then ".0" ++ decimalString (Z.abs c mod 100)%Z
         else "." ++ decimalString (Z.abs c mod 100)%Z))%string.
Proof. reflexivity. Qed.

(** X20. A stored amount survives its rendering: the text that
    [String(transaction.money)] gives for an amount of the
    [DECIMAL(10, 2)] column, read the way the issuer reads a catalog price
    for that column, is the same amount to the hundredth. *)
Theorem stored_amount_survives_its_rendering :
  forall c : Numeric,
    Z.abs c < 10 ^ 10 ->
    numericOfPrice (stringOfNumeric c) = Some c.
Proof.
  intros c Hc. rewrite stringOfNumeric_eq.
  set (a := Z.abs c) in *.
  assert (Ha : 0 <= a) by (unfold a; lia).
  assert (Hq : 0 <= a / 100) by (apply Z.div_pos; lia).
  pose proof (Z.div_mod a 100 ltac:(lia)) as Hdm.
  pose proof (Z.mod_pos_bound a 100 ltac:(lia)) as Hf.
  set (q := a / 100) in *. set (f := a mod 100) in *.
  destruct (decimalString_digits q Hq) as (Hqa & Hql & _ & _ & _).
  assert (Hsign : (if c <? 0 then - a else a) = c).
  { unfold a. destruct (c <? 0) eqn:E; [apply Z.ltb_lt in E|apply Z.ltb_ge in E]; lia. }
  assert (Hfin : forall s m e,
            readLiteral s = LitDecimal (c <? 0) m e -> 0 <= e + 2 -> m * 10 ^ (e + 2) = a ->
            numericOfPrice s = Some c).
  { intros s m e Hs He Hm. unfold numericOfPrice. rewrite Hs.
    destruct (0 <=? e + 2) eqn:E; [|apply Z.leb_gt in E; lia].
    rewrite Hm. destruct (a <? 10 ^ 10) eqn:E2; [|apply Z.ltb_ge in E2; lia].
    rewrite <- Hsign at 2. destruct (c <? 0); reflexivity. }
  destruct (f =? 0) eqn:E0; [apply Z.eqb_eq in E0|apply Z.eqb_neq in E0].
  { eapply Hfin.
    - rewrite append_nil_r, (readLiteral_whole _ _ Hqa Hql), (digitsValue_decimal q Hq).
      reflexivity.
    - lia.
    - change (10 ^ (0 + 2)) with 100. lia. }
  pose proof (Z.div_mod f 10 ltac:(lia)) as Hdm'.
  pose proof (Z.mod_pos_bound f 10 ltac:(lia)) as Hf'.
  destruct (f mod 10 =? 0) eqn:E1; [apply Z.eqb_eq in E1|apply Z.eqb_neq in E1].
  { assert (Hg : 0 <= f / 10) by (apply Z.div_pos; lia).
    destruct (decimalString_digits (f / 10) Hg) as (Hga & Hgl & _ & _ & _).
    assert (Hlen : String.length (decimalString (f / 10)) = 1%nat)
      by (apply decimalString_length; [lia|change (10 ^ (Z.of_nat 1 - 1)) with 1;
          change (10 ^ Z.of_nat 1) with 10; lia]).
    eapply Hfin.
    - rewrite (readLiteral_fraction _ _ _ Hqa Hql Hga Hgl), Hlen,
              (digitsValue_decimal q Hq), (digitsValue_decimal _ Hg).
      reflexivity.
    - change (- Z.of_nat 1 + 2) with 1. lia.
    - change (10 ^ Z.of_nat 1) with 10. change (10 ^ (- Z.of_nat 1 + 2)) with 10. lia. }
  destruct (decimalString_digits f ltac:(lia)) as (Hfa & Hfl & _ & _ & _).
  destruct (f <? 10) eqn:E2; [apply Z.ltb_lt in E2|apply Z.ltb_ge in E2].
  { assert (Hlen : String.length (decimalString f) = 1%nat)
      by (apply decimalString_length; [lia|change (10 ^ (Z.of_nat 1 - 1)) with 1;
          change (10 ^ Z.of_nat 1) with 10; lia]).
    eapply Hfin.
    - change (".0" ++ decimalString f)%string with ("." ++ String "0" (decimalString f))%string.
      rewrite (readLiteral_fraction _ _ (String "0" (decimalString f)) Hqa Hql);
        [|unfold allDigits in *; cbn [list_ascii_of_string forallb]; rewrite Hfa; reflexivity
         |cbn [String.length]; lia].
      cbn [String.length digitsValue]. rewrite Hlen.
      change (10 * 0 + digitVal "0") with 0.
      rewrite (digitsValue_decimal q Hq), (digitsValue_decimal f ltac:(lia)).
      reflexivity.
    - change (- Z.of_nat 2 + 2) with 0. lia.
    - change (10 ^ Z.of_nat 2) with 100. change (10 ^ (- Z.of_nat 2 + 2)) with 1. lia. }
  assert (Hlen : String.length (decimalString f) = 2%nat)
    by (apply decimalString_length; [lia|change (10 ^ (Z.of_nat 2 - 1)) with 10;
        change (10 ^ Z.of_nat 2) with 100; lia]).
  eapply Hfin.
  - rewrite (readLiteral_fraction _ _ _ Hqa Hql Hfa Hfl), Hlen,
            (digitsValue_decimal q Hq), (digitsValue_decimal f ltac:(lia)).
    reflexivity.
  - change (- Z.of_nat 2 + 2) with 0. lia.
  - change (10 ^ Z.of_nat 2) with 100. change (10 ^ (- Z.of_nat 2 + 2)) with 1. lia.
Qed.

Lemma stored_amount_survives_its_rendering_witness :
  numericOfPrice (stringOfNumeric 990) = Some 990
  /\ stringOfNumeric 990 = "9.9".
Proof.
  split; [|reflexivity].
  apply (stored_amount_survives_its_rendering 990). reflexivity.
Defined.

(** * The pricing page *)

(** X21. What the pay button of the pricing page can do.  While a
    payment is being set up (the loading flag is set) a click does
    nothing; a visitor who is not signed in is sent to the sign-in page
    and no request is made.  Otherwise one request is made, carrying the
    clicked product and the payment type [alipay], and whatever comes
    back, the loading flag is set first and cleared last.  The browser is
    sent on only when the answer is JSON, its status is in 200..299 and it
    carries no error; it is then sent to the [url] of the answer. *)
Theorem pay_button_effects :
  forall st productId fetched,
    let effects := Pricing.handlePayment st productId fetched in
    (forall p, truthy (Pricing.loadingProductId st) = Some p -> effects = [])
    /\ (truthy (Pricing.loadingProductId st) = None -> Pricing.user st = None ->
        effects = [RouterPush (Pricing.signinRedirect st)])
    /\ (forall u, truthy (Pricing.loadingProductId st) = None -> Pricing.user st = Some u ->
        exists middle,
          effects = [SetLoadingProductId (Some productId);
                     Fetch "/api/checkout/providers/zpay/url"
                           [("productId", productId); ("payType", "alipay")]]
                    ++ middle ++ [SetLoadingProductId None]
          /\ filter isFetch middle = []
          /\ (List.length (filter isSetLocation middle) <= 1)%nat)
    /\ (forall href, In (SetLocation href) effects ->
        exists response,
          fetched = Some response /\ isJson response = true
          /\ responseOk response = true /\ isTruthy (dataError response) = false
          /\ href = dataUrl response).
Proof.
  intros st productId fetched effects. subst effects. unfold Pricing.handlePayment.
  split; [|split; [|split]].
  - intros p Hp. rewrite Hp. reflexivity.
  - intros Hl Hu. rewrite Hl, Hu. reflexivity.
  - intros u Hl Hu. rewrite Hl, Hu. eexists. split; [reflexivity|].
    destruct fetched as [response|]; [|split; [reflexivity|cbn; lia]].
    destruct (negb (isJson response)); [split; [reflexivity|cbn; lia]|].
    destruct (httpStatus response =? 401); [split; [reflexivity|cbn; lia]|].
    destruct (negb (responseOk response) || isTruthy (dataError response));
      split; try reflexivity; cbn; lia.
  - intros href Hin.
    destruct (truthy (Pricing.loadingProductId st)); [destruct Hin|].
    destruct (Pricing.user st); [|destruct Hin as [Hin|[]]; discriminate Hin].
    destruct fetched as [response|].
    2: { cbn in Hin. repeat (destruct Hin as [Hin|Hin]; [discriminate Hin|]). destruct Hin. }
    destruct (isJson response) eqn:Ej; cbn [negb] in Hin.
    2: { cbn in Hin. repeat (destruct Hin as [Hin|Hin]; [discriminate Hin|]). destruct Hin. }
    destruct (httpStatus response =? 401).
    { cbn in Hin. repeat (destruct Hin as [Hin|Hin]; [discriminate Hin|]). destruct Hin. }
    destruct (responseOk response) eqn:Eo; cbn [negb orb] in Hin.
    2: { cbn in Hin. repeat (destruct Hin as [Hin|Hin]; [discriminate Hin|]). destruct Hin. }
    destruct (isTruthy (dataError response)) eqn:Ee.
    { cbn in Hin. repeat (destruct Hin as [Hin|Hin]; [discriminate Hin|]). destruct Hin. }
    cbn in Hin. destruct Hin as [Hin|[Hin|[Hin|[Hin|[]]]]]; try discriminate Hin.
    injection Hin as <-. exists response. repeat split; assumption.
Qed.

Lemma pay_button_effects_witness :
  Pricing.handlePayment (Pricing.mkState (Some "pro-monthly") (Some "u1") "/pricing")
                        "basic-onetime" None
  = [].
Proof.
  apply (proj1 (pay_button_effects (Pricing.mkState (Some "pro-monthly") (Some "u1") "/pricing")
                  "basic-onetime" None) "pro-monthly").
  reflexivity.
Defined.

Lemma length_snoc_neq {A} (l : list A) x : l <> l ++ [x].
Proof.
  intros E. apply (f_equal (@List.length A)) in E. rewrite length_app in E. cbn in E. lia.
Qed.

(** X22. The pricing page against the issuer.  When a signed-in visitor
    clicks a pay button, the page's request reaches the issuer with the
    clicked product and [alipay]; the browser is sent to the gateway
    exactly when the issuer has persisted the order, and then to the very
    link the issuer returned, the new row being pending and for the
    clicked product.  On 401 the page forgets the user and goes to the
    sign-in page; on any other answer it shows the issuer's message; in
    both cases no order has been created. *)
Theorem pricing_page_navigates_iff_order_persisted :
  forall rt env products o w st productId u serverUser resp w' log,
    truthy (Pricing.loadingProductId st) = None ->
    Pricing.user st = Some u ->
    exec o (UrlRoute.POST rt env products serverUser (Some (pricingBody productId))) w
    = (resp, w', log) ->
    let effects := Pricing.handlePayment st productId (Some resp) in
    let request := Fetch "/api/checkout/providers/zpay/url"
                         [("productId", productId); ("payType", "alipay")] in
    (httpStatus resp = 200 ->
     exists url row,
       effects = [SetLoadingProductId (Some productId); request;
                  SetLocation (Some url); SetLoadingProductId None]
       /\ body resp = JsonUrl url
       /\ ledger w' = ledger w ++ [row]
       /\ status row = "pending" /\ product_id row = productId /\ type row = "alipay")
    /\ (httpStatus resp = 401 ->
        effects = [SetLoadingProductId (Some productId); request;
                   SetUser None; RouterPush (Pricing.signinRedirect st);
                   SetLoadingProductId None]
        /\ ledger w' = ledger w)
    /\ (httpStatus resp <> 200 -> httpStatus resp <> 401 ->
        exists msg,
          effects = [SetLoadingProductId (Some productId); request;
                     Alert msg; SetLoadingProductId None]
          /\ body resp = JsonError msg
          /\ ledger w' = ledger w)
    /\ ((exists href, In (SetLocation href) effects) <-> exists row, ledger w' = ledger w ++ [row]).
Proof.
  intros rt env products o w st productId u serverUser resp w' log Hl Hu E effects request.
  destruct (issuer_outcome rt env products o w serverUser _ resp w' log E) as [H200 Hother].
  assert (Heff : effects
            = [SetLoadingProductId (Some productId); request]
              ++ (if negb (isJson resp)
                  then [ConsoleError "支付请求失败:"; Alert "支付请求失败，请稍后重试"]
                  else if httpStatus resp =? 401
                  then [SetUser None; RouterPush (Pricing.signinRedirect st)]
                  else if negb (responseOk resp) || isTruthy (dataError resp)
                  then [Alert match truthy (dataError resp) with
                              | Some e => e
                              | None => "获取支付链接失败，请稍后重试"
                              end]
                  else [SetLocation (dataUrl resp)])
              ++ [SetLoadingProductId None]).
  { unfold effects, Pricing.handlePayment. rewrite Hl, Hu. reflexivity. }
  assert (C200 : httpStatus resp = 200 ->
            exists url row,
              effects = [SetLoadingProductId (Some productId); request;
                         SetLocation (Some url); SetLoadingProductId None]
              /\ body resp = JsonUrl url
              /\ ledger w' = ledger w ++ [row]
              /\ status row = "pending" /\ product_id row = productId /\ type row = "alipay").
  { intros Hs. destruct (H200 Hs) as (uid & b & product & m & url & _ & Hb & _ & _ & Hbody & Hled).
    injection Hb as <-. exists url. eexists. split; [|split; [exact Hbody|split; [exact Hled|]]].
    - rewrite Heff. unfold isJson, responseOk, isTruthy, dataError, dataUrl.
      rewrite Hbody, Hs. reflexivity.
    - repeat split. }
  assert (Cerr : httpStatus resp <> 200 ->
            ledger w' = ledger w
            /\ exists msg, body resp = JsonError msg /\ msg <> ""
                 /\ effects
                    = [SetLoadingProductId (Some productId); request]
                      ++ (if httpStatus resp =? 401
                          then [SetUser None; RouterPush (Pricing.signinRedirect st)]
                          else [Alert msg])
                      ++ [SetLoadingProductId None]).
  { intros Hs. destruct (Hother Hs) as [Hled [Hst [msg [Hbody Hmsg]]]].
    split; [exact Hled|]. exists msg. split; [exact Hbody|]. split; [exact Hmsg|].
    rewrite Heff. unfold isJson, responseOk, isTruthy, dataError.
    rewrite Hbody. cbn [negb].
    assert (Ht : truthy (Some msg) = Some msg) by (destruct msg; [contradiction|reflexivity]).
    rewrite Ht. destruct Hst as [-> | [-> | ->]]; reflexivity. }
  split; [exact C200|]. split; [|split].
  - intros Hs. assert (Hne : httpStatus resp <> 200) by lia.
    destruct (Cerr Hne) as [Hled [msg [_ [_ Heq]]]]. rewrite Hs in Heq.
    split; [exact Heq|exact Hled].
  - intros Hne Hne'. destruct (Cerr Hne) as [Hled [msg [Hbody [_ Heq]]]].
    exists msg. split; [|split; [exact Hbody|exact Hled]].
    rewrite Heq. apply Z.eqb_neq in Hne'. rewrite Hne'. reflexivity.
  - split.
    + intros [href Hin]. destruct (Z.eq_dec (httpStatus resp) 200) as [Hs|Hs].
      * destruct (C200 Hs) as (url & row & _ & _ & Hled & _). exists row. exact Hled.
      * exfalso. destruct (Cerr Hs) as [_ [msg [_ [_ Heq]]]]. rewrite Heq in Hin.
        destruct (httpStatus resp =? 401); cbn in Hin;
          repeat (destruct Hin as [Hin|Hin]; [discriminate Hin|]); destruct Hin.
    + intros [row Hrow]. destruct (Z.eq_dec (httpStatus resp) 200) as [Hs|Hs].
      * destruct (C200 Hs) as (url & row' & Heq & _). exists (Some url).
        rewrite Heq. cbn. tauto.
      * exfalso. destruct (Cerr Hs) as [Hled _]. rewrite Hled in Hrow.
        exact (length_snoc_neq _ _ Hrow).
Qed.

Lemma pricing_page_navigates_iff_order_persisted_witness :
  exists url row,
    Pricing.handlePayment (Pricing.mkState None (Some "u1") "/pricing") "pro-monthly"
      (Some (fst (fst (exec sampleOracle
                            (UrlRoute.POST nodeUTC sampleEnv sampleCatalog (Some "u1")
                                           (Some (pricingBody "pro-monthly")))
                            (mkWorld [] 0 0)))))
    = [SetLoadingProductId (Some "pro-monthly");
       Fetch "/api/checkout/providers/zpay/url" [("productId", "pro-monthly"); ("payType", "alipay")];
       SetLocation (Some url); SetLoadingProductId None]
    /\ ledger (snd (fst (exec sampleOracle
                              (UrlRoute.POST nodeUTC sampleEnv sampleCatalog (Some "u1")
                                             (Some (pricingBody "pro-monthly")))
                              (mkWorld [] 0 0))))
       = [] ++ [row]
    /\ status row = "pending".
Proof.
  destruct (exec sampleOracle
                 (UrlRoute.POST nodeUTC sampleEnv sampleCatalog (Some "u1")
                                (Some (pricingBody "pro-monthly")))
                 (mkWorld [] 0 0)) as [[resp w'] log] eqn:E.
  destruct (pricing_page_navigates_iff_order_persisted nodeUTC sampleEnv sampleCatalog sampleOracle
              (mkWorld [] 0 0) (Pricing.mkState None (Some "u1") "/pricing") "pro-monthly"
              "u1" (Some "u1") resp w' log eq_refl eq_refl E) as [H _].
  destruct H as (url & row & Heff & _ & Hled & Hs & _).
  - vm_compute in E. injection E as <- _ _. reflexivity.
  - exists url, row. cbn [fst snd]. split; [exact Heff|]. split; [exact Hled|exact Hs].
Defined.

(** * The purchase history *)

Lemma map_insertSorted {A B} (f : A -> B) (c : B -> B -> comparison) x l :
  map f (insertSorted (fun a b => c (f a) (f b)) x l) = insertSorted c (f x) (map f l).
Proof.
  induction l as [|y l IH]; [reflexivity|]. cbn [insertSorted map].
  destruct (c (f x) (f y)); cbn [map]; rewrite ?IH; reflexivity.
Qed.

Lemma map_sort {A B} (f : A -> B) (c : B -> B -> comparison) l :
  map f (sort (fun a b => c (f a) (f b)) l) = sort c (map f l).
Proof.
  induction l as [|x l IH]; [reflexivity|]. cbn [sort map].
  rewrite map_insertSorted, IH. reflexivity.
Qed.

(** X23. The purchase history lists the visitor's own orders, each once,
    latest first: a row is listed exactly when it is in the table and
    belongs to the signed-in visitor (an anonymous visitor is shown
    nothing), and the creation times of the listed rows never increase
    down the list. *)
Theorem purchase_history_lists_own_orders_latest_first :
  forall visitor db,
    (forall tx, In tx (PurchaseHistory.fetchTransactions visitor db)
                <-> In tx db /\ visitor = Some (user_id tx))
    /\ StronglySorted Z.ge (map created_at (PurchaseHistory.fetchTransactions visitor db))
    /\ (forall uid, visitor = Some uid ->
          Permutation (PurchaseHistory.fetchTransactions visitor db)
                      (filter (fun r => String.eqb (user_id r) uid) db)).
Proof.
  intros [uid|] db; cbn [PurchaseHistory.fetchTransactions].
  - split; [|split].
    + intros tx. rewrite sort_In, filter_In. split.
      * intros [Hin E]. apply String.eqb_eq in E. subst uid. split; [exact Hin|reflexivity].
      * intros [Hin [= ->]]. split; [exact Hin|apply String.eqb_refl].
    + change (fun a b : Transaction => (created_at b ?= created_at a))
        with (fun a b : Transaction => descending (created_at a) (created_at b)).
      rewrite (map_sort created_at descending). apply sort_descending.
    + intros uid' [= <-]. apply sort_perm.
  - split; [|split].
    + intros tx. split; [intros []|intros [_ H]; discriminate H].
    + constructor.
    + intros uid H. discriminate H.
Qed.

(** X24. The pay button of the purchase history against the
    regenerator.  For a row that the history lists with a pay button (a
    pending order of the visitor, with an order number), the click makes
    one request to the regenerator, which finds the order and answers
    with the link built from that row, and the browser is sent to it;
    the marker of the order being paid for is set first and cleared last.
    If by the time of the click no pending row of the visitor carries the
    number any more, the visitor is told that the order does not exist or
    is already paid and the browser stays. *)
Theorem history_pay_button_regenerates_the_link :
  forall rt env o w uid tx pid key baseUrl,
    truthy (ZPAY_PID env) = Some pid ->
    truthy (ZPAY_KEY env) = Some key ->
    truthy (NEXT_PUBLIC_BASE_URL env) = Some baseUrl ->
    out_trade_no tx <> "" ->
    let request := Fetch "/api/checkout/providers/zpay/repay" [("outTradeNo", out_trade_no tx)] in
    let answer := fst (fst (exec o (RepayRoute.POST rt env (Some uid) (Some (historyBody tx))) w)) in
    (NoDup (map out_trade_no (ledger w)) ->
     In tx (PurchaseHistory.fetchTransactions (Some uid) (ledger w)) ->
     PurchaseHistory.rowAction tx = PurchaseHistory.PayButton ->
     PurchaseHistory.handlePendingPayment tx (Some answer)
     = [SetPayingOrderNo (Some (out_trade_no tx)); request;
        SetLocation (Some (paymentUrl rt key (repayParams pid baseUrl tx)));
        SetPayingOrderNo None])
    /\ ((forall r, In r (ledger w) -> out_trade_no r = out_trade_no tx ->
                   user_id r <> uid \/ status r <> "pending") ->
        PurchaseHistory.handlePendingPayment tx (Some answer)
        = [SetPayingOrderNo (Some (out_trade_no tx)); request;
           Alert "获取支付链接失败: 订单不存在或已支付";
           SetPayingOrderNo None]).
Proof.
  intros rt env o w uid tx pid key baseUrl Hpid Hkey Hbase Hno request answer.
  assert (Htr : truthy (Some (out_trade_no tx)) = Some (out_trade_no tx))
    by (destruct (out_trade_no tx); [contradiction|reflexivity]).
  split.
  - intros Hnd Hin Hact.
    cbn [PurchaseHistory.fetchTransactions] in Hin. apply sort_In, filter_In in Hin.
    destruct Hin as [Hin Hu]. apply String.eqb_eq in Hu.
    assert (Hs : status tx = "pending").
    { unfold PurchaseHistory.rowAction in Hact.
      destruct (String.eqb (status tx) "pending") eqn:E; [apply String.eqb_eq; exact E|].
      destruct (String.eqb (status tx) "paid"); discriminate Hact. }
    assert (Ha : answer = mkResponse (JsonUrl (paymentUrl rt key (repayParams pid baseUrl tx))) 200).
    { unfold answer, RepayRoute.POST, historyBody. cbn [RepayRoute.outTradeNo].
      rewrite Htr. cbn [exec].
      rewrite (selectOwnPending_found uid (out_trade_no tx) (ledger w) tx Hnd Hin eq_refl Hu Hs).
      rewrite Hpid, Hkey, Hbase. reflexivity. }
    rewrite Ha. reflexivity.
  - intros Hgone.
    assert (Ha : answer = mkResponse (JsonError "订单不存在或已支付") 404).
    { unfold answer, RepayRoute.POST, historyBody. cbn [RepayRoute.outTradeNo].
      rewrite Htr. cbn [exec].
      rewrite (selectOwnPending_none uid (out_trade_no tx) (ledger w) Hgone). reflexivity. }
    rewrite Ha. reflexivity.
Qed.

Lemma history_pay_button_regenerates_the_link_witness :
  PurchaseHistory.handlePendingPayment pendingOrder
    (Some (fst (fst (exec sampleOracle
                          (RepayRoute.POST nodeUTC sampleEnv (Some "u1")
                                           (Some (historyBody pendingOrder))) sampleWorld))))
  = [SetPayingOrderNo (Some "20250401000000002");
     Fetch "/api/checkout/providers/zpay/repay" [("outTradeNo", "20250401000000002")];
     SetLocation (Some (paymentUrl nodeUTC "secret"
                          (repayParams "1001" "https://shop.example" pendingOrder)));
     SetPayingOrderNo None].
Proof.
  assert (Hno : out_trade_no pendingOrder <> "") by discriminate.
  apply (proj1 (history_pay_button_regenerates_the_link nodeUTC sampleEnv sampleOracle sampleWorld
                  "u1" pendingOrder "1001" "secret" "https://shop.example"
                  eq_refl eq_refl eq_refl Hno)).
  - repeat constructor; cbn; intuition discriminate.
  - cbn. left. reflexivity.
  - reflexivity.
Defined.

(** * Two renewals of one user *)

(** An update leaves the rows of other order numbers as they are. *)
Lemma select_other data no st db no' :
  no' <> no ->
  dbSelectByOutTradeNo no' (fst (dbUpdate data no st db)) = dbSelectByOutTradeNo no' db.
Proof.
  intros Hne. unfold dbSelectByOutTradeNo, dbUpdate. cbn [fst]. f_equal.
  induction db as [|r db IH]; [reflexivity|]. cbn [map filter].
  assert (Hout : out_trade_no (if updateMatches no st r then applyUpdate data r else r)
                 = out_trade_no r) by (destruct (updateMatches no st r); reflexivity).
  rewrite Hout. destruct (String.eqb (out_trade_no r) no') eqn:En; [|exact IH].
  assert (Em : updateMatches no st r = false).
  { unfold updateMatches. apply String.eqb_eq in En.
    assert (E : String.eqb (out_trade_no r) no = false) by (apply String.eqb_neq; congruence).
    rewrite E. reflexivity. }
  rewrite Em, IH. reflexivity.
Qed.

(** The rows of a table after the update of the one pending order [t]. *)
Lemma rows_after_update data no db t r' :
  dbSelectByOutTradeNo no db = Some t -> status t = "pending" ->
  In r' (fst (dbUpdate data no "pending" db)) ->
  r' = applyUpdate data t \/ (In r' db /\ out_trade_no r' <> no).
Proof.
  intros Hf Hs Hin. unfold dbUpdate in Hin. cbn [fst] in Hin.
  apply in_map_iff in Hin. destruct Hin as [r [<- Hr]].
  unfold dbSelectByOutTradeNo in Hf. apply single_Some in Hf.
  unfold updateMatches.
  destruct (String.eqb (out_trade_no r) no) eqn:E; cbn [andb].
  - assert (Hin : In r (filter (fun x => String.eqb (out_trade_no x) no) db))
      by (apply filter_In; split; assumption).
    rewrite Hf in Hin. destruct Hin as [<-|[]].
    rewrite Hs. left. reflexivity.
  - right. split; [exact Hr|]. apply String.eqb_neq. exact E.
Qed.

Lemma select_In no db t : dbSelectByOutTradeNo no db = Some t -> In t db /\ out_trade_no t = no.
Proof.
  unfold dbSelectByOutTradeNo. intros Hf. apply single_Some in Hf.
  assert (Hin : In t (filter (fun x => String.eqb (out_trade_no x) no) db))
    by (rewrite Hf; left; reflexivity).
  apply filter_In in Hin. destruct Hin as [Hin E]. apply String.eqb_eq in E. tauto.
Qed.

(** The answer of the subscription query when the latest window of the
    user is known. *)
Lemma active_latest uid now db e :
  (exists r, In r db /\ activeSubscription uid now r = true /\ subscription_end_date r = Some e) ->
  (forall r, In r db -> activeSubscription uid now r = true -> endDateOf r <= e) ->
  dbSelectActiveSubscriptions uid now db = [e].
Proof.
  intros [r0 [Hr0 [Ha0 He0]]] Hmax.
  destruct (dbSelectActiveSubscriptions uid now db) as [|x rest] eqn:E.
  - pose proof (proj1 (activeSubscriptions_none _ _ _) E r0 Hr0). congruence.
  - destruct (activeSubscriptions_latest _ _ _ _ _ E) as [-> [[r [Hr [Ha He]]] Hge]].
    f_equal. specialize (Hmax r Hr Ha). specialize (Hge r0 Hr0 Ha0).
    unfold endDateOf in *. rewrite He in Hmax. rewrite He0 in Hge. lia.
Qed.

Lemma activeSubscription_iff uid now r :
  activeSubscription uid now r = true
  <-> paidSubscriptionOf uid r /\ exists e, subscription_end_date r = Some e /\ now < e.
Proof.
  unfold activeSubscription, paidSubscriptionOf. split.
  - intros H. apply andb_prop in H. destruct H as [H He].
    apply andb_prop in H. destruct H as [H Hs]. apply andb_prop in H. destruct H as [Hu Hi].
    apply String.eqb_eq in Hu, Hs.
    destruct (subscription_end_date r) as [e|]; [|discriminate].
    apply Z.ltb_lt in He. repeat split; try assumption. exists e. split; [reflexivity|exact He].
  - intros [[Hu [Hi Hs]] [e [He Hlt]]]. rewrite Hu, Hi, Hs, He, !String.eqb_refl.
    apply Z.ltb_lt in Hlt. rewrite Hlt. reflexivity.
Qed.

(** With a start date in range, the handler from the start date on is the
    conditional update. *)
Lemma withSubscription_handler rt period tradeNo updated_at no start :
  ordinaryTime start ->
  WebhookRoute.withSubscription rt period tradeNo updated_at no (Some start)
  = WebhookRoute.conditionalUpdate
      (mkUpdateData "paid" tradeNo updated_at (Some (start, periodEnd rt period start))) no.
Proof.
  intros Hs. unfold WebhookRoute.withSubscription.
  assert (Hend : validTime (periodEnd rt period start)).
  { pose proof (periodEnd_range rt period start).
    unfold ordinaryTime, validTime, msPerDay in *. lia. }
  unfold periodEnd in *.
  destruct (String.eqb period "monthly"); [|destruct (String.eqb period "yearly")].
  - destruct (setMonth_next rt start) as [len [_ [_ E]]]. rewrite E.
    rewrite (TimeClip_valid _ Hend). reflexivity.
  - destruct (setFullYear_next rt start) as [len [_ [_ E]]]. rewrite E.
    rewrite (TimeClip_valid _ Hend). reflexivity.
  - reflexivity.
Qed.

Section Racing.
Variables (rt : Runtime) (env : ProcessEnv) (products : Catalog) (o : Oracle).

Lemma step_head w h ev w' h' rest :
  step o w h = Some (ev, w', h') ->
  reaches rt env products o (mkSystem w (h :: rest)) (mkSystem w' (h' :: rest)).
Proof.
  intros Hs. eapply reachesStep; [apply reachesRefl|].
  apply (advance rt env products o (mkSystem w (h :: rest)) 0%nat h ev w' h'); [reflexivity|exact Hs].
Qed.

(** A delivery for a pending subscription order, run as far as its reads
    go while a window of the user is still open: it has read the clock
    twice and now waits to issue its update, whose window starts where
    the open window ends. *)
Lemma delivery_waits_to_write sp w t period e rest :
  verifiedSuccess rt env sp ->
  dbSelectByOutTradeNo (orEmpty (get sp "out_trade_no")) (ledger w) = Some t ->
  status t = "pending" ->
  WebhookRoute.amountMismatch (parseFloat (orEmpty (get sp "money")))
                              (numberOfNumeric (money t)) = false ->
  is_subscription t = true ->
  truthy (subscription_period t) = Some period ->
  ordinaryTimes o (ledger w) ->
  dbSelectActiveSubscriptions (user_id t) (clock o (S (ticks w))) (ledger w) = [e] ->
  reaches rt env products o
    (mkSystem w (WebhookRoute.GET rt env sp :: rest))
    (mkSystem (tick (tick w))
       (WebhookRoute.conditionalUpdate
          (mkUpdateData "paid" (orEmpty (get sp "trade_no")) (clock o (ticks w))
                        (Some (e, periodEnd rt period e)))
          (orEmpty (get sp "out_trade_no")) :: rest)).
Proof.
  intros Hv Hf Hs Hm Hsub Hper Ho Hact. pose proof Ho as [Hc Hl].
  rewrite (GET_verified _ _ _ Hv).
  eapply reaches_trans; [eapply step_head; reflexivity|].
  rewrite Hf. unfold WebhookRoute.reconcile. rewrite Hs, Hm.
  cbn [String.eqb Ascii.eqb Bool.eqb]. unfold WebhookRoute.settle.
  eapply reaches_trans; [eapply step_head; reflexivity|].
  rewrite (TimeClip_valid _ (ordinaryTime_valid _ (Hc (ticks w)))).
  cbn [toISOString]. rewrite Hsub, Hper.
  eapply reaches_trans; [eapply step_head; reflexivity|].
  cbn [tick ticks]. rewrite (TimeClip_valid _ (ordinaryTime_valid _ (Hc (S (ticks w))))).
  cbn [toISOString].
  eapply reaches_trans; [eapply step_head; reflexivity|].
  cbn [ledger tick]. rewrite Hact.
  assert (He : ordinaryTime e).
  { assert (Hin : In e (dbSelectActiveSubscriptions (user_id t) (clock o (S (ticks w))) (ledger w)))
      by (rewrite Hact; left; reflexivity).
    destruct (activeSubscriptions_latest _ _ _ _ _ Hact) as [_ [[r [Hr [_ Hre]]] _]].
    eapply Hl; eassumption. }
  unfold newDateOf. rewrite (TimeClip_valid _ (ordinaryTime_valid _ He)).
  rewrite (withSubscription_handler _ _ _ _ _ _ He). apply reachesRefl.
Qed.

End Racing.

Lemma exec_ticks o h : forall w, (ticks w <= ticks (snd (fst (exec o h w))))%nat.
Proof.
  induction h as [r|k IH|k IH|no k IH|uid no k IH|uid now k IH|data no st k IH|data k IH];
    intros w; cbn [exec].
  - cbn. lia.
  - specialize (IH (TimeClip (clock o (ticks w))) (tick w)).
    destruct (exec o (k _) (tick w)) as [[resp w'] log]. cbn in *. lia.
  - specialize (IH (random o (draws w) mod 1000) (draw w)).
    destruct (exec o (k _) (draw w)) as [[resp w'] log]. cbn in *. lia.
  - specialize (IH (dbSelectByOutTradeNo no (ledger w)) w).
    destruct (exec o (k _) w) as [[resp w'] log]. exact IH.
  - specialize (IH (dbSelectOwnPending uid no (ledger w)) w).
    destruct (exec o (k _) w) as [[resp w'] log]. exact IH.
  - specialize (IH (Some (dbSelectActiveSubscriptions uid now (ledger w))) w).
    destruct (exec o (k _) w) as [[resp w'] log]. exact IH.
  - destruct (dbUpdate data no st (ledger w)) as [db rows].
    specialize (IH (Some rows) (withLedger w db)).
    destruct (exec o (k _) (withLedger w db)) as [[resp w'] log]. exact IH.
  - destruct (dbInsert data (clock o (ticks w)) (ledger w)) as [db|].
    + specialize (IH false (tick (withLedger w db))).
      destruct (exec o (k _) (tick (withLedger w db))) as [[resp w'] log]. cbn in *. lia.
    + specialize (IH true w).
      destruct (exec o (k _) w) as [[resp w'] log]. exact IH.
Qed.

Lemma earlyTimes_ordinary o db : earlyTimes o db -> ordinaryTimes o db.
Proof.
  intros [Hc Hl]. split.
  - intros n. specialize (Hc n). unfold ordinaryTime. lia.
  - intros r e Hr He. specialize (Hl r e Hr He). unfold ordinaryTime. lia.
Qed.

Lemma windowStart_early o w uid :
  earlyTimes o (ledger w) -> 0 <= windowStart o w uid <= 7000000000000000.
Proof.
  intros [Hc Hl]. unfold windowStart.
  destruct (dbSelectActiveSubscriptions _ _ _) as [|e rest] eqn:E; [apply Hc|].
  destruct (activeSubscriptions_latest _ _ _ _ _ E) as [_ [[r [Hr [_ He]]] _]].
  eapply Hl; eassumption.
Qed.

Lemma windowStart_is_latest o w uid r :
  In r (ledger w) -> activeSubscription uid (clock o (S (ticks w))) r = true ->
  endDateOf r <= windowStart o w uid.
Proof.
  intros Hr Ha. unfold windowStart.
  destruct (dbSelectActiveSubscriptions uid (clock o (S (ticks w))) (ledger w)) as [|e rest] eqn:E.
  - pose proof (proj1 (activeSubscriptions_none _ _ _) E r Hr). congruence.
  - destruct (activeSubscriptions_latest _ _ _ _ _ E) as [_ [_ Hmax]]. apply Hmax; assumption.
Qed.

(** X25. Renewals reconciled one after the other stack end to end.  Two
    pending subscription orders of one user whose success notifications
    are reconciled in turn (the clock not running backwards) both end up
    paid, and the window of the second starts exactly where the window of
    the first ends, provided the second is reconciled before that end. *)
Theorem renewals_in_turn_stack_end_to_end :
  forall rt env o w sp1 sp2 t1 t2 p1 p2,
    verifiedSuccess rt env sp1 -> verifiedSuccess rt env sp2 ->
    let no1 := orEmpty (get sp1 "out_trade_no") in
    let no2 := orEmpty (get sp2 "out_trade_no") in
    no1 <> no2 ->
    dbSelectByOutTradeNo no1 (ledger w) = Some t1 ->
    dbSelectByOutTradeNo no2 (ledger w) = Some t2 ->
    status t1 = "pending" -> status t2 = "pending" ->
    WebhookRoute.amountMismatch (parseFloat (orEmpty (get sp1 "money")))
                                (numberOfNumeric (money t1)) = false ->
    WebhookRoute.amountMismatch (parseFloat (orEmpty (get sp2 "money")))
                                (numberOfNumeric (money t2)) = false ->
    is_subscription t1 = true -> truthy (subscription_period t1) = Some p1 ->
    is_subscription t2 = true -> truthy (subscription_period t2) = Some p2 ->
    user_id t1 = user_id t2 ->
    earlyTimes o (ledger w) ->
    (forall i j, (i <= j)%nat -> clock o i <= clock o j) ->
    exists w1 log1 w2 log2 r1 r2 e1,
      exec o (WebhookRoute.GET rt env sp1) w = (WebhookRoute.success, w1, log1)
      /\ exec o (WebhookRoute.GET rt env sp2) w1 = (WebhookRoute.success, w2, log2)
      /\ dbSelectByOutTradeNo no1 (ledger w2) = Some r1
      /\ dbSelectByOutTradeNo no2 (ledger w2) = Some r2
      /\ status r1 = "paid" /\ status r2 = "paid"
      /\ subscription_end_date r1 = Some e1
      /\ (clock o (S (ticks w1)) < e1 ->
          subscription_start_date r2 = Some e1
          /\ subscription_end_date r2 = Some (periodEnd rt p2 e1)).
Proof.
  intros rt env o w sp1 sp2 t1 t2 p1 p2 Hv1 Hv2 no1 no2 Hne Hf1 Hf2 Hs1 Hs2 Hm1 Hm2
         Hsub1 Hper1 Hsub2 Hper2 Huser Hearly Hmono.
  pose proof (earlyTimes_ordinary _ _ Hearly) as Ho.
  destruct (webhook_pays rt env o sp1 w t1 Hv1 Hf1 Hs1 Hm1 Ho) as (w1 & pre1 & E1 & _ & Hl1 & Hsel1).
  cbv zeta in E1, Hl1, Hsel1. fold no1 in E1, Hl1, Hsel1.
  set (data1 := settledData rt o w (orEmpty (get sp1 "trade_no")) t1) in *.
  set (s1 := windowStart o w (user_id t1)).
  set (e1 := periodEnd rt p1 s1).
  assert (Hd1 : set_subscription_dates data1 = Some (s1, e1)).
  { unfold data1, settledData. rewrite Hsub1, Hper1. reflexivity. }
  assert (Hend1 : subscription_end_date (applyUpdate data1 t1) = Some e1).
  { cbn [applyUpdate subscription_end_date]. rewrite Hd1. reflexivity. }
  pose proof (windowStart_early o w (user_id t1) Hearly) as Hs1r. fold s1 in Hs1r.
  pose proof (periodEnd_range rt p1 s1) as He1r. fold e1 in He1r. unfold msPerDay in He1r.
  (* the table after the first delivery *)
  assert (Hf2' : dbSelectByOutTradeNo no2 (ledger w1) = Some t2).
  { rewrite Hl1, select_other; [exact Hf2|]. congruence. }
  assert (Ho1 : ordinaryTimes o (ledger w1)).
  { destruct Hearly as [Hc Hl]. split.
    - intros n. specialize (Hc n). unfold ordinaryTime. lia.
    - intros r e Hr He. rewrite Hl1 in Hr.
      destruct (rows_after_update _ _ _ _ _ Hf1 Hs1 Hr) as [-> | [Hr' _]].
      + rewrite Hend1 in He. injection He as <-. unfold ordinaryTime. lia.
      + specialize (Hl r e Hr' He). unfold ordinaryTime. lia. }
  destruct (webhook_pays rt env o sp2 w1 t2 Hv2 Hf2' Hs2 Hm2 Ho1) as (w2 & pre2 & E2 & _ & Hl2 & Hsel2).
  cbv zeta in E2, Hl2, Hsel2. fold no2 in E2, Hl2, Hsel2.
  set (data2 := settledData rt o w1 (orEmpty (get sp2 "trade_no")) t2) in *.
  exists w1. eexists. exists w2. eexists. exists (applyUpdate data1 t1), (applyUpdate data2 t2), e1.
  split; [exact E1|]. split; [exact E2|].
  split; [rewrite Hl2, select_other; [exact Hsel1|exact Hne]|].
  split; [exact Hsel2|]. split; [reflexivity|]. split; [reflexivity|]. split; [exact Hend1|].
  intros Hbefore.
  (* the subscription query of the second delivery returns the end of the first window *)
  assert (Hq : dbSelectActiveSubscriptions (user_id t2) (clock o (S (ticks w1))) (ledger w1) = [e1]).
  { apply active_latest.
    - exists (applyUpdate data1 t1). split; [exact (proj1 (select_In _ _ _ Hsel1))|].
      split; [|exact Hend1]. apply activeSubscription_iff. split.
      + repeat split; [cbn; exact Huser|exact Hsub1].
      + exists e1. split; [exact Hend1|exact Hbefore].
    - intros r Hr Ha. rewrite Hl1 in Hr.
      destruct (rows_after_update _ _ _ _ _ Hf1 Hs1 Hr) as [-> | [Hr' _]].
      + unfold endDateOf. rewrite Hend1. lia.
      + assert (Ha1 : activeSubscription (user_id t1) (clock o (S (ticks w))) r = true).
        { apply activeSubscription_iff in Ha. destruct Ha as [[Hu Hp] [e [He Hlt]]].
          apply activeSubscription_iff. split; [split; [congruence|exact Hp]|].
          exists e. split; [exact He|].
          assert (Ht : (S (ticks w) <= S (ticks w1))%nat).
          { pose proof (exec_ticks o (WebhookRoute.GET rt env sp1) w) as Ht.
            rewrite E1 in Ht. cbn [fst snd] in Ht. lia. }
          specialize (Hmono _ _ Ht). lia. }
        pose proof (windowStart_is_latest o w (user_id t1) r Hr' Ha1) as Hle. fold s1 in Hle. lia. }
  assert (Hd2 : set_subscription_dates data2 = Some (e1, periodEnd rt p2 e1)).
  { unfold data2, settledData. rewrite Hsub2, Hper2. unfold windowStart. rewrite Hq. reflexivity. }
  cbn [applyUpdate subscription_start_date subscription_end_date]. rewrite Hd2. split; reflexivity.
Qed.

Lemma second_verified : verifiedSuccess nodeUTC sampleEnv secondNotification.
Proof. exists "secret". repeat split; vm_compute; reflexivity. Qed.

Lemma renewal_rows r :
  In r (ledger renewalWorld) -> r = paidOrder \/ r = pendingOrder \/ r = secondPendingOrder.
Proof. intros [<-|[<-|[<-|[]]]]; auto. Qed.

(** 2025-04-01: the open window ends on 2025-04-15, the first renewal
    moves the end to 2025-05-15 and the second to 2025-06-15. *)
Lemma renewals_in_turn_stack_end_to_end_witness :
  exists w1 log1 w2 log2 r1 r2 e1,
    exec sampleOracle (WebhookRoute.GET nodeUTC sampleEnv sampleNotification) renewalWorld
    = (WebhookRoute.success, w1, log1)
    /\ exec sampleOracle (WebhookRoute.GET nodeUTC sampleEnv secondNotification) w1
       = (WebhookRoute.success, w2, log2)
    /\ dbSelectByOutTradeNo "20250401000000002" (ledger w2) = Some r1
    /\ dbSelectByOutTradeNo "20250401000000003" (ledger w2) = Some r2
    /\ status r1 = "paid" /\ status r2 = "paid"
    /\ subscription_end_date r1 = Some e1
    /\ (clock sampleOracle (S (ticks w1)) < e1 ->
        subscription_start_date r2 = Some e1
        /\ subscription_end_date r2 = Some (periodEnd nodeUTC "monthly" e1)).
Proof.
  apply (renewals_in_turn_stack_end_to_end nodeUTC sampleEnv sampleOracle renewalWorld
           sampleNotification secondNotification pendingOrder secondPendingOrder
           "monthly" "monthly").
  - exact sample_verified.
  - exact second_verified.
  - discriminate.
  - reflexivity.
  - reflexivity.
  - reflexivity.
  - reflexivity.
  - vm_compute. reflexivity.
  - vm_compute. reflexivity.
  - reflexivity.
  - reflexivity.
  - reflexivity.
  - reflexivity.
  - reflexivity.
  - split.
    + intros n. unfold sampleOracle. cbn [clock]. lia.
    + intros r e Hr He. destruct (renewal_rows r Hr) as [->|[->| ->]]; cbn in He;
        [injection He as <-; lia|discriminate He|discriminate He].
  - intros i j Hij. unfold sampleOracle. cbn [clock]. lia.
Defined.

(** X26. Renewals reconciled at the same time can share one window.  The
    conditional update protects each order, not the user's windows: when
    two pending subscription orders of one user are notified while a
    window of the user is still open (ending at [e], later than every
    clock reading), there is an interleaving of the two deliveries (the
    first reads, the second runs to its end, the first writes) after
    which both orders are paid and both windows start at [e], instead of
    one after the other. *)
Theorem concurrent_renewals_can_share_one_window :
  forall rt env products o w sp1 sp2 t1 t2 p1 p2 e,
    verifiedSuccess rt env sp1 -> verifiedSuccess rt env sp2 ->
    let no1 := orEmpty (get sp1 "out_trade_no") in
    let no2 := orEmpty (get sp2 "out_trade_no") in
    no1 <> no2 ->
    dbSelectByOutTradeNo no1 (ledger w) = Some t1 ->
    dbSelectByOutTradeNo no2 (ledger w) = Some t2 ->
    status t1 = "pending" -> status t2 = "pending" ->
    WebhookRoute.amountMismatch (parseFloat (orEmpty (get sp1 "money")))
                                (numberOfNumeric (money t1)) = false ->
    WebhookRoute.amountMismatch (parseFloat (orEmpty (get sp2 "money")))
                                (numberOfNumeric (money t2)) = false ->
    is_subscription t1 = true -> truthy (subscription_period t1) = Some p1 ->
    is_subscription t2 = true -> truthy (subscription_period t2) = Some p2 ->
    user_id t1 = user_id t2 ->
    ordinaryTimes o (ledger w) ->
    (exists r0, In r0 (ledger w) /\ paidSubscriptionOf (user_id t1) r0
                /\ subscription_end_date r0 = Some e) ->
    (forall r, In r (ledger w) -> paidSubscriptionOf (user_id t1) r -> endDateOf r <= e) ->
    (forall n, clock o n < e) ->
    exists s r1 r2,
      reaches rt env products o
        (mkSystem w [WebhookRoute.GET rt env sp1; WebhookRoute.GET rt env sp2]) s
      /\ inflight s = [Respond WebhookRoute.success; Respond WebhookRoute.success]
      /\ dbSelectByOutTradeNo no1 (ledger (world s)) = Some r1
      /\ dbSelectByOutTradeNo no2 (ledger (world s)) = Some r2
      /\ status r1 = "paid" /\ status r2 = "paid"
      /\ subscription_start_date r1 = Some e /\ subscription_start_date r2 = Some e
      /\ subscription_end_date r1 = Some (periodEnd rt p1 e)
      /\ subscription_end_date r2 = Some (periodEnd rt p2 e).
Proof.
  intros rt env products o w sp1 sp2 t1 t2 p1 p2 e Hv1 Hv2 no1 no2 Hne Hf1 Hf2 Hs1 Hs2 Hm1 Hm2
         Hsub1 Hper1 Hsub2 Hper2 Huser Ho [r0 [Hr0 [Hp0 He0]]] Hmax Hclock.
  assert (Hq : forall n, dbSelectActiveSubscriptions (user_id t1) (clock o n) (ledger w) = [e]).
  { intros n. apply active_latest.
    - exists r0. split; [exact Hr0|]. split; [|exact He0].
      apply activeSubscription_iff. split; [exact Hp0|]. exists e. split; [exact He0|apply Hclock].
    - intros r Hr Ha. apply activeSubscription_iff in Ha. apply Hmax; tauto. }
  (* the first delivery reads *)
  pose proof (delivery_waits_to_write rt env products o sp1 w t1 p1 e
                [WebhookRoute.GET rt env sp2] Hv1 Hf1 Hs1 Hm1 Hsub1 Hper1 Ho (Hq _)) as HA.
  fold no1 in HA.
  set (data1 := mkUpdateData "paid" (orEmpty (get sp1 "trade_no")) (clock o (ticks w))
                             (Some (e, periodEnd rt p1 e))) in *.
  set (wA := tick (tick w)) in *.
  (* the second delivery runs to its end *)
  assert (HoA : ordinaryTimes o (ledger wA)) by exact Ho.
  destruct (webhook_pays rt env o sp2 wA t2 Hv2 Hf2 Hs2 Hm2 HoA) as (wB & pre2 & E2 & _ & Hl2 & Hsel2).
  cbv zeta in E2, Hl2, Hsel2. fold no2 in E2, Hl2, Hsel2.
  set (data2 := settledData rt o wA (orEmpty (get sp2 "trade_no")) t2) in *.
  assert (Hd2 : set_subscription_dates data2 = Some (e, periodEnd rt p2 e)).
  { unfold data2, settledData. rewrite Hsub2, Hper2. unfold windowStart.
    change (ledger wA) with (ledger w). rewrite <- Huser, (Hq _). reflexivity. }
  pose proof (exec_reaches rt env products o (WebhookRoute.GET rt env sp2) wA
                [WebhookRoute.conditionalUpdate data1 no1]) as HB.
  rewrite E2 in HB. cbn [fst snd app] in HB.
  (* the first delivery writes *)
  assert (Hf1B : dbSelectByOutTradeNo no1 (ledger wB) = Some t1).
  { rewrite Hl2, select_other; [exact Hf1|exact Hne]. }
  destruct (dbUpdate_pending data1 no1 (ledger wB) t1 Hf1B Hs1) as [Hrows Hsel1].
  assert (HC : reaches rt env products o
                 (mkSystem wB [WebhookRoute.conditionalUpdate data1 no1; Respond WebhookRoute.success])
                 (mkSystem (withLedger wB (fst (dbUpdate data1 no1 "pending" (ledger wB))))
                           [Respond WebhookRoute.success; Respond WebhookRoute.success])).
  { eapply step_head. unfold WebhookRoute.conditionalUpdate. cbn [step].
    destruct (dbUpdate data1 no1 "pending" (ledger wB)) as [db rows] eqn:Eu.
    cbn [fst snd] in *. rewrite Hrows. reflexivity. }
  eexists. exists (applyUpdate data1 t1), (applyUpdate data2 t2).
  split; [exact (reaches_trans _ _ _ _ _ _ _ (reaches_trans _ _ _ _ _ _ _ HA HB) HC)|].
  cbn [inflight world withLedger ledger].
  split; [reflexivity|]. split; [exact Hsel1|].
  split; [rewrite select_other; [exact Hsel2|congruence]|].
  split; [reflexivity|]. split; [reflexivity|].
  cbn [applyUpdate subscription_start_date subscription_end_date]. rewrite Hd2.
  repeat split.
Qed.

Lemma concurrent_renewals_can_share_one_window_witness :
  exists s r1 r2,
    reaches nodeUTC sampleEnv sampleCatalog sampleOracle
      (mkSystem renewalWorld [WebhookRoute.GET nodeUTC sampleEnv sampleNotification;
                              WebhookRoute.GET nodeUTC sampleEnv secondNotification]) s
    /\ inflight s = [Respond WebhookRoute.success; Respond WebhookRoute.success]
    /\ dbSelectByOutTradeNo "20250401000000002" (ledger (world s)) = Some r1
    /\ dbSelectByOutTradeNo "20250401000000003" (ledger (world s)) = Some r2
    /\ status r1 = "paid" /\ status r2 = "paid"
    /\ subscription_start_date r1 = Some 1744675200000
    /\ subscription_start_date r2 = Some 1744675200000
    /\ subscription_end_date r1 = Some (periodEnd nodeUTC "monthly" 1744675200000)
    /\ subscription_end_date r2 = Some (periodEnd nodeUTC "monthly" 1744675200000).
Proof.
  apply (concurrent_renewals_can_share_one_window nodeUTC sampleEnv sampleCatalog sampleOracle
           renewalWorld sampleNotification secondNotification pendingOrder secondPendingOrder
           "monthly" "monthly" 1744675200000).
  - exact sample_verified.
  - exact second_verified.
  - discriminate.
  - reflexivity.
  - reflexivity.
  - reflexivity.
  - reflexivity.
  - vm_compute. reflexivity.
  - vm_compute. reflexivity.
  - reflexivity.
  - reflexivity.
  - reflexivity.
  - reflexivity.
  - reflexivity.
  - split.
    + intros n. unfold ordinaryTime, sampleOracle. cbn [clock]. lia.
    + intros r e Hr He. destruct (renewal_rows r Hr) as [->|[->| ->]]; cbn in He;
        [injection He as <-; unfold ordinaryTime; lia|discriminate He|discriminate He].
  - exists paidOrder. split; [left; reflexivity|]. repeat split.
  - intros r Hr _. destruct (renewal_rows r Hr) as [->|[->| ->]]; cbn; lia.
  - intros n. unfold sampleOracle. cbn [clock]. lia.
Defined.
